(** * The TFTP client of gPXE: [src/net/udp/tftp.c]

    A shallow embedding of the request engine (option processing, block
    assembly, retransmission timer, packet dispatch) and the properties
    of it that the specification states.

    Conventions of the embedding:
    - [unsigned int], [unsigned long] and [size_t] are 32 bits wide (gPXE
      is built for i386); they are values of [Z] with the wrap-around
      written out by [uint];  [off_t] is [signed long].
    - a received packet is the list of its bytes; a C string is the
      [string] of the characters before its terminating NUL.
    - the request lives in a [world] together with the two global
      configuration variables, the trace of the calls made into the
      external collaborators (timer, sockets, downstream interface) and
      the answers those collaborators will give to the fallible calls.
    - a handler is a computation in the monad [M]; it yields [None] where
      the C program has no defined behaviour (the division by a zero
      block size, a request without path).  The block bitmap and the
      buffer of the RRQ are described within their bounds only: see
      [bitmap_set], [tftp_send_rrq] and [rrq_fits]. *)

From Stdlib Require Import ZArith Lia List Bool Strings.String Strings.Ascii Strings.Byte.
From stdpp Require Import base numbers list strings pretty.
Import ListNotations.
Local Open Scope Z_scope.

(** ** Machine integers *)

Definition uint (x : Z) : Z := x mod 2 ^ 32.

Definition uint16 (x : Z) : Z := x mod 2 ^ 16.

(** Conversion of a 32-bit pattern to [signed long] / [int]. *)
Definition to_signed (x : Z) : Z :=
  let y := uint x in if y <? 2 ^ 31 then y else y - 2 ^ 32.

Definition byte_val (b : byte) : Z := Z.of_N (Byte.to_N b).

(** A big-endian 16-bit field read with [ntohs]. *)
Definition ntohs (hi lo : byte) : Z := byte_val hi * 256 + byte_val lo.

#[global] Instance byte_eq_dec : EqDecision byte := Byte.byte_eq_dec.

(** ** Status codes

    [int rc]: zero is success, a negative errno is failure.  The errno
    values live in headers outside this file; only their being distinct
    and non-zero matters here. *)

Inductive errno : Type :=
| EINVAL | ENOMEM | ETIMEDOUT | ENOENT | EACCES | ENOTSUP
| ETFTP_INVALID_BLKSIZE   (* EINVAL | EUNIQ_01 *)
| ETFTP_INVALID_TSIZE     (* EINVAL | EUNIQ_02 *)
| ETFTP_MC_NO_PORT        (* EINVAL | EUNIQ_03 *)
| ETFTP_MC_NO_MC          (* EINVAL | EUNIQ_04 *)
| ETFTP_MC_INVALID_MC     (* EINVAL | EUNIQ_05 *)
| ETFTP_MC_INVALID_IP     (* EINVAL | EUNIQ_06 *)
| ETFTP_MC_INVALID_PORT   (* EINVAL | EUNIQ_07 *)
| EEXTERNAL (code : positive).   (* any failure reported by a collaborator *)

Inductive status : Type :=
| OK
| ERR (e : errno).

#[global] Instance errno_eq_dec : EqDecision errno.
Proof. solve_decision. Defined.

#[global] Instance status_eq_dec : EqDecision status.
Proof. solve_decision. Defined.

Definition is_ok (rc : status) : bool :=
  match rc with OK => true | ERR _ => false end.

(** ** Constants of [gpxe/tftp.h] (values as the specification gives them) *)

Definition TFTP_PORT : Z := 69.
Definition MTFTP_PORT : Z := 1759.
Definition TFTP_DEFAULT_BLKSIZE : Z := 512.
Definition TFTP_MAX_BLKSIZE : Z := 1432.

Definition TFTP_RRQ : Z := 1.
Definition TFTP_DATA : Z := 3.
Definition TFTP_ACK : Z := 4.
Definition TFTP_ERROR : Z := 5.
Definition TFTP_OACK : Z := 6.

Definition TFTP_ERR_FILE_NOT_FOUND : Z := 1.
Definition TFTP_ERR_ACCESS_DENIED : Z := 2.
Definition TFTP_ERR_ILLEGAL_OP : Z := 4.

Definition AF_INET : Z := 1.

(** Sizes of the packed wire structures [tftp_data] (opcode and block)
    and [tftp_error] (opcode and error code); [tftp_common] and
    [tftp_oack] hold the opcode alone. *)
Definition sizeof_tftp_data : nat := 4.
Definition sizeof_tftp_error : nat := 4.

(** TFTP request flags *)
Definition TFTP_FL_SEND_ACK : Z := 0x0001.
Definition TFTP_FL_RRQ_SIZES : Z := 0x0002.
Definition TFTP_FL_RRQ_MULTICAST : Z := 0x0004.
Definition TFTP_FL_MTFTP_RECOVERY : Z := 0x0008.

(** Maximum number of MTFTP open requests before falling back to TFTP *)
Definition MTFTP_MAX_TIMEOUTS : Z := 3.

(** [flags & bit] as a C condition. *)
Definition flag_set (flags bit : Z) : bool := negb (Z.land flags bit =? 0).

(** [flags &= ~bit] on an [unsigned int]. *)
Definition flag_clear (flags bit : Z) : Z := Z.land flags (uint (Z.lnot bit)).

(** ** The block bitmap *)

(** Modelled from the spec: the block bitmap of [gpxe/bitmap.h] and
    [core/bitmap.c], which are not part of the sources at hand.  The
    specification describes it as a resizable bit array with one bit per
    expected block; resizing keeps the bits already set and the new bits
    are clear; the first clear index is 0 when no block has been
    received; the bitmap is full when it has no clear bit. *)
Definition bitmap : Type := list bool.

(** Modelled from the spec: [bitmap_first_gap], the "first clear index",
    "the next required full block index; 0 if no blocks received". *)
Fixpoint bitmap_first_gap (bm : bitmap) : nat :=
  match bm with
  | true :: bm' => S (bitmap_first_gap bm')
  | _ => O
  end.

(** Modelled from the spec: [bitmap_full], "the bitmap has no clear
    bits". *)
Definition bitmap_full (bm : bitmap) : bool :=
  Nat.eqb (bitmap_first_gap bm) (length bm).

(** Modelled from the spec: [bitmap_set], "the bit is set at index B";
    an index outside the bitmap changes nothing here. *)
Definition bitmap_set (bm : bitmap) (bit : Z) : bitmap :=
  <[Z.to_nat bit := true]> bm.

(** Modelled from the spec: the bitmap after a successful [bitmap_resize],
    "bits already set remain set". *)
Definition bitmap_resized (bm : bitmap) (new_length : Z) : bitmap :=
  resize (Z.to_nat new_length) false bm.

(** [bitmap_free] followed by [memset ( &bitmap, 0, sizeof ( bitmap ) )] *)
Definition bitmap_empty : bitmap := [].

(** ** Addresses, URIs and the request structure *)

(** [struct sockaddr_tcpip]: family, port and the padding that holds the
    network-layer address.  A zero family marks an unset address. *)
Record sockaddr_tcpip : Type := {
  st_family : Z;
  st_port : Z;
  st_pad : list byte
}.

#[global] Instance sockaddr_tcpip_eq_dec : EqDecision sockaddr_tcpip.
Proof. solve_decision. Defined.

(** [memset ( &peer, 0, sizeof ( peer ) )] *)
Definition sockaddr_zero : sockaddr_tcpip :=
  {| st_family := 0; st_port := 0; st_pad := [] |}.

Record uri : Type := {
  uri_host : option string;
  uri_path : option string;
  uri_port_opt : option Z
}.

(** Modelled from the spec: [uri_port] of [gpxe/uri.h], "uri.port or
    default". *)
Definition uri_port (u : uri) (default_port : Z) : Z :=
  match uri_port_opt u with
  | Some p => p
  | None => default_port
  end.

(** [struct tftp_request], without the reference count and the interface
    and timer objects, whose use is recorded in the trace. *)
Record tftp_request : Type := {
  tftp_uri : uri;
  blksize : Z;
  tsize : Z;
  port : Z;
  peer : sockaddr_tcpip;
  flags : Z;
  mtftp_timeouts : Z;
  tftp_bitmap : bitmap;
  filesize : Z
}.

Definition set_blksize (v : Z) (t : tftp_request) : tftp_request :=
  {| tftp_uri := tftp_uri t; blksize := v; tsize := tsize t; port := port t;
     peer := peer t; flags := flags t; mtftp_timeouts := mtftp_timeouts t;
     tftp_bitmap := tftp_bitmap t; filesize := filesize t |}.

Definition set_tsize (v : Z) (t : tftp_request) : tftp_request :=
  {| tftp_uri := tftp_uri t; blksize := blksize t; tsize := v; port := port t;
     peer := peer t; flags := flags t; mtftp_timeouts := mtftp_timeouts t;
     tftp_bitmap := tftp_bitmap t; filesize := filesize t |}.

Definition set_port (v : Z) (t : tftp_request) : tftp_request :=
  {| tftp_uri := tftp_uri t; blksize := blksize t; tsize := tsize t; port := v;
     peer := peer t; flags := flags t; mtftp_timeouts := mtftp_timeouts t;
     tftp_bitmap := tftp_bitmap t; filesize := filesize t |}.

Definition set_peer (v : sockaddr_tcpip) (t : tftp_request) : tftp_request :=
  {| tftp_uri := tftp_uri t; blksize := blksize t; tsize := tsize t; port := port t;
     peer := v; flags := flags t; mtftp_timeouts := mtftp_timeouts t;
     tftp_bitmap := tftp_bitmap t; filesize := filesize t |}.

Definition set_flags (v : Z) (t : tftp_request) : tftp_request :=
  {| tftp_uri := tftp_uri t; blksize := blksize t; tsize := tsize t; port := port t;
     peer := peer t; flags := v; mtftp_timeouts := mtftp_timeouts t;
     tftp_bitmap := tftp_bitmap t; filesize := filesize t |}.

Definition set_mtftp_timeouts (v : Z) (t : tftp_request) : tftp_request :=
  {| tftp_uri := tftp_uri t; blksize := blksize t; tsize := tsize t; port := port t;
     peer := peer t; flags := flags t; mtftp_timeouts := v;
     tftp_bitmap := tftp_bitmap t; filesize := filesize t |}.

Definition set_bitmap (v : bitmap) (t : tftp_request) : tftp_request :=
  {| tftp_uri := tftp_uri t; blksize := blksize t; tsize := tsize t; port := port t;
     peer := peer t; flags := flags t; mtftp_timeouts := mtftp_timeouts t;
     tftp_bitmap := v; filesize := filesize t |}.

Definition set_filesize (v : Z) (t : tftp_request) : tftp_request :=
  {| tftp_uri := tftp_uri t; blksize := blksize t; tsize := tsize t; port := port t;
     peer := peer t; flags := flags t; mtftp_timeouts := mtftp_timeouts t;
     tftp_bitmap := tftp_bitmap t; filesize := v |}.

(** ** Calls into the external collaborators *)

Inductive iface : Type :=
| XFER        (* tftp->xfer: the downstream data transfer interface *)
| SOCKET      (* tftp->socket *)
| MC_SOCKET.  (* tftp->mc_socket *)

(** A packet handed to the unicast socket.  The RRQ is kept as the list
    of the NUL-terminated strings that follow its opcode. *)
Inductive tx_packet : Type :=
| TxRRQ (fields : list string)
| TxACK (dest : sockaddr_tcpip) (block16 : Z).

Inductive event : Type :=
| EvStopTimer
| EvStartTimer
| EvStartTimerNodelay
| EvNullify (i : iface)
| EvClose (i : iface) (rc : status)
| EvOpenNamedSocket (server_port : Z) (host : option string)
| EvOpenSocket (local : sockaddr_tcpip)
| EvSeek (offset : Z)
| EvDeliver (offset : Z) (data : list byte)
| EvSend (p : tx_packet)
| EvPlug.

#[global] Instance iface_eq_dec : EqDecision iface.
Proof. solve_decision. Defined.

#[global] Instance uri_eq_dec : EqDecision uri.
Proof. solve_decision. Defined.

#[global] Instance tx_packet_eq_dec : EqDecision tx_packet.
Proof. solve_decision. Defined.

#[global] Instance event_eq_dec : EqDecision event.
Proof. solve_decision. Defined.

(** ** The world and the monad of handlers *)

Record world : Type := {
  w_tftp : tftp_request;
  (** [static unsigned int tftp_request_blksize] *)
  w_request_blksize : Z;
  (** [static struct sockaddr_in tftp_mtftp_socket] *)
  w_mtftp_socket : sockaddr_tcpip;
  (** calls made so far, oldest first *)
  w_trace : list event;
  (** answers of the collaborators to the coming fallible calls, in
      order; when the list is exhausted every call succeeds *)
  w_env : list status
}.

Definition M (A : Type) : Type := world -> option (A * world).

Definition ret {A} (a : A) : M A := fun w => Some (a, w).

Definition bind {A B} (c : M A) (k : A -> M B) : M B :=
  fun w => match c w with
           | Some (a, w') => k a w'
           | None => None
           end.

Notation "x <- c ;; k" := (bind c (fun x => k))
  (at level 100, c at next level, right associativity).
Notation "c ;; k" := (bind c (fun _ => k))
  (at level 100, right associativity).

(** No defined behaviour. *)
Definition undefined {A} : M A := fun _ => None.

Definition get_tftp : M tftp_request := fun w => Some (w_tftp w, w).

Definition modify_tftp (f : tftp_request -> tftp_request) : M unit :=
  fun w => Some (tt, {| w_tftp := f (w_tftp w);
                        w_request_blksize := w_request_blksize w;
                        w_mtftp_socket := w_mtftp_socket w;
                        w_trace := w_trace w;
                        w_env := w_env w |}).

Definition get_request_blksize : M Z := fun w => Some (w_request_blksize w, w).

Definition emit (e : event) : M unit :=
  fun w => Some (tt, {| w_tftp := w_tftp w;
                        w_request_blksize := w_request_blksize w;
                        w_mtftp_socket := w_mtftp_socket w;
                        w_trace := w_trace w ++ [e];
                        w_env := w_env w |}).

(** The answer of a collaborator to a call that can fail. *)
Definition ext_call : M status :=
  fun w => match w_env w with
           | [] => Some (OK, w)
           | rc :: env => Some (rc, {| w_tftp := w_tftp w;
                                       w_request_blksize := w_request_blksize w;
                                       w_mtftp_socket := w_mtftp_socket w;
                                       w_trace := w_trace w;
                                       w_env := env |})
           end.

(** ** C library functions on strings *)

Definition char_code (c : ascii) : Z := Z.of_nat (nat_of_ascii c).

Definition tolower (c : ascii) : ascii :=
  if (65 <=? char_code c) && (char_code c <=? 90)
  then ascii_of_nat (nat_of_ascii c + 32)
  else c.

(** [strcasecmp]: zero exactly when the strings are equal up to case. *)
Fixpoint strcasecmp (a b : string) : Z :=
  match a, b with
  | EmptyString, EmptyString => 0
  | EmptyString, String d _ => 0 - char_code (tolower d)
  | String c _, EmptyString => char_code (tolower c)
  | String c a', String d b' =>
      let x := char_code (tolower c) - char_code (tolower d) in
      if x =? 0 then strcasecmp a' b' else x
  end.

(** [strchr ( s, c )] followed by [*(p++) = 0] on its result: [None]
    for a NULL result; otherwise the string is cut at the first
    occurrence of [c] into the characters before it and those after it. *)
Fixpoint strchr_cut (s : string) (c : ascii) : option (string * string) :=
  match s with
  | EmptyString => None
  | String x s' =>
      if Ascii.eqb x c then Some (EmptyString, s')
      else match strchr_cut s' c with
           | Some (before, after) => Some (String x before, after)
           | None => None
           end
  end.

(** [strnlen ( p, end - p )] on the bytes from [p] to the end of the
    buffer. *)
Fixpoint strnlen (d : list byte) : nat :=
  match d with
  | [] => O
  | b :: d' => if decide (b = x00) then O else S (strnlen d')
  end.

Definition digit_val (c : ascii) : Z :=
  let n := char_code c in
  if (48 <=? n) && (n <=? 57) then n - 48
  else if (97 <=? n) && (n <=? 122) then n - 97 + 10
  else if (65 <=? n) && (n <=? 90) then n - 65 + 10
  else 255.

Fixpoint strtoul_digits (base : Z) (acc : Z) (s : string) : Z * string :=
  match s with
  | EmptyString => (acc, s)
  | String c s' =>
      if digit_val c <? base
      then strtoul_digits base (uint (acc * base + digit_val c)) s'
      else (acc, s)
  end.

(** Modelled from the spec: [strtoul] of [core/misc.c], which is not part
    of the sources at hand.  The specification has the option values
    "parsed as integer" with a "non-numeric tail" left over: the longest
    prefix of digits of the base is converted, and the result is the value
    together with the string that [*endp] designates.  Base 0 selects
    hexadecimal after [0x], octal after [0] and decimal otherwise. *)
Definition strtoul (s : string) (base : Z) : Z * string :=
  if base =? 0 then
    match s with
    | String "0" (String x s') =>
        if Ascii.eqb (tolower x) "x" then strtoul_digits 16 0 s'
        else strtoul_digits 8 0 (String x s')
    | _ => strtoul_digits 10 0 s
    end
  else strtoul_digits base 0 s.

Definition byte_of_Z (v : Z) : byte :=
  default x00 (Byte.of_N (Z.to_N (v mod 256))).

Fixpoint inet_aton_fields (n : nat) (s : string) : option (list byte) :=
  match n with
  | O => None
  | S n' =>
      let (val, endp) := strtoul s 10 in
      if 255 <? val then None
      else match n', endp with
           | O, EmptyString => Some [byte_of_Z val]
           | S _, String "." rest =>
               match inet_aton_fields n' rest with
               | Some l => Some (byte_of_Z val :: l)
               | None => None
               end
           | _, _ => None
           end
  end.

(** Modelled from the spec: [inet_aton] of [net/ipv4.c], "parse as IPv4":
    four decimal fields of at most 255 separated by dots.  [None] stands
    for the result 0. *)
Definition inet_aton (cp : string) : option (list byte) :=
  inet_aton_fields 4 cp.

(** ** The request engine *)

(** Mark TFTP request as complete *)
Definition tftp_done (rc : status) : M unit :=
  (* Stop the retry timer *)
  emit EvStopTimer ;;
  (* Close all data transfer interfaces *)
  emit (EvNullify SOCKET) ;;
  emit (EvClose SOCKET rc) ;;
  emit (EvNullify MC_SOCKET) ;;
  emit (EvClose MC_SOCKET rc) ;;
  emit (EvNullify XFER) ;;
  emit (EvClose XFER rc).

(** Reopen TFTP socket *)
Definition tftp_reopen : M status :=
  (* Close socket *)
  emit (EvClose SOCKET OK) ;;
  (* Disable ACK sending. *)
  modify_tftp (fun t => set_flags (flag_clear (flags t) TFTP_FL_SEND_ACK) t) ;;
  (* Reset peer address *)
  modify_tftp (set_peer sockaddr_zero) ;;
  (* Open socket *)
  t <- get_tftp ;;
  emit (EvOpenNamedSocket (uint16 (port t)) (uri_host (tftp_uri t))) ;;
  rc <- ext_call ;;
  ret rc.

(** Reopen TFTP multicast socket *)
Definition tftp_reopen_mc (local : sockaddr_tcpip) : M status :=
  (* Close multicast socket *)
  emit (EvClose MC_SOCKET OK) ;;
  (* Open multicast socket. *)
  emit (EvOpenSocket local) ;;
  rc <- ext_call ;;
  ret rc.

(** Modelled from the spec: [bitmap_resize] of [core/bitmap.c]; the
    reallocation can fail (OUT_OF_MEMORY), which leaves the bitmap as it
    was. *)
Definition bitmap_resize (new_length : Z) : M status :=
  rc <- ext_call ;;
  match rc with
  | OK => modify_tftp (fun t => set_bitmap (bitmap_resized (tftp_bitmap t) new_length) t) ;;
          ret OK
  | ERR _ => ret (ERR ENOMEM)
  end.

(** Presize TFTP receive buffers and block bitmap *)
Definition tftp_presize (new_filesize : Z) : M status :=
  t <- get_tftp ;;
  (* Do nothing if we are already large enough *)
  if new_filesize <=? filesize t then ret OK
  else
    (* Record filesize *)
    modify_tftp (set_filesize new_filesize) ;;
    (* Notify recipient of file size *)
    emit (EvSeek (to_signed new_filesize)) ;;
    emit (EvSeek 0) ;;
    (* Calculate expected number of blocks.  Note that files whose
       length is an exact multiple of the blocksize will have a
       trailing zero-length block, which must be included. *)
    if blksize t =? 0 then undefined
    else
      let num_blocks := uint (new_filesize / blksize t + 1) in
      rc <- bitmap_resize num_blocks ;;
      ret rc.

(** Set TFTP request blocksize *)
Definition tftp_set_request_blksize (requested : Z) : M unit :=
  fun w =>
    let requested := if requested <? TFTP_DEFAULT_BLKSIZE
                     then TFTP_DEFAULT_BLKSIZE else requested in
    Some (tt, {| w_tftp := w_tftp w;
                 w_request_blksize := requested;
                 w_mtftp_socket := w_mtftp_socket w;
                 w_trace := w_trace w;
                 w_env := w_env w |}).

(** Set MTFTP multicast address *)
Definition tftp_set_mtftp_address (address : list byte) : M unit :=
  fun w =>
    Some (tt, {| w_tftp := w_tftp w;
                 w_request_blksize := w_request_blksize w;
                 w_mtftp_socket :=
                   {| st_family := st_family (w_mtftp_socket w);
                      st_port := st_port (w_mtftp_socket w);
                      st_pad := address |};
                 w_trace := w_trace w;
                 w_env := w_env w |}).

(** Set MTFTP multicast port *)
Definition tftp_set_mtftp_port (mtftp_port : Z) : M unit :=
  fun w =>
    Some (tt, {| w_tftp := w_tftp w;
                 w_request_blksize := w_request_blksize w;
                 w_mtftp_socket :=
                   {| st_family := st_family (w_mtftp_socket w);
                      st_port := uint16 mtftp_port;
                      st_pad := st_pad (w_mtftp_socket w) |};
                 w_trace := w_trace w;
                 w_env := w_env w |}).

(** Transmit RRQ.  The packet is recorded as the strings that [snprintf]
    writes after the opcode; the size of the buffer is not modelled. *)
Definition tftp_send_rrq : M status :=
  t <- get_tftp ;;
  match uri_path (tftp_uri t) with
  | None => undefined
  | Some full_path =>
      (* Strip initial '/' if present. *)
      let path := match full_path with
                  | String "/" rest => rest
                  | _ => full_path
                  end in
      (* Allocate buffer *)
      iobuf <- ext_call ;;
      if negb (is_ok iobuf) then ret (ERR ENOMEM)
      else
        (* Build request *)
        request_blksize <- get_request_blksize ;;
        let sizes :=
          if flag_set (flags t) TFTP_FL_RRQ_SIZES
          then ["blksize"; pretty (to_signed request_blksize); "tsize"; "0"]
          else [] in
        let multicast :=
          if flag_set (flags t) TFTP_FL_RRQ_MULTICAST
          then ["multicast"; ""]
          else [] in
        emit (EvSend (TxRRQ ([path; "octet"] ++ sizes ++ multicast))) ;;
        rc <- ext_call ;;
        ret rc
  end%string.

(** Transmit ACK *)
Definition tftp_send_ack : M status :=
  t <- get_tftp ;;
  (* Determine next required block number *)
  let block := uint (Z.of_nat (bitmap_first_gap (tftp_bitmap t))) in
  (* Allocate buffer *)
  iobuf <- ext_call ;;
  if negb (is_ok iobuf) then ret (ERR ENOMEM)
  else
    (* Build ACK *)
    emit (EvSend (TxACK (peer t) (uint16 block))) ;;
    rc <- ext_call ;;
    ret rc.

(** Transmit next relevant packet *)
Definition tftp_send_packet : M status :=
  (* Update retransmission timer *)
  emit EvStopTimer ;;
  emit EvStartTimer ;;
  (* Send RRQ or ACK as appropriate *)
  t <- get_tftp ;;
  if st_family (peer t) =? 0 then tftp_send_rrq
  else if flag_set (flags t) TFTP_FL_SEND_ACK then tftp_send_ack
  else ret OK.

(** Handle TFTP retransmission timer expiry *)
Definition tftp_timer_expired (fail : bool) : M unit :=
  t <- get_tftp ;;
  rc <- (* If we are doing MTFTP, attempt the various recovery strategies *)
        (if flag_set (flags t) TFTP_FL_MTFTP_RECOVERY then
           if negb (st_family (peer t) =? 0) then
             (* If we have received any response from the server,
                try resending the RRQ to restart the download. *)
             tftp_reopen
           else
             (* Fall back to plain TFTP after several attempts *)
             let timeouts := uint (mtftp_timeouts t + 1) in
             modify_tftp (set_mtftp_timeouts timeouts) ;;
             if MTFTP_MAX_TIMEOUTS <? timeouts then
               modify_tftp (set_flags TFTP_FL_RRQ_SIZES) ;;
               (* Close multicast socket *)
               emit (EvClose MC_SOCKET OK) ;;
               (* Reset retry timer *)
               emit EvStartTimerNodelay ;;
               (* The blocksize may change: discard the block bitmap *)
               modify_tftp (set_bitmap bitmap_empty) ;;
               (* Reopen on standard TFTP port *)
               modify_tftp (set_port TFTP_PORT) ;;
               tftp_reopen
             else ret OK
         else
           (* Not doing MTFTP (or have fallen back to plain TFTP);
              fail as per normal. *)
           if fail then ret (ERR ETIMEDOUT) else ret OK) ;;
  match rc with
  | OK => _ <- tftp_send_packet ;; ret tt
  | ERR _ => tftp_done rc
  end.

(** Process TFTP "blksize" option *)
Definition tftp_process_blksize (value : string) : M status :=
  let (val, endp) := strtoul value 10 in
  modify_tftp (set_blksize (uint val)) ;;
  match endp with
  | String _ _ => ret (ERR ETFTP_INVALID_BLKSIZE)
  | EmptyString => ret OK
  end.

(** Process TFTP "tsize" option *)
Definition tftp_process_tsize (value : string) : M status :=
  let (val, endp) := strtoul value 10 in
  modify_tftp (set_tsize (uint val)) ;;
  match endp with
  | String _ _ => ret (ERR ETFTP_INVALID_TSIZE)
  | EmptyString => ret OK
  end.

(** Process TFTP "multicast" option *)
Definition tftp_process_multicast (value : string) : M status :=
  (* Split value into "addr,port,mc" fields *)
  match strchr_cut value "," with
  | None => ret (ERR ETFTP_MC_NO_PORT)
  | Some (addr, port_mc) =>
      match strchr_cut port_mc "," with
      | None => ret (ERR ETFTP_MC_NO_MC)
      | Some (port_str, mc) =>
          (* Parse parameters *)
          let (mc_val, mc_end) := strtoul mc 0 in
          (if mc_val =? 0
           then modify_tftp (fun t => set_flags (flag_clear (flags t) TFTP_FL_SEND_ACK) t)
           else ret tt) ;;
          match mc_end with
          | String _ _ => ret (ERR ETFTP_MC_INVALID_MC)
          | EmptyString =>
              match addr, port_str with
              | String _ _, String _ _ =>
                  match inet_aton addr with
                  | None => ret (ERR ETFTP_MC_INVALID_IP)
                  | Some sin_addr =>
                      let (port_val, port_end) := strtoul port_str 0 in
                      match port_end with
                      | String _ _ => ret (ERR ETFTP_MC_INVALID_PORT)
                      | EmptyString =>
                          rc <- tftp_reopen_mc {| st_family := AF_INET;
                                                  st_port := uint16 port_val;
                                                  st_pad := sin_addr |} ;;
                          ret rc
                      end
                  end
              | _, _ => ret OK
              end
          end
      end
  end.

(** Recognised TFTP options *)
Definition tftp_options : list (string * (string -> M status)) :=
  [ ("blksize"%string, tftp_process_blksize);
    ("tsize"%string, tftp_process_tsize);
    ("multicast"%string, tftp_process_multicast) ].

Fixpoint tftp_process_option_in (options : list (string * (string -> M status)))
    (name value : string) : M status :=
  match options with
  | (option_name, process) :: options' =>
      if strcasecmp name option_name =? 0 then process value
      else tftp_process_option_in options' name value
  | [] =>
      (* Unknown options should be silently ignored *)
      ret OK
  end.

(** Process TFTP option *)
Definition tftp_process_option (name value : string) : M status :=
  tftp_process_option_in tftp_options name value.

(** The loop of [tftp_rx_oack] over the bytes from [name] to [end].  Every
    turn that continues consumes at least two bytes, so [length data]
    turns are enough. *)
Fixpoint tftp_rx_oack_options (turns : nat) (data : list byte) : M status :=
  match turns, data with
  | S turns', _ :: _ =>
      (* Parse option name and value; parsing errors are non-fatal *)
      let name_len := strnlen data in
      let value := drop (S name_len) data in
      if (length data <? S name_len)%nat then ret OK       (* value > end *)
      else if (length data =? S name_len)%nat then ret OK  (* value == end *)
      else
        let value_len := strnlen value in
        if (length value <? S value_len)%nat then ret OK   (* next > end *)
        else
          (* Process option *)
          rc <- tftp_process_option (string_of_list_byte (take name_len data))
                                    (string_of_list_byte (take value_len value)) ;;
          match rc with
          | OK => tftp_rx_oack_options turns' (drop (S value_len) value)
          | ERR _ => ret rc
          end
  | _, _ => ret OK
  end.

(** Receive OACK *)
Definition tftp_rx_oack (buf : list byte) : M status :=
  rc <- (match buf with
         | _ :: _ :: data =>
             (* Process each option in turn *)
             rc <- tftp_rx_oack_options (length data) data ;;
             match rc with
             | ERR _ => ret rc
             | OK =>
                 (* Process tsize information, if available *)
                 t <- get_tftp ;;
                 rc <- (if negb (tsize t =? 0) then tftp_presize (tsize t)
                        else ret OK) ;;
                 match rc with
                 | ERR _ => ret rc
                 | OK =>
                     (* Request next data block *)
                     _ <- tftp_send_packet ;;
                     ret OK
                 end
             end
         | _ =>
             (* Sanity check: underlength OACK packet *)
             ret (ERR EINVAL)
         end) ;;
  match rc with
  | OK => ret rc
  | ERR _ => tftp_done rc ;; ret rc
  end.

(** Calculate block number: the first gap of the bitmap and the block
    field of the packet (after [ntohs]) give the full block index, or
    [None] where the packet is rejected as "data block 0". *)
Definition tftp_block_number (first_gap data_block : Z) : option Z :=
  let block := Z.land (uint (first_gap + 1)) (uint (Z.lnot 0xffff)) in
  if (data_block =? 0) && (block =? 0) then None
  else Some (uint (block + (data_block - 1))).

(** Receive DATA *)
Definition tftp_rx_data (iobuf : list byte) : M status :=
  rc <- (match iobuf with
         | _ :: _ :: block_hi :: block_lo :: payload =>
             t <- get_tftp ;;
             (* Calculate block number *)
             match tftp_block_number (Z.of_nat (bitmap_first_gap (tftp_bitmap t)))
                                     (ntohs block_hi block_lo) with
             | None => ret (ERR EINVAL)
             | Some block =>
                 (* Extract data *)
                 let offset := to_signed (uint (block * blksize t)) in
                 let data_len := Z.of_nat (length payload) in
                 if blksize t <? data_len then ret (ERR EINVAL)
                 else
                   (* Deliver data *)
                   emit (EvDeliver offset payload) ;;
                   rc <- ext_call ;;
                   match rc with
                   | ERR _ => ret rc
                   | OK =>
                       (* Ensure block bitmap is ready *)
                       rc <- tftp_presize (uint (offset + data_len)) ;;
                       match rc with
                       | ERR _ => ret rc
                       | OK =>
                           (* Mark block as received *)
                           modify_tftp (fun t => set_bitmap (bitmap_set (tftp_bitmap t) block) t) ;;
                           (* Acknowledge block *)
                           _ <- tftp_send_packet ;;
                           (* If all blocks have been received, finish. *)
                           t' <- get_tftp ;;
                           (if bitmap_full (tftp_bitmap t') then tftp_done OK
                            else ret tt) ;;
                           ret OK
                       end
                   end
             end
         | _ =>
             (* Sanity check: underlength DATA packet *)
             ret (ERR EINVAL)
         end) ;;
  match rc with
  | OK => ret rc
  | ERR _ => tftp_done rc ;; ret rc
  end.

(** Translation between TFTP errors and internal error numbers; [None]
    is the zero of an entry without initialiser. *)
Definition tftp_errors : list (option errno) :=
  [ None; Some ENOENT (* TFTP_ERR_FILE_NOT_FOUND *);
    Some EACCES (* TFTP_ERR_ACCESS_DENIED *); None;
    Some ENOTSUP (* TFTP_ERR_ILLEGAL_OP *) ].

(** Receive ERROR *)
Definition tftp_rx_error (buf : list byte) : M status :=
  match buf with
  | _ :: _ :: errcode_hi :: errcode_lo :: _ =>
      (* Determine final operation result *)
      let err := ntohs errcode_hi errcode_lo in
      let rc := if err <? Z.of_nat (length tftp_errors)
                then default None (tftp_errors !! Z.to_nat err)
                else None in
      let rc := match rc with
                | Some e => e
                | None => ENOTSUP
                end in
      (* Close TFTP request *)
      tftp_done (ERR rc) ;;
      ret OK
  | _ =>
      (* Sanity check: underlength ERROR packet *)
      ret (ERR EINVAL)
  end.

(** The [switch] of [tftp_rx] on the opcode. *)
Definition tftp_rx_switch (iobuf : list byte) (opcode : Z) : M status :=
  if opcode =? TFTP_OACK then tftp_rx_oack iobuf
  else if opcode =? TFTP_DATA then tftp_rx_data iobuf
  else if opcode =? TFTP_ERROR then tftp_rx_error iobuf
  else ret (ERR EINVAL).

(** Receive new data *)
Definition tftp_rx (iobuf : list byte) (meta_src : option sockaddr_tcpip) : M status :=
  match iobuf with
  | opcode_hi :: opcode_lo :: _ =>
      match meta_src with
      | None => ret (ERR EINVAL)
      | Some st_src =>
          (* Filter by TID.  Set TID on first response received *)
          t <- get_tftp ;;
          if st_family (peer t) =? 0 then
            modify_tftp (set_peer st_src) ;;
            tftp_rx_switch iobuf (ntohs opcode_hi opcode_lo)
          else if negb (bool_decide (peer t = st_src)) then
            ret (ERR EINVAL)
          else
            tftp_rx_switch iobuf (ntohs opcode_hi opcode_lo)
      end
  | _ =>
      (* Sanity checks: underlength packet *)
      ret (ERR EINVAL)
  end.

(** Receive new data via socket *)
Definition tftp_socket_deliver_iob (iobuf : list byte)
    (meta_src : option sockaddr_tcpip) : M status :=
  (* Enable sending ACKs when we receive a unicast packet. *)
  modify_tftp (fun t => set_flags (Z.lor (flags t) TFTP_FL_SEND_ACK) t) ;;
  tftp_rx iobuf meta_src.

(** Receive new data via multicast socket *)
Definition tftp_mc_socket_deliver_iob (iobuf : list byte)
    (meta_src : option sockaddr_tcpip) : M status :=
  tftp_rx iobuf meta_src.

(** Close TFTP data transfer interface *)
Definition tftp_xfer_close (rc : status) : M unit :=
  tftp_done rc.

(** Check flow control window *)
Definition tftp_xfer_window : M Z :=
  t <- get_tftp ;;
  ret (blksize t).

(** Initiate TFTP/TFTM/MTFTP download *)
Definition tftp_core_open (u : uri) (default_port : Z)
    (multicast : option sockaddr_tcpip) (open_flags : Z) : M status :=
  (* Sanity checks *)
  match uri_host u, uri_path u with
  | Some _, Some _ =>
      (* Allocate and populate TFTP structure *)
      tftp <- ext_call ;;
      if negb (is_ok tftp) then ret (ERR ENOMEM)
      else
        modify_tftp (fun _ =>
          {| tftp_uri := u; blksize := TFTP_DEFAULT_BLKSIZE; tsize := 0;
             port := 0; peer := sockaddr_zero; flags := open_flags;
             mtftp_timeouts := 0; tftp_bitmap := bitmap_empty;
             filesize := 0 |}) ;;
        (* Open socket *)
        modify_tftp (set_port (uint (uri_port u default_port))) ;;
        rc <- tftp_reopen ;;
        match rc with
        | ERR _ => tftp_done rc ;; ret rc
        | OK =>
            (* Open multicast socket *)
            rc <- (match multicast with
                   | Some local => tftp_reopen_mc local
                   | None => ret OK
                   end) ;;
            match rc with
            | ERR _ => tftp_done rc ;; ret rc
            | OK =>
                (* Start timer to initiate RRQ *)
                emit EvStartTimerNodelay ;;
                (* Attach to parent interface, mortalise self, and return *)
                emit EvPlug ;;
                ret OK
            end
        end
  | _, _ => ret (ERR EINVAL)
  end.

(** Initiate TFTP download *)
Definition tftp_open (u : uri) : M status :=
  tftp_core_open u TFTP_PORT None TFTP_FL_RRQ_SIZES.

(** Initiate TFTM download *)
Definition tftm_open (u : uri) : M status :=
  tftp_core_open u TFTP_PORT None
    (Z.lor TFTP_FL_RRQ_SIZES TFTP_FL_RRQ_MULTICAST).

(** Initiate MTFTP download *)
Definition mtftp_open (u : uri) : M status :=
  fun w => tftp_core_open u MTFTP_PORT (Some (w_mtftp_socket w))
             TFTP_FL_MTFTP_RECOVERY w.

(** ** Observations on worlds and traces *)

(** The calls that [tftp_done] makes. *)
Definition done_events (rc : status) : list event :=
  [ EvStopTimer; EvNullify SOCKET; EvClose SOCKET rc;
    EvNullify MC_SOCKET; EvClose MC_SOCKET rc;
    EvNullify XFER; EvClose XFER rc ].

(** The world with [evs] appended to its trace. *)
Definition with_events (evs : list event) (w : world) : world :=
  {| w_tftp := w_tftp w; w_request_blksize := w_request_blksize w;
     w_mtftp_socket := w_mtftp_socket w; w_trace := w_trace w ++ evs;
     w_env := w_env w |}.

(** The world with its request replaced. *)
Definition with_tftp (t : tftp_request) (w : world) : world :=
  {| w_tftp := t; w_request_blksize := w_request_blksize w;
     w_mtftp_socket := w_mtftp_socket w; w_trace := w_trace w;
     w_env := w_env w |}.

(** Statuses with which the downstream interface was closed. *)
Definition trace_done (tr : list event) : list status :=
  flat_map (fun e => match e with EvClose XFER rc => [rc] | _ => [] end) tr.

(** Offsets of the data delivered downstream. *)
Definition trace_offsets (tr : list event) : list Z :=
  flat_map (fun e => match e with EvDeliver off _ => [off] | _ => [] end) tr.

(** Block numbers of the ACK packets sent. *)
Definition trace_acks (tr : list event) : list Z :=
  flat_map (fun e => match e with EvSend (TxACK _ b) => [b] | _ => [] end) tr.

(** The world reached by a computation. *)
Definition exec {A} (c : M A) (w : world) : option world :=
  match c w with
  | Some (_, w') => Some w'
  | None => None
  end.

(** [⌈a / b⌉] *)
Definition ceil_div (a b : Z) : Z := (a + b - 1) / b.

(** Presizing to each size of a list in turn, ignoring the results. *)
Fixpoint tftp_presize_all (sizes : list Z) : M unit :=
  match sizes with
  | [] => ret tt
  | f :: sizes' => _ <- tftp_presize f ;; tftp_presize_all sizes'
  end.

(** ** Packets and worlds used in the examples *)

Definition wire16 (v : Z) : list byte := [byte_of_Z (v / 256); byte_of_Z v].

Definition data_packet (block : Z) (payload : list byte) : list byte :=
  wire16 TFTP_DATA ++ wire16 block ++ payload.

Definition error_packet (errcode : Z) (errmsg : string) : list byte :=
  wire16 TFTP_ERROR ++ wire16 errcode ++ list_byte_of_string errmsg ++ [x00].

Definition oack_packet (fields : list string) : list byte :=
  wire16 TFTP_OACK ++ flat_map (fun s => list_byte_of_string s ++ [x00]) fields.

Definition example_uri : uri :=
  {| uri_host := Some "srv"%string; uri_path := Some "/file"%string;
     uri_port_opt := None |}.

Definition server_addr : sockaddr_tcpip :=
  {| st_family := AF_INET; st_port := 2000; st_pad := [x0a; x00; x00; x01] |}.

Definition stranger_addr : sockaddr_tcpip :=
  {| st_family := AF_INET; st_port := 2001; st_pad := [x0a; x00; x00; x01] |}.

(** The process before any request is opened: the globals hold their
    initialisers and every collaborator call will succeed. *)
Definition boot_world : world :=
  {| w_tftp := {| tftp_uri := example_uri; blksize := 0; tsize := 0; port := 0;
                  peer := sockaddr_zero; flags := 0; mtftp_timeouts := 0;
                  tftp_bitmap := bitmap_empty; filesize := 0 |};
     w_request_blksize := TFTP_MAX_BLKSIZE;
     w_mtftp_socket := {| st_family := AF_INET; st_port := 3001;
                          st_pad := [xef; xff; x01; x01] |};
     w_trace := [];
     w_env := [] |}.

(** A TFTP request right after [tftp_open] and the first expiry of the
    timer, which sends the RRQ. *)
Definition opened_world : option world :=
  exec (tftp_open example_uri ;; tftp_timer_expired false) boot_world.

(** The request of [opened_world] (the boot world should the open fail). *)
Definition opened : world := default boot_world opened_world.

(** The download of the third scenario of the specification: the DATA
    blocks 1, 3, 2 and 4 arrive in this order on the unicast socket, the
    last one empty. *)
Definition out_of_order_download (src : sockaddr_tcpip)
    (p1 p2 p3 : list byte) : M status :=
  tftp_socket_deliver_iob (data_packet 1 p1) (Some src) ;;
  tftp_socket_deliver_iob (data_packet 3 p3) (Some src) ;;
  tftp_socket_deliver_iob (data_packet 2 p2) (Some src) ;;
  tftp_socket_deliver_iob (data_packet 4 []) (Some src).

(** An MTFTP request that has waited through three expiries of the timer
    without hearing from any server. *)
Definition mtftp_waiting : world :=
  default boot_world
    (exec (mtftp_open example_uri ;; tftp_timer_expired false ;;
           tftp_timer_expired false ;; tftp_timer_expired false)
          boot_world).

(** The request of a TFTM client that is not the master client: the OACK
    that carried "multicast=239.1.1.1,3001,0" has been processed. *)
Definition tftm_listener : world :=
  default boot_world
    (exec (tftm_open example_uri ;; tftp_timer_expired false ;;
           tftp_socket_deliver_iob
             (oack_packet ["multicast"; "239.1.1.1,3001,0"]%string)
             (Some server_addr))
          boot_world).

(** ** Vocabulary of the statements *)

(** A computation leaves the field [f] of the request as it found it. *)
Definition preserves {A X} (f : tftp_request -> X) (c : M A) : Prop :=
  forall w a w', c w = Some (a, w') -> f (w_tftp w') = f (w_tftp w).

(** The file name of the RRQ: the path without its initial '/'. *)
Definition strip_slash (path : string) : string :=
  match path with
  | String "/" rest => rest
  | _ => path
  end.

(** The RRQ of plain TFTP: the blksize and tsize options and no multicast
    option. *)
Definition plain_rrq (path : string) (request_blksize : Z) : tx_packet :=
  TxRRQ [strip_slash path; "octet"; "blksize"; pretty (to_signed request_blksize);
         "tsize"; "0"]%string.

(** The status that a server error code is translated to. *)
Definition tftp_error_status (errcode : Z) : errno :=
  if errcode =? TFTP_ERR_FILE_NOT_FOUND then ENOENT
  else if errcode =? TFTP_ERR_ACCESS_DENIED then EACCES
  else ENOTSUP.

(** Number of commas in a string. *)
Fixpoint count_commas (s : string) : nat :=
  match s with
  | EmptyString => O
  | String c s' => if Ascii.eqb c "," then S (count_commas s') else count_commas s'
  end.

(** ** Vocabulary of the further properties *)




(** ** The entry points of a request *)

(** The calls that the rest of the program makes on a request once it is
    open: [deliver_iob] of [tftp_socket_operations] and of
    [tftp_mc_socket_operations], [timer.expired], and [close] and [window]
    of [tftp_xfer_operations]. *)
Inductive tftp_call : Type :=
  | CallDeliver (iobuf : list byte) (meta_src : option sockaddr_tcpip)
  | CallMcDeliver (iobuf : list byte) (meta_src : option sockaddr_tcpip)
  | CallTimer (fail : bool)
  | CallClose (rc : status)
  | CallWindow.

Definition tftp_handle (c : tftp_call) : M unit :=
  match c with
  | CallDeliver iobuf meta_src => _ <- tftp_socket_deliver_iob iobuf meta_src ;; ret tt
  | CallMcDeliver iobuf meta_src => _ <- tftp_mc_socket_deliver_iob iobuf meta_src ;; ret tt
  | CallTimer fail => tftp_timer_expired fail
  | CallClose rc => tftp_xfer_close rc
  | CallWindow => _ <- tftp_xfer_window ;; ret tt
  end.

(** The calls of a list, one after the other.  The program makes no
    call on a request that [tftp_done] has terminated, as its interfaces
    are closed; the lists here are not limited in this way, so what is
    proved of every list holds of those that the program can make. *)
Fixpoint tftp_run (cs : list tftp_call) : M unit :=
  match cs with
  | [] => ret tt
  | c :: cs' => tftp_handle c ;; tftp_run cs'
  end.

Definition is_timer (c : tftp_call) : bool :=
  match c with CallTimer _ => true | _ => false end.

Definition is_unicast (c : tftp_call) : bool :=
  match c with CallDeliver _ _ => true | _ => false end.

(** A computation keeps the relation [R] between the request and the calls
    made so far, whatever the collaborators answer. *)
Definition keeps {A} (R : tftp_request -> list event -> Prop) (c : M A) : Prop :=
  forall w a w',
    R (w_tftp w) (w_trace w) -> c w = Some (a, w') -> R (w_tftp w') (w_trace w').

Definition is_send (e : event) : bool :=
  match e with EvSend _ => true | _ => false end.

(** Packets handed to the socket for transmission. *)
Definition trace_sent (tr : list event) : list tx_packet :=
  flat_map (fun e => match e with EvSend p => [p] | _ => [] end) tr.

(** The size recorded for the file is at least [n]. *)
Definition filesize_ge (n : Z) (t : tftp_request) (_ : list event) : Prop :=
  n <= filesize t.

(** The field [f] of the request has the value [x]. *)
Definition field_is {X} (f : tftp_request -> X) (x : X)
    (t : tftp_request) (_ : list event) : Prop :=
  f t = x.

(** A request without MTFTP recovery that has locked on the server [p]:
    what it has sent since are ACKs addressed to [p]. *)
Definition locked (p : sockaddr_tcpip) (sent : list tx_packet)
    (t : tftp_request) (tr : list event) : Prop :=
  st_family p <> 0 /\ peer t = p
  /\ flag_set (flags t) TFTP_FL_MTFTP_RECOVERY = false
  /\ exists acks : list Z, trace_sent tr = sent ++ map (TxACK p) acks.

(** A client that has heard from its server, neither acknowledges nor
    does MTFTP recovery, and has sent the packets [sent] so far. *)
Definition silent (sent : list tx_packet) (t : tftp_request) (tr : list event) : Prop :=
  st_family (peer t) <> 0
  /\ flag_set (flags t) TFTP_FL_SEND_ACK = false
  /\ flag_set (flags t) TFTP_FL_MTFTP_RECOVERY = false
  /\ trace_sent tr = sent.

(** ** The bitmap and the size of the file *)

(** The bitmap has one bit for every block of a file of [filesize] bytes,
    the trailing short block included; a request that has not learnt any
    size yet has no bitmap. *)
Definition bitmap_sized (t : tftp_request) : Prop :=
  (filesize t = 0 /\ tftp_bitmap t = [])
  \/ Z.of_nat (length (tftp_bitmap t)) = filesize t / blksize t + 1.

(** ** Retransmission *)

(** The strings of the RRQ that a request with the flags [fl] sends for
    [path] when the requested block size is [request_blksize]. *)
Definition rrq_fields (fl : Z) (path : string) (request_blksize : Z) : list string :=
  [strip_slash path; "octet"%string]
  ++ (if flag_set fl TFTP_FL_RRQ_SIZES
      then ["blksize"; pretty (to_signed request_blksize); "tsize"; "0"]%string
      else [])
  ++ (if flag_set fl TFTP_FL_RRQ_MULTICAST then ["multicast"; ""]%string else []).

(** The RRQ fits the buffer that [tftp_send_rrq] allocates.  The buffer
    has room for the opcode and the path, 6 bytes for the mode, 14 and 8
    for the blksize and tsize options, and 11 for the multicast option:
    33 bytes are left after the path and the mode.  The blksize and
    tsize options take 17 bytes and the characters of the block size
    (at most 11 for an [int]), the multicast option takes 11.  So the
    request fits whenever one of the two groups of options is left out,
    and with both of them as long as the block size prints in at most
    five characters. *)
Definition rrq_fits (fl request_blksize : Z) : Prop :=
  flag_set fl TFTP_FL_RRQ_SIZES = false
  \/ flag_set fl TFTP_FL_RRQ_MULTICAST = false
  \/ (String.length (pretty (to_signed request_blksize)) <= 5)%nat.

(** What [tftp_send_packet] transmits when every collaborator call
    succeeds: the RRQ while no server has answered, the ACK of the first
    gap once one has (and acknowledgements are on), nothing otherwise. *)
Definition retransmission (w : world) (path : string) : list event :=
  let t := w_tftp w in
  if st_family (peer t) =? 0
  then [EvSend (TxRRQ (rrq_fields (flags t) path (w_request_blksize w)))]
  else if flag_set (flags t) TFTP_FL_SEND_ACK
       then [EvSend (TxACK (peer t)
                      (uint16 (uint (Z.of_nat (bitmap_first_gap (tftp_bitmap t))))))]
       else [].

(** ** The options of an OACK *)

(** The bytes of a sequence of NUL-terminated strings. *)
Definition nul_terminated (fields : list string) : list byte :=
  flat_map (fun s => list_byte_of_string s ++ [x00]) fields.

(** The strings of a list of options: name, value, name, value, ... *)
Definition oack_fields (pairs : list (string * string)) : list string :=
  flat_map (fun p => [fst p; snd p]) pairs.

(** Number of NUL bytes. *)
Fixpoint count_nul (l : list byte) : nat :=
  match l with
  | [] => O
  | b :: l' => if decide (b = x00) then S (count_nul l') else count_nul l'
  end.

(** The options of a list processed in order up to the first one that
    fails. *)
Fixpoint tftp_process_options (pairs : list (string * string)) : M status :=
  match pairs with
  | [] => ret OK
  | (name, value) :: pairs' =>
      rc <- tftp_process_option name value ;;
      match rc with
      | OK => tftp_process_options pairs'
      | ERR _ => ret rc
      end
  end.

(** A string in lower case, as [strcasecmp] compares it. *)
Fixpoint lowercase (s : string) : string :=
  match s with
  | EmptyString => EmptyString
  | String c s' => String (tolower c) (lowercase s')
  end.

(** ** Downloads whose blocks arrive in any order *)







(** ** The options that set the block size *)

(** The options between [name] and [end] that the loop of [tftp_rx_oack]
    finds, in order: the parse of [tftp_rx_oack_options] with the same
    three tests that end it, without the processing of the options. *)
Fixpoint oack_options (turns : nat) (data : list byte) : list (string * string) :=
  match turns, data with
  | S turns', _ :: _ =>
      let name_len := strnlen data in
      let value := drop (S name_len) data in
      if (length data <? S name_len)%nat then []
      else if (length data =? S name_len)%nat then []
      else
        let value_len := strnlen value in
        if (length value <? S value_len)%nat then []
        else (string_of_list_byte (take name_len data),
              string_of_list_byte (take value_len value))
             :: oack_options turns' (drop (S value_len) value)
  | _, _ => []
  end.

(** The options of the packet [buf], taken as an OACK. *)
Definition oack_options_of (buf : list byte) : list (string * string) :=
  match buf with
  | _ :: _ :: data => oack_options (length data) data
  | _ => []
  end.

(** [tftp_rx_oack], called on the packet [buf] in the world [w],
    processes a blksize option with the value [value]: the option is in
    the packet, and every option before it is processed without error,
    so that the loop gets to it. *)
Definition blksize_processed (buf : list byte) (w : world) (value : string) : Prop :=
  exists (pre post : list (string * string)) (name : string) (w1 : world),
    oack_options_of buf = pre ++ (name, value) :: post
    /\ strcasecmp name "blksize" = 0
    /\ tftp_process_options pre w = Some (OK, w1).

(** The world in which [tftp_rx] hands a packet from [src] to the handler
    of its opcode: on the unicast socket the sending of ACKs has been
    turned on, and the source of the first response has become the
    peer. *)
Definition rx_world (unicast : bool) (src : sockaddr_tcpip) (w : world) : world :=
  let t := w_tftp w in
  let t1 := if unicast then set_flags (Z.lor (flags t) TFTP_FL_SEND_ACK) t else t in
  with_tftp (if st_family (peer t1) =? 0 then set_peer src t1 else t1) w.

(** The call [c], made in the world [w], hands an OACK to [tftp_rx_oack]
    which processes a blksize option with the value [value]. *)
Definition call_processes_blksize (c : tftp_call) (w : world) (value : string) : Prop :=
  exists (unicast : bool) (iobuf : list byte) (src : sockaddr_tcpip) (o1 o2 : byte)
         (data : list byte),
    c = (if unicast then CallDeliver else CallMcDeliver) iobuf (Some src)
    /\ iobuf = o1 :: o2 :: data /\ ntohs o1 o2 = TFTP_OACK
    /\ peer (w_tftp (rx_world unicast src w)) = src
    /\ blksize_processed iobuf (rx_world unicast src w) value.

(** The block size [b] is the number of the blksize option [value]. *)
Definition blksize_of (value : string) (b : Z) : Prop :=
  b = uint (fst (strtoul value 10)).

#[local] Arguments uint : simpl never.
#[local] Arguments uint16 : simpl never.
#[local] Arguments to_signed : simpl never.
#[local] Arguments Z.mul : simpl never.
#[local] Arguments Z.add : simpl never.
#[local] Arguments Z.div : simpl never.
#[local] Arguments Z.leb : simpl never.
#[local] Arguments Z.ltb : simpl never.
#[local] Arguments Z.eqb : simpl never.
#[local] Arguments Z.land : simpl never.
#[local] Arguments Z.lor : simpl never.
#[local] Arguments bitmap_resized : simpl never.
#[local] Arguments bitmap_set : simpl never.
#[local] Arguments bitmap_full : simpl never.
#[local] Arguments bitmap_first_gap : simpl never.
#[local] Arguments tftp_block_number : simpl never.
#[local] Arguments tftp_presize : simpl never.
#[local] Arguments tftp_send_packet : simpl never.
#[local] Arguments tftp_done : simpl never.
#[local] Arguments tftp_rx_error : simpl never.
#[local] Arguments tftp_rx_data : simpl never.
#[local] Arguments tftp_rx_oack : simpl never.
#[local] Arguments pretty : simpl never.

(** ** Block-number reconstruction *)

Lemma uint_small x : 0 <= x < 2 ^ 32 -> uint x = x.
Proof. intros; unfold uint; apply Z.mod_small; lia. Qed.

Lemma uint_range x : 0 <= uint x < 2 ^ 32.
Proof. unfold uint; apply Z.mod_pos_bound; lia. Qed.

(** [x & ~0xffff] rounds an [unsigned int] down to a multiple of 65536. *)
Lemma land_not_0xffff x :
  0 <= x < 2 ^ 32 -> Z.land x (uint (Z.lnot 0xffff)) = 65536 * (x / 65536).
Proof.
  intros Hx. unfold uint.
  rewrite <- (Z.land_ones _ 32) by lia.
  rewrite (Z.land_comm (Z.lnot _)), Z.land_assoc.
  rewrite (Z.land_ones x 32), (Z.mod_small x) by lia.
  change 0xffff with (Z.ones 16).
  rewrite <- Z.ldiff_land, Z.ldiff_ones_r by lia.
  rewrite Z.shiftr_div_pow2, Z.shiftl_mul_pow2 by lia.
  change (2 ^ 16) with 65536. lia.
Qed.

Lemma tftp_block_number_eq g b16 :
  0 <= g -> g + 1 < 2 ^ 32 ->
  tftp_block_number g b16 =
    if (b16 =? 0) && (65536 * ((g + 1) / 65536) =? 0) then None
    else Some (uint (65536 * ((g + 1) / 65536) + (b16 - 1))).
Proof.
  intros Hg Hg'. unfold tftp_block_number.
  rewrite (uint_small (g + 1)) by lia.
  rewrite land_not_0xffff by lia. reflexivity.
Qed.

(** C1 (as amended): the block index decoded from the wire field of the
    true block [B] is [B] exactly when [B + 1] and [g + 1], the wire
    numbers of [B] and of the first gap [g], lie in the same 65536-aligned
    window -- in particular for the in-order block [B = g]. *)
Theorem tftp_block_number_same_window (g B : Z) :
  0 <= g -> g + 1 < 2 ^ 32 -> 0 <= B -> B + 1 < 2 ^ 32 ->
  (tftp_block_number g (uint16 (B + 1)) = Some B
   <-> (g + 1) / 65536 = (B + 1) / 65536)
  /\ tftp_block_number g (uint16 (g + 1)) = Some g.
Proof.
  intros Hg Hg' HB HB'.
  assert (Hdec : forall C, 0 <= C -> C + 1 < 2 ^ 32 ->
            (tftp_block_number g (uint16 (C + 1)) = Some C
             <-> (g + 1) / 65536 = (C + 1) / 65536)).
  { intros C HC HC'. rewrite tftp_block_number_eq by lia. unfold uint16.
    change (2 ^ 16) with 65536.
    pose proof (Z.div_mod (C + 1) 65536 ltac:(lia)) as Hdm.
    pose proof (Z.mod_pos_bound (C + 1) 65536 ltac:(lia)) as Hr.
    pose proof (Z.div_mod (g + 1) 65536 ltac:(lia)) as Hdg.
    pose proof (Z.mod_pos_bound (g + 1) 65536 ltac:(lia)) as Hrg.
    set (q := (C + 1) / 65536) in *. set (r := (C + 1) mod 65536) in *.
    set (p := (g + 1) / 65536) in *.
    destruct (Z.eqb_spec r 0) as [Hr0|Hr0];
      destruct (Z.eqb_spec (65536 * p) 0) as [Hp0|Hp0]; simpl.
    - split; [discriminate | lia].
    - rewrite uint_small by lia. split; [intros [= E] | intros E]; [lia | f_equal; lia].
    - rewrite uint_small by lia. split; [intros [= E] | intros E]; [lia | f_equal; lia].
    - rewrite uint_small by lia. split; [intros [= E] | intros E]; [lia | f_equal; lia]. }
  split; [apply Hdec; lia | apply Hdec; lia].
Qed.

Lemma tftp_block_number_same_window_witness :
  tftp_block_number 70000 (uint16 (70002 + 1)) = Some 70002.
Proof.
  apply (proj1 (tftp_block_number_same_window 70000 70002
                  ltac:(lia) ltac:(lia) ltac:(lia) ltac:(lia))).
  reflexivity.
Defined.

(** C1 (counterexample): block 65536 arriving while block 65534 is the
    first missing one is within 32768 of it, in a file of 32 MB at the
    default block size, and is decoded as block 0. *)
Lemma tftp_block_number_window_counterexample :
  Z.abs (65536 - 65534) < 32768 /\ (65536 + 1) * 512 <= 2 ^ 31 /\
  tftp_block_number 65534 (uint16 (65536 + 1)) = Some 0 /\
  tftp_block_number 65534 (uint16 (65536 + 1)) <> Some 65536.
Proof.
  split; [lia |]. split; [lia |].
  split; [reflexivity | discriminate].
Qed.

(** ** Presizing *)

Ltac unfold_monad :=
  unfold bind, ret, undefined, get_tftp, modify_tftp, get_request_blksize,
    emit, ext_call in *.

(** What one call of [tftp_presize] does, case by case. *)
Lemma tftp_presize_cases (F : Z) (w : world) :
  let t := w_tftp w in
  tftp_presize F w =
    if F <=? filesize t then Some (OK, w)
    else if blksize t =? 0 then None
    else
      let grown := with_events [EvSeek (to_signed F); EvSeek 0]
                     (with_tftp (set_filesize F t) w) in
      match w_env w with
      | [] =>
          Some (OK, with_tftp (set_bitmap
                  (bitmap_resized (tftp_bitmap t) (uint (F / blksize t + 1)))
                  (set_filesize F t)) grown)
      | OK :: env =>
          Some (OK, {| w_tftp := set_bitmap
                         (bitmap_resized (tftp_bitmap t) (uint (F / blksize t + 1)))
                         (set_filesize F t);
                       w_request_blksize := w_request_blksize w;
                       w_mtftp_socket := w_mtftp_socket w;
                       w_trace := w_trace grown;
                       w_env := env |})
      | ERR _ :: env =>
          Some (ERR ENOMEM, {| w_tftp := set_filesize F t;
                               w_request_blksize := w_request_blksize w;
                               w_mtftp_socket := w_mtftp_socket w;
                               w_trace := w_trace grown;
                               w_env := env |})
      end.
Proof.
  destruct w as [t b m tr env]; simpl.
  unfold tftp_presize, bitmap_resize; unfold_monad; simpl.
  destruct (F <=? filesize t); [reflexivity|].
  destruct (blksize t =? 0); [reflexivity|]; simpl.
  destruct env as [|[|e] env]; simpl; rewrite <- ?app_assoc; reflexivity.
Qed.

Lemma tftp_presize_noop (F : Z) (w : world) :
  F <= filesize (w_tftp w) -> tftp_presize F w = Some (OK, w).
Proof.
  intros H. rewrite tftp_presize_cases; simpl.
  destruct (Z.leb_spec F (filesize (w_tftp w))); [reflexivity | lia].
Qed.

Lemma tftp_presize_filesize (F : Z) (w w' : world) (rc : status) :
  tftp_presize F w = Some (rc, w') ->
  filesize (w_tftp w') = Z.max (filesize (w_tftp w)) F
  /\ blksize (w_tftp w') = blksize (w_tftp w).
Proof.
  rewrite tftp_presize_cases; simpl.
  destruct (Z.leb_spec F (filesize (w_tftp w))).
  - intros [= <- <-]. split; [lia | reflexivity].
  - destruct (blksize (w_tftp w) =? 0); [discriminate|].
    destruct (w_env w) as [|[|e] env]; intros [= <- <-]; simpl; split;
      (lia || reflexivity).
Qed.

Lemma tftp_presize_runs (F : Z) (w : world) :
  blksize (w_tftp w) <> 0 -> exists rc w', tftp_presize F w = Some (rc, w').
Proof.
  intros Hb. rewrite tftp_presize_cases; simpl.
  destruct (F <=? filesize (w_tftp w)); [eauto|].
  destruct (Z.eqb_spec (blksize (w_tftp w)) 0); [contradiction|].
  destruct (w_env w) as [|[|e] env]; eauto.
Qed.

(** C9: [tftp_presize] is idempotent and monotone.  A call with a size
    that is not larger than [filesize] succeeds and leaves the world as it
    is (request, trace of downstream notifications and all); over any
    sequence of calls [filesize] does not decrease, and such a sequence
    runs to its end when the block size is not zero; presizing twice to
    the same size leaves the same world as presizing once. *)
Theorem tftp_presize_idempotent_monotone :
  (forall (w : world) (F : Z),
      F <= filesize (w_tftp w) -> tftp_presize F w = Some (OK, w))
  /\ (forall (sizes : list Z) (w w' : world),
         exec (tftp_presize_all sizes) w = Some w' ->
         filesize (w_tftp w) <= filesize (w_tftp w'))
  /\ (forall (sizes : list Z) (w : world),
         blksize (w_tftp w) <> 0 ->
         exists w', exec (tftp_presize_all sizes) w = Some w')
  /\ (forall (w : world) (F : Z),
         exec (tftp_presize F ;; tftp_presize F) w = exec (tftp_presize F) w).
Proof.
  split; [intros w F; apply tftp_presize_noop|].
  split; [|split].
  - induction sizes as [|F sizes IH]; intros w w'; unfold exec; simpl.
    + unfold ret. intros [= <-]. lia.
    + unfold bind at 1.
      destruct (tftp_presize F w) as [[rc w1]|] eqn:E; [|discriminate].
      intros H. apply tftp_presize_filesize in E as [E _].
      specialize (IH w1 w'). unfold exec in IH. apply IH in H. lia.
  - induction sizes as [|F sizes IH]; intros w Hb; unfold exec; simpl.
    + unfold ret. eauto.
    + unfold bind at 1.
      destruct (tftp_presize_runs F w Hb) as (rc & w1 & E). rewrite E.
      apply tftp_presize_filesize in E as [_ E].
      apply IH. congruence.
  - intros w F. unfold exec, bind.
    destruct (tftp_presize F w) as [[rc w1]|] eqn:E; [|reflexivity].
    apply tftp_presize_filesize in E as [E _].
    rewrite tftp_presize_noop by lia. reflexivity.
Qed.

(** C2 (as amended): a successful [tftp_presize] that grows [filesize] to
    [F] leaves a bitmap of exactly [F / blksize + 1] bits.  That is at
    least [⌈F / blksize⌉] bits, and [⌈F / blksize⌉ + 1] bits when [F] is a
    multiple of the block size, so that the trailing zero-length block has
    its bit; it is only [⌈F / blksize⌉] bits when it is not. *)
Theorem tftp_presize_bitmap_length (w w' : world) (F : Z) :
  let b := blksize (w_tftp w) in
  0 <= filesize (w_tftp w) < F -> 0 < b -> F / b + 1 < 2 ^ 32 ->
  tftp_presize F w = Some (OK, w') ->
  let len := Z.of_nat (length (tftp_bitmap (w_tftp w'))) in
  filesize (w_tftp w') = F
  /\ blksize (w_tftp w') = b
  /\ len = F / b + 1
  /\ ceil_div F b <= len
  /\ (F mod b = 0 -> len = ceil_div F b + 1)
  /\ (F mod b <> 0 -> len = ceil_div F b).
Proof.
  intros b HF Hb Hn Hrun len.
  assert (Hlen : len = F / b + 1 /\ filesize (w_tftp w') = F
                 /\ blksize (w_tftp w') = b).
  { subst len. rewrite tftp_presize_cases in Hrun; simpl in Hrun. fold b in Hrun.
    destruct (Z.leb_spec F (filesize (w_tftp w))); [lia|].
    destruct (Z.eqb_spec b 0); [lia|].
    assert (0 <= F / b) by (apply Z.div_pos; lia).
    assert (Hsz : Z.of_nat (length (bitmap_resized (tftp_bitmap (w_tftp w))
                                      (uint (F / b + 1)))) = F / b + 1).
    { unfold bitmap_resized. rewrite length_resize, uint_small by lia. lia. }
    destruct (w_env w) as [|[|e] env]; inversion Hrun; subst w'; simpl;
      auto. }
  destruct Hlen as (Hlen & Hf & Hb').
  unfold ceil_div.
  assert (Hc : (F + b - 1) / b = if F mod b =? 0 then F / b else F / b + 1).
  { pose proof (Z.div_mod F b ltac:(lia)) as Hdm.
    pose proof (Z.mod_pos_bound F b Hb) as Hr.
    destruct (Z.eqb_spec (F mod b) 0) as [E|E].
    - symmetry. apply (Z.div_unique _ _ _ (b - 1)); lia.
    - symmetry. apply (Z.div_unique _ _ _ (F mod b - 1)); lia. }
  rewrite Hc.
  destruct (Z.eqb_spec (F mod b) 0); repeat split; lia.
Qed.

Lemma tftp_presize_bitmap_length_witness :
  exists w' : world,
    tftp_presize 1024 opened = Some (OK, w')
    /\ Z.of_nat (length (tftp_bitmap (w_tftp w'))) = 3.
Proof.
  assert (E : exists w', tftp_presize 1024 opened = Some (OK, w'))
    by (eexists; vm_compute; reflexivity).
  destruct E as [w' E]. exists w'. split; [exact E|].
  destruct (tftp_presize_bitmap_length opened w' 1024
              ltac:(vm_compute; split; [discriminate | reflexivity])
              ltac:(vm_compute; reflexivity) ltac:(vm_compute; reflexivity) E)
    as (_ & _ & Hlen & _).
  rewrite Hlen. reflexivity.
Defined.

(** C2 (counterexample): a file of 712 bytes at the block size 512 (a full
    block and a short one) gets a bitmap of 2 bits, one less than
    [⌈712 / 512⌉ + 1 = 3]. *)
Lemma tftp_presize_bitmap_ceil_counterexample :
  exists w' : world,
    tftp_presize 712 opened = Some (OK, w')
    /\ filesize (w_tftp w') = 712
    /\ blksize (w_tftp w') = 512
    /\ Z.of_nat (length (tftp_bitmap (w_tftp w'))) = 2
    /\ ceil_div 712 512 + 1 = 3.
Proof.
  eexists. split; [vm_compute; reflexivity|].
  repeat split.
Qed.

(** ** Receiving DATA *)

(** [tftp_send_packet] once a peer is known and ACKs are being sent: the
    timer is restarted and the first gap of the bitmap is acknowledged. *)
Lemma tftp_send_packet_ack (w : world) :
  let t := w_tftp w in
  w_env w = [] -> st_family (peer t) <> 0 -> flag_set (flags t) TFTP_FL_SEND_ACK = true ->
  tftp_send_packet w =
    Some (OK, with_events [EvStopTimer; EvStartTimer;
                EvSend (TxACK (peer t) (uint16 (uint (Z.of_nat (bitmap_first_gap (tftp_bitmap t))))))] w).
Proof.
  destruct w as [t b m tr env]; simpl. intros -> Hp Hf.
  unfold tftp_send_packet, tftp_send_ack; unfold_monad; simpl.
  destruct (Z.eqb_spec (st_family (peer t)) 0); [contradiction|].
  rewrite Hf. simpl. unfold with_events; simpl. rewrite <- !app_assoc. reflexivity.
Qed.

(** [tftp_done] only adds its calls to the trace. *)
Lemma tftp_done_run (rc : status) (w : world) :
  tftp_done rc w = Some (tt, with_events (done_events rc) w).
Proof.
  destruct w as [t b m tr env].
  unfold tftp_done, with_events; unfold_monad; simpl.
  rewrite <- !app_assoc. reflexivity.
Qed.

(** One DATA packet accepted by [tftp_rx_data] while every collaborator
    call succeeds and ACKs are being sent, with the numbers it gives rise
    to named: the block index, the offset, the file size known after it,
    the bitmap after it, the block number acknowledged and whether the
    bitmap is full. *)
Lemma tftp_rx_data_step (w : world) (o1 o2 hi lo : byte) (payload : list byte)
    (block off F : Z) (bm' : bitmap) (ack : Z) (full : bool) :
  let t := w_tftp w in
  w_env w = [] -> st_family (peer t) <> 0 ->
  flag_set (flags t) TFTP_FL_SEND_ACK = true ->
  tftp_block_number (Z.of_nat (bitmap_first_gap (tftp_bitmap t))) (ntohs hi lo)
    = Some block ->
  Z.of_nat (length payload) <= blksize t -> 0 < blksize t ->
  to_signed (uint (block * blksize t)) = off ->
  uint (off + Z.of_nat (length payload)) = F ->
  bitmap_set (if F <=? filesize t then tftp_bitmap t
              else bitmap_resized (tftp_bitmap t) (uint (F / blksize t + 1)))
             block = bm' ->
  uint16 (uint (Z.of_nat (bitmap_first_gap bm'))) = ack ->
  bitmap_full bm' = full ->
  tftp_rx_data (o1 :: o2 :: hi :: lo :: payload) w =
    Some (OK, with_events
                ([EvDeliver off payload]
                 ++ (if F <=? filesize t then [] else [EvSeek (to_signed F); EvSeek 0])
                 ++ [EvStopTimer; EvStartTimer; EvSend (TxACK (peer t) ack)]
                 ++ (if full then done_events OK else []))
                (with_tftp (set_bitmap bm' (set_filesize (Z.max (filesize t) F) t)) w)).
Proof.
  destruct w as [t b m tr env]; simpl.
  intros -> Hp Hf Hblk Hlen Hb Hoff HF Hbm Hack Hfull.
  unfold tftp_rx_data; unfold_monad; simpl.
  rewrite Hblk.
  destruct (Z.ltb_spec (blksize t) (Z.of_nat (length payload))); [lia|]. simpl.
  rewrite Hoff, HF.
  rewrite tftp_presize_cases; simpl.
  revert Hbm.
  destruct (Z.leb_spec F (filesize t)) as [Hle|Hgt]; intros Hbm.
  - rewrite tftp_send_packet_ack by (simpl; auto). simpl.
    rewrite Hbm, Hack, Hfull, Z.max_l by lia.
    destruct full; [rewrite tftp_done_run|];
      unfold ret, with_events, with_tftp; simpl; rewrite <- !app_assoc;
      repeat f_equal; destruct t; reflexivity.
  - destruct (Z.eqb_spec (blksize t) 0); [lia|]. simpl.
    rewrite tftp_send_packet_ack by (simpl; auto). simpl.
    rewrite Hbm, Hack, Hfull, Z.max_r by lia.
    destruct full; [rewrite tftp_done_run|];
      unfold ret, with_events, with_tftp; simpl; rewrite <- !app_assoc;
      reflexivity.
Qed.

(** Bytes written by [htons] are read back by [ntohs]. *)
Lemma byte_val_of_Z (v : Z) : byte_val (byte_of_Z v) = v mod 256.
Proof.
  unfold byte_val, byte_of_Z.
  pose proof (Z.mod_pos_bound v 256 ltac:(lia)) as Hr.
  destruct (Byte.of_N (Z.to_N (v mod 256))) as [b|] eqn:E.
  - apply Byte.to_of_N in E. simpl. rewrite E. lia.
  - apply Byte.of_N_None_iff in E. lia.
Qed.

Lemma ntohs_wire16 (v : Z) :
  0 <= v < 65536 -> ntohs (byte_of_Z (v / 256)) (byte_of_Z v) = v.
Proof.
  intros Hv. unfold ntohs. rewrite !byte_val_of_Z.
  rewrite (Z.mod_small (v / 256)).
  - pose proof (Z.div_mod v 256 ltac:(lia)). lia.
  - split; [apply Z.div_pos; lia | apply Z.div_lt_upper_bound; lia].
Qed.

(** [flags |= bit] sets the flag. *)
Lemma flag_set_lor (f bit : Z) : 0 < bit -> flag_set (Z.lor f bit) bit = true.
Proof.
  intros Hb. unfold flag_set.
  rewrite Z.land_lor_distr_l, Z.land_diag.
  destruct (Z.eqb_spec (Z.lor (Z.land f bit) bit) 0) as [E|E]; [|reflexivity].
  apply Z.lor_eq_0_iff in E. lia.
Qed.

(** A DATA packet that passes the address filter on the unicast socket. *)
Lemma tftp_socket_deliver_data (w : world) (src : sockaddr_tcpip) (k : Z)
    (payload : list byte) :
  let t := w_tftp w in
  0 <= k < 65536 ->
  st_family (peer t) = 0 \/ peer t = src ->
  tftp_socket_deliver_iob (data_packet k payload) (Some src) w =
    tftp_rx_data (data_packet k payload)
      (with_tftp (set_peer src (set_flags (Z.lor (flags t) TFTP_FL_SEND_ACK) t)) w).
Proof.
  destruct w as [t b m tr env]; simpl. intros Hk Hp.
  unfold tftp_socket_deliver_iob, tftp_rx, data_packet; unfold_monad; simpl.
  rewrite ntohs_wire16 by (unfold TFTP_DATA; lia).
  change (tftp_rx_switch ?p TFTP_DATA) with (tftp_rx_data p).
  destruct (Z.eqb_spec (st_family (peer t)) 0) as [E|E]; simpl.
  - reflexivity.
  - destruct Hp as [Hp|Hp]; [contradiction|].
    rewrite bool_decide_eq_true_2 by assumption. simpl.
    unfold with_tftp; simpl. do 3 f_equal. destruct t; simpl in *; subst; reflexivity.
Qed.

(** Running a sequence whose first computation is known. *)
Lemma bind_some {A B} (c : M A) (k : A -> M B) (w w' : world) (a : A) :
  c w = Some (a, w') -> bind c k w = k a w'.
Proof. intros H; unfold bind; rewrite H; reflexivity. Qed.

Lemma to_signed_small x : 0 <= x < 2 ^ 31 -> to_signed x = x.
Proof.
  intros H. unfold to_signed. rewrite uint_small by lia.
  destruct (Z.ltb_spec x (2 ^ 31)); lia.
Qed.


(** One DATA packet accepted on the unicast socket. *)
Lemma deliver_data_step (w : world) (src : sockaddr_tcpip) (k : Z)
    (payload : list byte) (block off F : Z) (bm' : bitmap) (ack : Z) (full : bool) :
  let t := w_tftp w in
  let t0 := set_peer src (set_flags (Z.lor (flags t) TFTP_FL_SEND_ACK) t) in
  w_env w = [] -> st_family src <> 0 ->
  st_family (peer t) = 0 \/ peer t = src ->
  0 <= k < 65536 ->
  tftp_block_number (Z.of_nat (bitmap_first_gap (tftp_bitmap t))) k = Some block ->
  Z.of_nat (length payload) <= blksize t -> 0 < blksize t ->
  to_signed (uint (block * blksize t)) = off ->
  uint (off + Z.of_nat (length payload)) = F ->
  bitmap_set (if F <=? filesize t then tftp_bitmap t
              else bitmap_resized (tftp_bitmap t) (uint (F / blksize t + 1)))
             block = bm' ->
  uint16 (uint (Z.of_nat (bitmap_first_gap bm'))) = ack ->
  bitmap_full bm' = full ->
  tftp_socket_deliver_iob (data_packet k payload) (Some src) w =
    Some (OK, with_events
                ([EvDeliver off payload]
                 ++ (if F <=? filesize t then [] else [EvSeek (to_signed F); EvSeek 0])
                 ++ [EvStopTimer; EvStartTimer; EvSend (TxACK src ack)]
                 ++ (if full then done_events OK else []))
                (with_tftp (set_bitmap bm' (set_filesize (Z.max (filesize t) F) t0)) w)).
Proof.
  intros t t0 Henv Hsrc Hpeer Hk Hblk Hlen Hb Hoff HF Hbm Hack Hfull.
  rewrite tftp_socket_deliver_data by assumption. fold t t0.
  unfold data_packet; cbn [wire16 app].
  rewrite (tftp_rx_data_step _ _ _ _ _ _ block off F bm' ack full);
    cbn [w_tftp w_env with_tftp]; subst t0;
    cbn [blksize set_peer set_flags filesize tftp_bitmap peer flags];
    [ | assumption | exact Hsrc | apply flag_set_lor; reflexivity
      | rewrite ntohs_wire16 by lia; exact Hblk
      | exact Hlen | exact Hb | exact Hoff | exact HF | exact Hbm | exact Hack
      | exact Hfull ].
  destruct w as [t' gb m tr env]; reflexivity.
Qed.

Ltac world_simpl :=
  unfold with_events, with_tftp, set_blksize, set_tsize, set_port, set_peer,
    set_flags, set_mtftp_timeouts, set_bitmap, set_filesize in *;
  cbn [w_tftp w_env w_trace w_request_blksize w_mtftp_socket
       tftp_uri blksize tsize port peer flags mtftp_timeouts tftp_bitmap filesize
       length] in *.

(** C3 (as amended): in the download whose DATA blocks arrive in the
    order 1, 3, 2, 4, the last one empty, the data is delivered downstream
    at the offsets 0, 2 x blksize, blksize and 3 x blksize, the request
    terminates with status OK after block 4 and not before, and the four
    ACK packets carry the block numbers 1, 1, 3 and 4: the first gap of
    the bitmap once the block just received has been marked in it. *)
Theorem out_of_order_download_trace (w : world) (src : sockaddr_tcpip)
    (p1 p2 p3 : list byte) :
  let t := w_tftp w in
  let b := blksize t in
  w_env w = [] -> tftp_bitmap t = [] -> filesize t = 0 ->
  0 < b -> 4 * b < 2 ^ 31 ->
  st_family (peer t) = 0 \/ peer t = src -> st_family src <> 0 ->
  Z.of_nat (length p1) = b -> Z.of_nat (length p2) = b ->
  Z.of_nat (length p3) = b ->
  exists (w' : world) (evs : list event),
    out_of_order_download src p1 p2 p3 w = Some (OK, w')
    /\ w_trace w' = w_trace w ++ evs
    /\ evs =
         [ EvDeliver 0 p1; EvSeek b; EvSeek 0;
           EvStopTimer; EvStartTimer; EvSend (TxACK src 1);
           EvDeliver (2 * b) p3; EvSeek (3 * b); EvSeek 0;
           EvStopTimer; EvStartTimer; EvSend (TxACK src 1);
           EvDeliver b p2;
           EvStopTimer; EvStartTimer; EvSend (TxACK src 3);
           EvDeliver (3 * b) [];
           EvStopTimer; EvStartTimer; EvSend (TxACK src 4) ] ++ done_events OK
    /\ trace_offsets evs = [0; 2 * b; b; 3 * b]
    /\ trace_acks evs = [1; 1; 3; 4]
    /\ trace_done evs = [OK]
    /\ tftp_bitmap (w_tftp w') = [true; true; true; true]
    /\ filesize (w_tftp w') = 3 * b.
Proof.
  destruct w as [t gb m tr env]; destruct t as [u b ts pt pr fl mt bm fs]; simpl.
  intros -> -> -> Hb Hb4 Hpeer Hsrc H1 H2 H3.
  assert (Hdiv1 : b / b = 1) by (apply Z.div_same; lia).
  assert (Hdiv3 : (3 * b) / b = 3) by (apply Z.div_mul; lia).
  assert (Hmax1 : Z.max 0 b = b) by lia.
  assert (Hmax2 : Z.max b (3 * b) = 3 * b) by lia.
  assert (Hmax3 : Z.max (3 * b) (2 * b) = 3 * b) by lia.
  assert (Hmax4 : Z.max (3 * b) (3 * b) = 3 * b) by lia.
  unfold out_of_order_download.
  (* block 1 *)
  erewrite bind_some.
  2:{ apply (deliver_data_step _ src 1 p1 0 0 b [true; false] 1 false);
     world_simpl; auto; try lia;
     rewrite ?H1, ?Z.mul_0_l, ?Z.add_0_l, ?uint_small, ?to_signed_small by lia;
     try reflexivity.
     destruct (Z.leb_spec b 0); [lia|]. rewrite Hdiv1; reflexivity. }
  world_simpl.
  rewrite Hmax1.
  destruct (Z.leb_spec b 0); [lia|].
  (* block 3 *)
  erewrite bind_some.
  2:{ apply (deliver_data_step _ src 3 p3 2 (2 * b) (3 * b)
                [true; false; true; false] 1 false);
     world_simpl; auto; try lia;
     rewrite ?H3, ?uint_small, ?to_signed_small by lia;
     try reflexivity; try lia.
     destruct (Z.leb_spec (3 * b) b); [lia|]. rewrite Hdiv3; reflexivity. }
  world_simpl.
  rewrite Hmax2.
  destruct (Z.leb_spec (3 * b) b); [lia|].
  (* block 2 *)
  erewrite bind_some.
  2:{ apply (deliver_data_step _ src 2 p2 1 b (2 * b)
                [true; true; true; false] 3 false);
     world_simpl; auto; try lia;
     rewrite ?H2, ?Z.mul_1_l, ?uint_small, ?to_signed_small by lia;
     try reflexivity; try lia.
     destruct (Z.leb_spec (2 * b) (3 * b)); [reflexivity | lia]. }
  world_simpl.
  rewrite Hmax3.
  destruct (Z.leb_spec (2 * b) (3 * b)); [|lia].
  (* block 4 *)
  erewrite (deliver_data_step _ src 4 [] 3 (3 * b) (3 * b)
             [true; true; true; true] 4 true).
  all: world_simpl; auto; try lia;
     rewrite ?Z.add_0_r, ?uint_small, ?to_signed_small by lia;
     try reflexivity; try lia.
  world_simpl.
  2:{ destruct (Z.leb_spec (3 * b) (3 * b)); [reflexivity | lia]. }
  rewrite Hmax4.
  destruct (Z.leb_spec (3 * b) (3 * b)); [|lia].
  eexists; eexists; split; [reflexivity|].
  cbn [w_tftp w_trace tftp_bitmap filesize].
  rewrite ?to_signed_small by lia.
  rewrite <- !app_assoc.
  split; [reflexivity|].
  repeat split; reflexivity.
Qed.

Lemma out_of_order_download_trace_witness :
  exists w' : world,
    out_of_order_download server_addr (repeat x41 512) (repeat x42 512)
      (repeat x43 512) opened = Some (OK, w')
    /\ trace_offsets (w_trace w') = [0; 1024; 512; 1536]
    /\ trace_acks (w_trace w') = [1; 1; 3; 4]
    /\ trace_done (w_trace w') = [OK].
Proof.
  destruct (out_of_order_download_trace opened server_addr
              (repeat x41 512) (repeat x42 512) (repeat x43 512)
              ltac:(vm_compute; reflexivity) ltac:(vm_compute; reflexivity)
              ltac:(vm_compute; reflexivity) ltac:(vm_compute; reflexivity)
              ltac:(vm_compute; reflexivity)
              ltac:(left; vm_compute; reflexivity)
              ltac:(vm_compute; discriminate)
              ltac:(vm_compute; reflexivity) ltac:(vm_compute; reflexivity)
              ltac:(vm_compute; reflexivity))
    as (w' & evs & Hrun & Htr & Hevs & Hoff & Hack & Hdone & _).
  exists w'. split; [exact Hrun|].
  unfold trace_offsets, trace_acks, trace_done in *.
  rewrite Htr, !flat_map_app, Hoff, Hack, Hdone.
  vm_compute. repeat split; reflexivity.
Defined.

(** C3 (counterexample): in that download on a freshly opened request the
    ACK packets carry 1, 1, 3, 4 and not 0, 1, 1, 3. *)
Lemma out_of_order_download_acks_counterexample :
  exists w' : world,
    out_of_order_download server_addr (repeat x41 512) (repeat x42 512)
      (repeat x43 512) opened = Some (OK, w')
    /\ trace_acks (w_trace w') = [1; 1; 3; 4]
    /\ trace_acks (w_trace w') <> [0; 1; 1; 3].
Proof.
  eexists. split; [vm_compute; reflexivity|].
  split; [vm_compute; reflexivity | vm_compute; discriminate].
Qed.

(** ** Fields that a handler leaves alone *)

Section Preserves.
Context {X : Type} (f : tftp_request -> X).

Lemma preserves_ret {A} (a : A) : preserves f (ret a).
Proof. intros w a' w' [= _ <-]. reflexivity. Qed.

Lemma preserves_undefined {A} : preserves f (@undefined A).
Proof. intros w a w' [=]. Qed.

Lemma preserves_bind {A B} (c : M A) (k : A -> M B) :
  preserves f c -> (forall a, preserves f (k a)) -> preserves f (bind c k).
Proof.
  intros Hc Hk w b w'. unfold bind.
  destruct (c w) as [[a w1]|] eqn:E; [|discriminate].
  intros H. rewrite (Hk a _ _ _ H). exact (Hc _ _ _ E).
Qed.

Lemma preserves_emit (e : event) : preserves f (emit e).
Proof. intros w a w' [= _ <-]. reflexivity. Qed.

Lemma preserves_ext_call : preserves f ext_call.
Proof.
  intros w a w'. unfold ext_call.
  destruct (w_env w); intros [= _ <-]; reflexivity.
Qed.

Lemma preserves_get_tftp : preserves f get_tftp.
Proof. intros w a w' [= _ <-]. reflexivity. Qed.

Lemma preserves_get_request_blksize : preserves f get_request_blksize.
Proof. intros w a w' [= _ <-]. reflexivity. Qed.

Lemma preserves_modify_tftp (g : tftp_request -> tftp_request) :
  (forall t, f (g t) = f t) -> preserves f (modify_tftp g).
Proof. intros Hg w a w' [= _ <-]. simpl. apply Hg. Qed.
End Preserves.

Create HintDb preserves.

Ltac preserves_step :=
  first
    [ solve [auto 1 with preserves nocore]
    | apply preserves_ret
    | apply preserves_undefined
    | apply preserves_emit
    | apply preserves_ext_call
    | apply preserves_get_tftp
    | apply preserves_get_request_blksize
    | apply preserves_modify_tftp; intros ?; reflexivity
    | apply preserves_bind; [| intros ?]
    | match goal with
      | |- preserves _ (match ?x with _ => _ end) => destruct x
      | |- preserves _ (let (_, _) := ?x in _) => destruct x
      | |- preserves _ (let _ := _ in _) => cbv zeta
      end ].

Ltac preserves_auto := repeat preserves_step.

Lemma tftp_done_preserves {X} (f : tftp_request -> X) rc : preserves f (tftp_done rc).
Proof. unfold tftp_done. preserves_auto. Qed.
#[local] Hint Resolve tftp_done_preserves : preserves.

Lemma tftp_presize_preserves_blksize F : preserves blksize (tftp_presize F).
Proof. unfold tftp_presize, bitmap_resize. preserves_auto. Qed.
#[local] Hint Resolve tftp_presize_preserves_blksize : preserves.

Lemma tftp_reopen_preserves_blksize : preserves blksize tftp_reopen.
Proof. unfold tftp_reopen. preserves_auto. Qed.
#[local] Hint Resolve tftp_reopen_preserves_blksize : preserves.

Lemma tftp_send_packet_preserves {X} (f : tftp_request -> X) : preserves f tftp_send_packet.
Proof. unfold tftp_send_packet, tftp_send_rrq, tftp_send_ack. preserves_auto. Qed.
#[local] Hint Resolve tftp_send_packet_preserves : preserves.

Lemma tftp_timer_expired_preserves_blksize fail :
  preserves blksize (tftp_timer_expired fail).
Proof.
  unfold tftp_timer_expired.
  preserves_auto.
Qed.

Lemma tftp_rx_data_preserves_blksize iobuf : preserves blksize (tftp_rx_data iobuf).
Proof.
  unfold tftp_rx_data.
  preserves_auto.
Qed.
#[local] Hint Resolve tftp_rx_data_preserves_blksize : preserves.

Lemma tftp_rx_error_preserves {X} (f : tftp_request -> X) buf : preserves f (tftp_rx_error buf).
Proof. unfold tftp_rx_error. preserves_auto. Qed.
#[local] Hint Resolve tftp_rx_error_preserves : preserves.

Lemma tftp_process_tsize_preserves_blksize v : preserves blksize (tftp_process_tsize v).
Proof. unfold tftp_process_tsize. preserves_auto. Qed.

Lemma tftp_process_multicast_preserves_blksize v :
  preserves blksize (tftp_process_multicast v).
Proof. unfold tftp_process_multicast, tftp_reopen_mc. preserves_auto. Qed.

Lemma tftp_rx_preserves_blksize (iobuf : list byte) (src : option sockaddr_tcpip) :
  (forall o1 o2 rest, iobuf = o1 :: o2 :: rest -> ntohs o1 o2 <> TFTP_OACK) ->
  preserves blksize (tftp_rx iobuf src).
Proof.
  intros Hop. unfold tftp_rx, tftp_rx_switch.
  destruct iobuf as [|o1 [|o2 rest]]; [preserves_auto..|].
  specialize (Hop o1 o2 rest eq_refl).
  destruct (Z.eqb_spec (ntohs o1 o2) TFTP_OACK); [contradiction|].
  preserves_auto.
Qed.

(** *** Where the block size comes from *)

(** C4 (counterexample): an OACK with "blksize=8" on a freshly opened
    request, whose block size is 512, leaves the block size 8. *)
Lemma tftp_blksize_oack_counterexample :
  blksize (w_tftp opened) = 512
  /\ exists w' : world,
       tftp_socket_deliver_iob (oack_packet ["blksize"; "8"]%string)
         (Some server_addr) opened = Some (OK, w')
       /\ blksize (w_tftp w') = 8
       /\ blksize (w_tftp w') < 512.
Proof.
  split; [reflexivity|].
  eexists. split; [vm_compute; reflexivity|].
  split; reflexivity.
Qed.


(** ** The retransmission timer under MTFTP *)

(** [tftp_send_packet] while no peer is known: the timer is restarted and
    the RRQ is sent, unless the buffer allocation fails. *)
Lemma tftp_send_packet_rrq (w : world) (path : string) :
  let t := w_tftp w in
  st_family (peer t) = 0 -> uri_path (tftp_uri t) = Some path ->
  exists (rc : status) (rest : list event) (env' : list status),
    tftp_send_packet w =
      Some (rc, {| w_tftp := t; w_request_blksize := w_request_blksize w;
                   w_mtftp_socket := w_mtftp_socket w;
                   w_trace := w_trace w ++ [EvStopTimer; EvStartTimer] ++ rest;
                   w_env := env' |})
    /\ (forall e, In e rest -> exists p, e = EvSend p)
    /\ (w_env w = [] ->
        rest = [ EvSend (TxRRQ
                   ([strip_slash path; "octet"%string]
                    ++ (if flag_set (flags t) TFTP_FL_RRQ_SIZES
                        then ["blksize"; pretty (to_signed (w_request_blksize w));
                              "tsize"; "0"]%string
                        else [])
                    ++ (if flag_set (flags t) TFTP_FL_RRQ_MULTICAST
                        then ["multicast"; ""]%string
                        else []))) ]).
Proof.
  destruct w as [t gb m tr env]; simpl. intros Hpeer Hpath.
  unfold tftp_send_packet, tftp_send_rrq; unfold_monad; simpl.
  rewrite Hpeer; change (0 =? 0) with true; simpl. rewrite Hpath; simpl.
  destruct env as [|[|e1] [|rc2 env]]; simpl; rewrite <- ?app_assoc; simpl;
    do 3 eexists; (split; [reflexivity|]); (split; [|intros [=]; try reflexivity]);
    try (intros e [<-|[]]; eauto); try (intros e []).
Qed.

(** C5: on an expiry of the timer of an MTFTP request that has no peer yet,
    [mtftp_timeouts] is incremented, and exactly when the new count exceeds
    MTFTP_MAX_TIMEOUTS = 3 the request falls back to TFTP: the flags become
    RRQ_SIZES alone, the multicast socket is closed, the timer is started
    without delay, the bitmap is emptied, the port becomes 69, the unicast
    socket is closed and opened again with the peer reset, and then (when
    the collaborators' calls succeed) the plain RRQ is sent.  Otherwise
    only the count changes and the current RRQ is sent again. *)
Theorem mtftp_timeout_fallback (w : world) (fail : bool) (path : string) :
  let t := w_tftp w in
  let timeouts := uint (mtftp_timeouts t + 1) in
  flag_set (flags t) TFTP_FL_MTFTP_RECOVERY = true ->
  st_family (peer t) = 0 ->
  uri_path (tftp_uri t) = Some path ->
  exists (w' : world) (rest : list event),
    tftp_timer_expired fail w = Some (tt, w')
    /\ mtftp_timeouts (w_tftp w') = timeouts
    /\ if MTFTP_MAX_TIMEOUTS <? timeouts then
         w_tftp w' = set_peer sockaddr_zero (set_port TFTP_PORT (set_bitmap bitmap_empty
                       (set_flags TFTP_FL_RRQ_SIZES (set_mtftp_timeouts timeouts t))))
         /\ w_trace w' = w_trace w ++
              [ EvClose MC_SOCKET OK; EvStartTimerNodelay;
                EvClose SOCKET OK;
                EvOpenNamedSocket TFTP_PORT (uri_host (tftp_uri t)) ] ++ rest
         /\ (w_env w = [] ->
             rest = [ EvStopTimer; EvStartTimer;
                      EvSend (plain_rrq path (w_request_blksize w)) ])
       else
         w_tftp w' = set_mtftp_timeouts timeouts t
         /\ w_trace w' = w_trace w ++ [EvStopTimer; EvStartTimer] ++ rest
         /\ ~ In EvStartTimerNodelay rest /\ ~ In (EvClose MC_SOCKET OK) rest.
Proof.
  destruct w as [t gb m tr env]; simpl. intros Hfl Hpeer Hpath.
  unfold tftp_timer_expired; unfold_monad; simpl.
  rewrite Hfl, Hpeer; change (0 =? 0) with true; simpl.
  destruct (Z.ltb_spec MTFTP_MAX_TIMEOUTS (uint (mtftp_timeouts t + 1)))
    as [Hlt|Hge]; simpl.
  - unfold tftp_reopen; unfold_monad; simpl.
    destruct env as [|[|e] env]; simpl.
    + edestruct (tftp_send_packet_rrq) as (rc & rest & env' & Hrun & _ & Hrest);
        [| | rewrite Hrun]; [reflexivity | exact Hpath |].
      simpl in *. rewrite <- !app_assoc.
      do 2 eexists. split; [reflexivity|]. simpl.
      repeat split. intros _. rewrite Hrest by reflexivity. reflexivity.
    + edestruct (tftp_send_packet_rrq) as (rc & rest & env' & Hrun & _ & Hrest);
        [| | rewrite Hrun]; [reflexivity | exact Hpath |].
      simpl in *. rewrite <- !app_assoc.
      do 2 eexists. split; [reflexivity|]. simpl.
      repeat split. intros [=].
    + rewrite tftp_done_run. unfold with_events; simpl. rewrite <- !app_assoc.
      do 2 eexists. split; [reflexivity|]. simpl.
      repeat split. intros [=].
  - edestruct (tftp_send_packet_rrq) as (rc & rest & env' & Hrun & Hsend & _);
      [| | rewrite Hrun]; [exact Hpeer | exact Hpath |].
    simpl in *.
    do 2 eexists. split; [reflexivity|]. simpl.
    repeat split; intros Hin; apply Hsend in Hin as [p [=]].
Qed.

Lemma mtftp_timeout_fallback_witness :
  exists w' : world,
    tftp_timer_expired false mtftp_waiting = Some (tt, w')
    /\ mtftp_timeouts (w_tftp w') = 4
    /\ flags (w_tftp w') = TFTP_FL_RRQ_SIZES
    /\ port (w_tftp w') = 69
    /\ tftp_bitmap (w_tftp w') = []
    /\ peer (w_tftp w') = sockaddr_zero
    /\ w_trace w' = w_trace mtftp_waiting ++
         [ EvClose MC_SOCKET OK; EvStartTimerNodelay; EvClose SOCKET OK;
           EvOpenNamedSocket 69 (Some "srv"%string);
           EvStopTimer; EvStartTimer;
           EvSend (TxRRQ ["file"; "octet"; "blksize"; "1432"; "tsize"; "0"]%string) ].
Proof.
  destruct (mtftp_timeout_fallback mtftp_waiting false "/file"
              ltac:(vm_compute; reflexivity) ltac:(vm_compute; reflexivity)
              ltac:(vm_compute; reflexivity))
    as (w' & rest & Hrun & Hn & Hcase).
  assert (E : (MTFTP_MAX_TIMEOUTS
               <? uint (mtftp_timeouts (w_tftp mtftp_waiting) + 1)) = true)
    by (vm_compute; reflexivity).
  rewrite E in Hcase. destruct Hcase as (Ht & Htr & Hrest).
  exists w'. split; [exact Hrun|].
  rewrite Hn, Ht, Htr, (Hrest ltac:(vm_compute; reflexivity)).
  repeat split.
Defined.

(** ** Receiving ERROR *)

Lemma byte_val_range (b : byte) : 0 <= byte_val b < 256.
Proof.
  unfold byte_val. pose proof (Byte.to_N_bounded b) as H. lia.
Qed.

Lemma ntohs_range (hi lo : byte) : 0 <= ntohs hi lo < 65536.
Proof.
  unfold ntohs. pose proof (byte_val_range hi). pose proof (byte_val_range lo). lia.
Qed.

(** What [tftp_rx_error] does with a packet that holds its header. *)
Lemma tftp_rx_error_run (w : world) (o1 o2 hi lo : byte) (msg : list byte) :
  tftp_rx_error (o1 :: o2 :: hi :: lo :: msg) w =
    Some (OK, with_events (done_events (ERR (tftp_error_status (ntohs hi lo)))) w).
Proof.
  unfold tftp_rx_error; unfold_monad.
  assert (E : match (if ntohs hi lo <? Z.of_nat (length tftp_errors)
                     then default None (tftp_errors !! Z.to_nat (ntohs hi lo))
                     else None) with
              | Some e => e
              | None => ENOTSUP
              end = tftp_error_status (ntohs hi lo)).
  { pose proof (ntohs_range hi lo) as Hr. unfold tftp_error_status.
    destruct (Z.ltb_spec (ntohs hi lo) (Z.of_nat (length tftp_errors))) as [Hlt|Hge].
    - simpl in Hlt.
      assert (Hc : ntohs hi lo = 0 \/ ntohs hi lo = 1 \/ ntohs hi lo = 2
                   \/ ntohs hi lo = 3 \/ ntohs hi lo = 4) by lia.
      destruct Hc as [-> | [-> | [-> | [-> | ->]]]]; reflexivity.
    - simpl in Hge.
      destruct (Z.eqb_spec (ntohs hi lo) TFTP_ERR_FILE_NOT_FOUND) as [E|_];
        [unfold TFTP_ERR_FILE_NOT_FOUND in E; lia|].
      destruct (Z.eqb_spec (ntohs hi lo) TFTP_ERR_ACCESS_DENIED) as [E|_];
        [unfold TFTP_ERR_ACCESS_DENIED in E; lia|].
      reflexivity. }
  cbv zeta. rewrite E. rewrite tftp_done_run. reflexivity.
Qed.

(** C6: a well-formed ERROR packet terminates the request exactly once,
    through [tftp_done], with the status that its error code is translated
    to: 1 gives ENOENT (not found), 2 gives EACCES (access denied), 4 gives
    ENOTSUP (not supported), and so does every other code.  This holds of
    [tftp_rx_error] and of [tftp_rx] for a packet that passes the address
    filter (it comes from the peer, or no peer is known yet). *)
Theorem tftp_rx_error_status (w : world) (src : sockaddr_tcpip)
    (hi lo : byte) (msg : list byte) :
  let t := w_tftp w in
  let errcode := ntohs hi lo in
  let rc := ERR (tftp_error_status errcode) in
  let pkt := wire16 TFTP_ERROR ++ hi :: lo :: msg in
  st_family (peer t) = 0 \/ peer t = src ->
  tftp_rx_error pkt w = Some (OK, with_events (done_events rc) w)
  /\ tftp_rx pkt (Some src) w =
       Some (OK, with_events (done_events rc) (with_tftp (set_peer src t) w))
  /\ trace_done (done_events rc) = [rc]
  /\ (errcode = 1 -> rc = ERR ENOENT)
  /\ (errcode = 2 -> rc = ERR EACCES)
  /\ (errcode = 4 -> rc = ERR ENOTSUP)
  /\ (errcode <> 1 -> errcode <> 2 -> rc = ERR ENOTSUP).
Proof.
  intros t errcode rc pkt Hpeer. subst pkt; cbn [wire16 app].
  split; [apply tftp_rx_error_run|].
  split.
  - destruct w as [t' gb m tr env]; simpl in *. subst t.
    unfold tftp_rx; unfold_monad; simpl.
    rewrite ntohs_wire16 by (unfold TFTP_ERROR; lia).
    change (tftp_rx_switch ?p TFTP_ERROR) with (tftp_rx_error p).
    destruct (Z.eqb_spec (st_family (peer t')) 0) as [E|E]; simpl.
    + rewrite tftp_rx_error_run. reflexivity.
    + destruct Hpeer as [Hpeer|Hpeer]; [contradiction|].
      rewrite bool_decide_eq_true_2 by assumption. simpl.
      rewrite tftp_rx_error_run. unfold with_events, with_tftp; simpl.
      do 4 f_equal. destruct t'; simpl in *; subst; reflexivity.
  - subst rc. unfold tftp_error_status.
    split; [reflexivity|].
    repeat split; try (intros ->; reflexivity).
    intros H1 H2.
    destruct (Z.eqb_spec errcode TFTP_ERR_FILE_NOT_FOUND); [contradiction|].
    destruct (Z.eqb_spec errcode TFTP_ERR_ACCESS_DENIED); [contradiction|].
    reflexivity.
Qed.

Lemma tftp_rx_error_status_witness :
  tftp_rx (error_packet 1 "no such file") (Some server_addr) opened =
    Some (OK, with_events (done_events (ERR ENOENT))
                (with_tftp (set_peer server_addr (w_tftp opened)) opened)).
Proof.
  exact (proj1 (proj2 (tftp_rx_error_status opened server_addr x00 x01
                         (list_byte_of_string "no such file" ++ [x00])
                         ltac:(left; vm_compute; reflexivity)))).
Defined.

(** ** The address filter *)

(** C7 (as amended): once the peer is set, a packet from any other source
    address is dropped by [tftp_rx] with the world unchanged: no field of
    the request changes, nothing is written downstream, nothing is sent,
    the request is not terminated.  That is all that happens on the
    multicast socket; on the unicast socket the flag SEND_ACK has been set
    before the filter is reached, and this is the only change.  A packet
    from the peer itself goes on to the dispatch on its opcode. *)
Theorem tftp_rx_peer_filter (w : world) (iobuf : list byte) (src : sockaddr_tcpip) :
  let t := w_tftp w in
  st_family (peer t) <> 0 -> peer t <> src ->
  tftp_rx iobuf (Some src) w = Some (ERR EINVAL, w)
  /\ tftp_mc_socket_deliver_iob iobuf (Some src) w = Some (ERR EINVAL, w)
  /\ tftp_socket_deliver_iob iobuf (Some src) w =
       Some (ERR EINVAL,
             with_tftp (set_flags (Z.lor (flags t) TFTP_FL_SEND_ACK) t) w)
  /\ (forall o1 o2 rest, iobuf = o1 :: o2 :: rest ->
        tftp_rx iobuf (Some (peer t)) w = tftp_rx_switch iobuf (ntohs o1 o2) w).
Proof.
  intros t Hset Hsrc.
  assert (Hrx : forall w0, peer (w_tftp w0) = peer t ->
            tftp_rx iobuf (Some src) w0 = Some (ERR EINVAL, w0)).
  { intros w0 Hp. unfold tftp_rx; unfold_monad.
    destruct iobuf as [|o1 [|o2 rest]]; try reflexivity.
    rewrite Hp.
    destruct (Z.eqb_spec (st_family (peer t)) 0); [contradiction|].
    rewrite bool_decide_eq_false_2 by assumption. reflexivity. }
  split; [apply Hrx; reflexivity|].
  split; [apply Hrx; reflexivity|].
  split.
  - unfold tftp_socket_deliver_iob; unfold_monad. rewrite Hrx by reflexivity.
    reflexivity.
  - intros o1 o2 rest ->. unfold tftp_rx; unfold_monad. fold t.
    destruct (Z.eqb_spec (st_family (peer t)) 0); [contradiction|].
    rewrite bool_decide_eq_true_2 by reflexivity. reflexivity.
Qed.

Lemma tftp_rx_peer_filter_witness :
  tftp_mc_socket_deliver_iob (data_packet 1 []) (Some stranger_addr) tftm_listener
  = Some (ERR EINVAL, tftm_listener).
Proof.
  apply (tftp_rx_peer_filter tftm_listener (data_packet 1 []) stranger_addr);
    vm_compute; discriminate.
Defined.

(** C7 (counterexample): a TFTM client that is not the master client (its
    flags are RRQ_SIZES and RRQ_MULTICAST) has SEND_ACK set by a packet
    that a stranger sends to its unicast socket. *)
Lemma tftp_socket_deliver_stranger_counterexample :
  st_family (peer (w_tftp tftm_listener)) <> 0
  /\ peer (w_tftp tftm_listener) <> stranger_addr
  /\ flags (w_tftp tftm_listener) = 6
  /\ exists w' : world,
       tftp_socket_deliver_iob (data_packet 1 []) (Some stranger_addr) tftm_listener
         = Some (ERR EINVAL, w')
       /\ flags (w_tftp w') = 7
       /\ w' <> tftm_listener.
Proof.
  split; [vm_compute; discriminate|].
  split; [vm_compute; discriminate|].
  split; [vm_compute; reflexivity|].
  eexists. split; [vm_compute; reflexivity|].
  split; [reflexivity|]. vm_compute. discriminate.
Qed.

(** ** Underlength packets *)

(** C10: an ERROR packet shorter than its header of four bytes makes
    [tftp_rx_error] return EINVAL and nothing else: the world is unchanged,
    [tftp_done] is not called and the download continues; the same holds
    of [tftp_rx] when such a packet comes from the peer.  A DATA packet
    that short terminates the request with EINVAL. *)
Theorem tftp_rx_error_underlength (w : world) (src : sockaddr_tcpip) (buf : list byte) :
  (length buf < sizeof_tftp_error)%nat ->
  tftp_rx_error buf w = Some (ERR EINVAL, w)
  /\ tftp_rx_data buf w =
       Some (ERR EINVAL, with_events (done_events (ERR EINVAL)) w)
  /\ (forall rest, buf = wire16 TFTP_ERROR ++ rest ->
        st_family (peer (w_tftp w)) <> 0 -> peer (w_tftp w) = src ->
        tftp_rx buf (Some src) w = Some (ERR EINVAL, w))
  /\ (forall rest, buf = wire16 TFTP_DATA ++ rest ->
        st_family (peer (w_tftp w)) <> 0 -> peer (w_tftp w) = src ->
        tftp_rx buf (Some src) w =
          Some (ERR EINVAL, with_events (done_events (ERR EINVAL)) w)).
Proof.
  unfold sizeof_tftp_error. intros Hlen.
  assert (Herr : tftp_rx_error buf w = Some (ERR EINVAL, w)).
  { destruct buf as [|o1 [|o2 [|e1 [|e2 msg]]]]; simpl in Hlen; try lia; reflexivity. }
  assert (Hdata : tftp_rx_data buf w =
                    Some (ERR EINVAL, with_events (done_events (ERR EINVAL)) w)).
  { unfold tftp_rx_data; unfold_monad.
    destruct buf as [|o1 [|o2 [|e1 [|e2 msg]]]]; simpl in Hlen; try lia;
      rewrite tftp_done_run; reflexivity. }
  split; [exact Herr|]. split; [exact Hdata|].
  split.
  - intros rest -> Hset Hpeer. cbn [wire16 app] in *.
    unfold tftp_rx; unfold_monad.
    destruct (Z.eqb_spec (st_family (peer (w_tftp w))) 0); [contradiction|].
    rewrite bool_decide_eq_true_2 by assumption. cbn [negb].
    rewrite ntohs_wire16 by (unfold TFTP_ERROR; lia).
    change (tftp_rx_switch ?p TFTP_ERROR) with (tftp_rx_error p). exact Herr.
  - intros rest -> Hset Hpeer. cbn [wire16 app] in *.
    unfold tftp_rx; unfold_monad.
    destruct (Z.eqb_spec (st_family (peer (w_tftp w))) 0); [contradiction|].
    rewrite bool_decide_eq_true_2 by assumption. cbn [negb].
    rewrite ntohs_wire16 by (unfold TFTP_DATA; lia).
    change (tftp_rx_switch ?p TFTP_DATA) with (tftp_rx_data p). exact Hdata.
Qed.

Lemma tftp_rx_error_underlength_witness :
  tftp_rx_error [x00; x05; x00] opened = Some (ERR EINVAL, opened)
  /\ tftp_rx_data [x00; x03; x00] opened =
       Some (ERR EINVAL, with_events (done_events (ERR EINVAL)) opened).
Proof.
  split.
  - exact (proj1 (tftp_rx_error_underlength opened server_addr [x00; x05; x00]
                    ltac:(vm_compute; lia))).
  - vm_compute. reflexivity.
Defined.

(** ** The multicast option *)

(** [strchr_cut] finds the first comma, when there is one. *)
Lemma strchr_cut_none (s : string) :
  count_commas s = O -> strchr_cut s "," = None.
Proof.
  induction s as [|c s IH]; simpl; [reflexivity|].
  destruct (Ascii.eqb c ","); [discriminate|].
  intros H. rewrite IH by assumption. reflexivity.
Qed.

Lemma strchr_cut_app (a b : string) :
  count_commas a = O -> strchr_cut (a +:+ "," +:+ b) "," = Some (a, b).
Proof.
  induction a as [|c a IH]; simpl; [reflexivity|].
  destruct (Ascii.eqb c ","); [discriminate|].
  intros H. rewrite IH by assumption. reflexivity.
Qed.

Lemma strchr_cut_some (s a b : string) :
  strchr_cut s "," = Some (a, b) ->
  s = a +:+ "," +:+ b /\ count_commas a = O /\ count_commas s = S (count_commas b).
Proof.
  revert a b. induction s as [|c s IH]; simpl; [discriminate|].
  intros a b. destruct (Ascii.eqb_spec c ",") as [->|Hc].
  - intros [= <- <-]. auto.
  - destruct (strchr_cut s ",") as [[a' b']|]; [|discriminate].
    intros [= <- <-]. destruct (IH a' b' eq_refl) as (-> & Ha & Hn).
    simpl. destruct (Ascii.eqb_spec c ","); [contradiction|]. auto.
Qed.

(** [flags &= ~TFTP_FL_SEND_ACK] clears the flag. *)
Lemma flag_set_clear (f : Z) :
  flag_set (flag_clear f TFTP_FL_SEND_ACK) TFTP_FL_SEND_ACK = false.
Proof.
  unfold flag_set, flag_clear. rewrite <- Z.land_assoc.
  change (Z.land (uint (Z.lnot TFTP_FL_SEND_ACK)) TFTP_FL_SEND_ACK) with 0.
  rewrite Z.land_0_r. reflexivity.
Qed.

Lemma strchr_cut_found (s : string) :
  count_commas s <> O -> exists a b, strchr_cut s "," = Some (a, b).
Proof.
  intros H. destruct (strchr_cut s ",") as [[a b]|] eqn:E; [eauto|].
  exfalso. apply H. clear H. induction s as [|c s IH]; simpl in *; [reflexivity|].
  destruct (Ascii.eqb c ","); [discriminate|].
  destruct (strchr_cut s ",") as [[a b]|]; [discriminate|]. apply IH. reflexivity.
Qed.

(** C8: the multicast option value is rejected with MC_NO_PORT when it
    holds no comma and with MC_NO_MC when it holds exactly one; with two
    commas or more, the mc field is what follows the second one: when
    [strtoul] leaves a tail of it unread the result is MC_INVALID_MC, and
    when [strtoul] reads it as zero the flag SEND_ACK is clear afterwards
    (otherwise the flags are as before). *)
Theorem tftp_process_multicast_fields (w : world) :
  (forall value : string,
      count_commas value = 0%nat ->
      tftp_process_multicast value w = Some (ERR ETFTP_MC_NO_PORT, w))
  /\ (forall value : string,
         count_commas value = 1%nat ->
         tftp_process_multicast value w = Some (ERR ETFTP_MC_NO_MC, w))
  /\ (forall addr port_str mc : string,
         count_commas addr = 0%nat -> count_commas port_str = 0%nat ->
         exists (rc : status) (w' : world),
           tftp_process_multicast (addr +:+ "," +:+ port_str +:+ "," +:+ mc) w
             = Some (rc, w')
           /\ (snd (strtoul mc 0) <> EmptyString -> rc = ERR ETFTP_MC_INVALID_MC)
           /\ (fst (strtoul mc 0) = 0 ->
               flag_set (flags (w_tftp w')) TFTP_FL_SEND_ACK = false)
           /\ (fst (strtoul mc 0) <> 0 -> flags (w_tftp w') = flags (w_tftp w))).
Proof.
  split; [|split].
  - intros value H. unfold tftp_process_multicast.
    rewrite strchr_cut_none by assumption. reflexivity.
  - intros value H. unfold tftp_process_multicast.
    destruct (strchr_cut_found value) as (a & b & E); [lia|].
    rewrite E. apply strchr_cut_some in E as (_ & _ & Hn).
    rewrite strchr_cut_none by lia. reflexivity.
  - intros addr port_str mc Ha Hp. unfold tftp_process_multicast.
    rewrite strchr_cut_app, strchr_cut_app by assumption.
    destruct w as [t gb m tr env].
    destruct (strtoul mc 0) as [mc_val mc_end]; simpl.
    unfold tftp_reopen_mc; unfold_monad.
    destruct (Z.eqb_spec mc_val 0) as [Hz|Hz]; simpl;
      repeat case_match; simplify_eq; simpl;
      do 2 eexists; (split; [reflexivity|]); simpl;
      repeat split; intros; try congruence; try apply flag_set_clear.
Qed.

(** ** The loop of [tftp_rx_oack] *)

(** The number of turns that [tftp_rx_oack] grants the loop over the
    options is never exhausted: any larger number gives the same result. *)
Lemma tftp_rx_oack_options_turns (n m : nat) (data : list byte) (w : world) :
  (length data <= n)%nat -> (length data <= m)%nat ->
  tftp_rx_oack_options n data w = tftp_rx_oack_options m data w.
Proof.
  revert m data w. induction n as [|n IH]; intros m data w Hn Hm.
  - destruct data; [|simpl in Hn; lia]. destruct m; reflexivity.
  - destruct m as [|m]; [destruct data; [reflexivity | simpl in Hm; lia]|].
    destruct data as [|b data]; [reflexivity|].
    cbn [tftp_rx_oack_options].
    set (name_len := strnlen (b :: data)).
    set (value := drop (S name_len) (b :: data)).
    set (value_len := strnlen value).
    destruct (length (b :: data) <? S name_len)%nat; [reflexivity|].
    destruct (length (b :: data) =? S name_len)%nat; [reflexivity|].
    destruct (length value <? S value_len)%nat; [reflexivity|].
    unfold bind.
    destruct (tftp_process_option _ _ w) as [[[|e] w1]|]; try reflexivity.
    assert (Hlen : (length (drop (S value_len) value) <= length data)%nat).
    { subst value. rewrite !length_drop. simpl. lia. }
    simpl in Hn, Hm. apply IH; lia.
Qed.

(** * Further properties of the request engine *)














(** ** Relations that the handlers keep *)

Section Keeps.
Context (R : tftp_request -> list event -> Prop).

Lemma keeps_ret {A} (a : A) : keeps R (ret a).
Proof. intros w a' w' HR H. injection H as <- <-. exact HR. Qed.

Lemma keeps_undefined {A} : keeps R (@undefined A).
Proof. intros w a w' _ H. discriminate H. Qed.

Lemma keeps_bind {A B} (c : M A) (k : A -> M B) :
  keeps R c -> (forall a, keeps R (k a)) -> keeps R (bind c k).
Proof.
  intros Hc Hk w b w' HR H. unfold bind in H.
  destruct (c w) as [[a w1]|] eqn:E; [|discriminate].
  exact (Hk a w1 b w' (Hc w a w1 HR E) H).
Qed.

Lemma keeps_get_tftp : keeps R get_tftp.
Proof. intros w a w' HR H. injection H as <- <-. exact HR. Qed.

Lemma keeps_get_request_blksize : keeps R get_request_blksize.
Proof. intros w a w' HR H. injection H as <- <-. exact HR. Qed.

Lemma keeps_ext_call : keeps R ext_call.
Proof.
  intros w a w' HR H. unfold ext_call in H.
  destruct (w_env w); injection H as <- <-; exact HR.
Qed.

Lemma keeps_emit (e : event) :
  (forall t tr, R t tr -> R t (tr ++ [e])) -> keeps R (emit e).
Proof. intros He w a w' HR H. injection H as <- <-. apply He, HR. Qed.

Lemma keeps_modify_tftp (g : tftp_request -> tftp_request) :
  (forall t tr, R t tr -> R (g t) tr) -> keeps R (modify_tftp g).
Proof. intros Hg w a w' HR H. injection H as <- <-. apply Hg, HR. Qed.

Lemma keeps_run (cs : list tftp_call) :
  (forall c, In c cs -> keeps R (tftp_handle c)) -> keeps R (tftp_run cs).
Proof.
  induction cs as [|c cs IH]; intros H.
  - apply keeps_ret.
  - cbn [tftp_run]. apply keeps_bind.
    + apply H. left. reflexivity.
    + intros _. apply IH. intros c' Hc'. apply H. right. exact Hc'.
Qed.

End Keeps.

Create HintDb keeps.

(** One step of a proof that a handler keeps a relation; [side] proves
    that a single assignment or call does. *)
Ltac keeps_step side :=
  first
    [ solve [auto 1 with keeps nocore]
    | apply keeps_ret
    | apply keeps_undefined
    | apply keeps_ext_call
    | apply keeps_get_tftp
    | apply keeps_get_request_blksize
    | apply keeps_emit; solve [side]
    | apply keeps_modify_tftp; solve [side]
    | apply keeps_bind; [| intros ?]
    | match goal with
      | |- keeps _ (match ?x with _ => _ end) => destruct x
      | |- keeps _ (let (_, _) := ?x in _) => destruct x
      | |- keeps _ (let _ := _ in _) => cbv zeta
      end ].

Ltac keeps_with side := repeat (keeps_step side).

(** The handlers of received packets keep every relation that ignores the
    calls other than transmissions and the fields that an OACK or a DATA
    packet assigns, provided that presizing and sending keep it. *)
Section KeepsRx.
Context (R : tftp_request -> list event -> Prop).
Hypothesis Hemit : forall e t tr, is_send e = false -> R t tr -> R t (tr ++ [e]).
Hypothesis Hblksize : forall v t tr, R t tr -> R (set_blksize v t) tr.
Hypothesis Htsize : forall v t tr, R t tr -> R (set_tsize v t) tr.
Hypothesis Hbitmap : forall v t tr, R t tr -> R (set_bitmap v t) tr.
Hypothesis Hclear : forall t tr,
  R t tr -> R (set_flags (flag_clear (flags t) TFTP_FL_SEND_ACK) t) tr.
Hypothesis Hpresize : forall F, keeps R (tftp_presize F).
Hypothesis Hsend : keeps R tftp_send_packet.

Ltac rx_side :=
  intros ? ? ?; cbv beta;
  first [ apply Hemit; [reflexivity | assumption]
        | apply Hblksize; assumption | apply Htsize; assumption
        | apply Hbitmap; assumption | apply Hclear; assumption ].

Lemma keeps_tftp_done rc : keeps R (tftp_done rc).
Proof. unfold tftp_done. keeps_with rx_side. Qed.

Lemma keeps_tftp_rx_data iobuf : keeps R (tftp_rx_data iobuf).
Proof.
  pose proof keeps_tftp_done. unfold tftp_rx_data.
  keeps_with rx_side.
Qed.

Lemma keeps_tftp_rx_error buf : keeps R (tftp_rx_error buf).
Proof. pose proof keeps_tftp_done. unfold tftp_rx_error. keeps_with rx_side. Qed.

Lemma keeps_tftp_process_option name value :
  keeps R (tftp_process_option name value).
Proof.
  unfold tftp_process_option, tftp_options, tftp_process_option_in,
    tftp_process_blksize, tftp_process_tsize, tftp_process_multicast, tftp_reopen_mc.
  keeps_with rx_side.
Qed.

Lemma keeps_tftp_rx_oack_options turns data :
  keeps R (tftp_rx_oack_options turns data).
Proof.
  pose proof keeps_tftp_process_option.
  revert data. induction turns as [|turns IH]; intros data.
  - destruct data; apply keeps_ret.
  - destruct data as [|b data]; [apply keeps_ret|].
    cbn [tftp_rx_oack_options]. keeps_with rx_side.
Qed.

Lemma keeps_tftp_rx_oack buf : keeps R (tftp_rx_oack buf).
Proof.
  pose proof keeps_tftp_done. pose proof keeps_tftp_rx_oack_options.
  unfold tftp_rx_oack. keeps_with rx_side.
Qed.

Lemma keeps_tftp_rx_switch iobuf opcode : keeps R (tftp_rx_switch iobuf opcode).
Proof.
  pose proof keeps_tftp_rx_oack. pose proof keeps_tftp_rx_data.
  pose proof keeps_tftp_rx_error.
  unfold tftp_rx_switch. keeps_with rx_side.
Qed.

End KeepsRx.

(** The entry points for received packets keep it when, in addition, it
    ignores the assignments to [peer] and to the SEND_ACK flag. *)
Section KeepsDeliver.
Context (R : tftp_request -> list event -> Prop).
Hypothesis Hswitch : forall iobuf opcode, keeps R (tftp_rx_switch iobuf opcode).
Hypothesis Hpeer : forall v t tr, R t tr -> R (set_peer v t) tr.
Hypothesis Hack : forall t tr,
  R t tr -> R (set_flags (Z.lor (flags t) TFTP_FL_SEND_ACK) t) tr.

Ltac deliver_side :=
  intros ? ? ?; cbv beta;
  first [ apply Hpeer; assumption | apply Hack; assumption ].

Lemma keeps_tftp_rx iobuf src : keeps R (tftp_rx iobuf src).
Proof. unfold tftp_rx. keeps_with deliver_side. Qed.

Lemma keeps_tftp_socket_deliver_iob iobuf src :
  keeps R (tftp_socket_deliver_iob iobuf src).
Proof.
  pose proof keeps_tftp_rx.
  unfold tftp_socket_deliver_iob. keeps_with deliver_side.
Qed.

Lemma keeps_tftp_mc_socket_deliver_iob iobuf src :
  keeps R (tftp_mc_socket_deliver_iob iobuf src).
Proof. apply keeps_tftp_rx. Qed.

End KeepsDeliver.

Ltac same_side := intros; assumption.

Lemma keeps_tftp_send_packet_request (P : tftp_request -> Prop) :
  keeps (fun t _ => P t) tftp_send_packet.
Proof.
  unfold tftp_send_packet, tftp_send_rrq, tftp_send_ack. keeps_with same_side.
Qed.

(** *** The size of the file *)

Lemma tftp_presize_filesize_ge n F : keeps (filesize_ge n) (tftp_presize F).
Proof.
  intros w rc w' HR H. unfold filesize_ge in *.
  destruct (tftp_presize_filesize F w w' rc H) as [-> _]. lia.
Qed.

Lemma tftp_handle_filesize_ge n c : keeps (filesize_ge n) (tftp_handle c).
Proof.
  assert (Hsend : keeps (filesize_ge n) tftp_send_packet)
    by apply (keeps_tftp_send_packet_request (fun t => n <= filesize t)).
  assert (Hdone : forall rc, keeps (filesize_ge n) (tftp_done rc)).
  { intros rc. apply keeps_tftp_done. same_side. }
  assert (Hswitch : forall iobuf opcode,
             keeps (filesize_ge n) (tftp_rx_switch iobuf opcode)).
  { intros. apply keeps_tftp_rx_switch;
      first [same_side | apply tftp_presize_filesize_ge | exact Hsend]. }
  destruct c as [iobuf src|iobuf src|fail|rc|]; cbn [tftp_handle].
  - apply keeps_bind; [|intros ?; apply keeps_ret].
    apply keeps_tftp_socket_deliver_iob; first [exact Hswitch | same_side].
  - apply keeps_bind; [|intros ?; apply keeps_ret].
    apply keeps_tftp_mc_socket_deliver_iob; first [exact Hswitch | same_side].
  - unfold tftp_timer_expired, tftp_reopen. keeps_with same_side.
  - apply Hdone.
  - unfold tftp_xfer_window. keeps_with same_side.
Qed.

(** X2: the size recorded for the file never shrinks while a request
    runs: whatever packets are delivered on the two sockets, whenever the
    timer expires (the MTFTP fallback, which discards the bitmap,
    included) and whatever the collaborators answer, [filesize] after a
    sequence of calls is at least what it was before. *)
Theorem tftp_filesize_never_shrinks (cs : list tftp_call) (w w' : world) :
  tftp_run cs w = Some (tt, w') ->
  filesize (w_tftp w) <= filesize (w_tftp w').
Proof.
  intros H.
  refine (keeps_run (filesize_ge (filesize (w_tftp w))) cs _ w tt w' _ H).
  - intros c _. apply tftp_handle_filesize_ge.
  - unfold filesize_ge. lia.
Qed.

Lemma tftp_filesize_never_shrinks_witness :
  exists w' : world,
    tftp_run [ CallDeliver (data_packet 2 (repeat x41 512)) (Some server_addr);
               CallTimer false;
               CallDeliver (data_packet 1 [x42]) (Some server_addr) ] opened
      = Some (tt, w')
    /\ filesize (w_tftp opened) <= filesize (w_tftp w').
Proof.
  eexists. split; [vm_compute; reflexivity|].
  apply (tftp_filesize_never_shrinks
           [ CallDeliver (data_packet 2 (repeat x41 512)) (Some server_addr);
             CallTimer false;
             CallDeliver (data_packet 1 [x42]) (Some server_addr) ]).
  vm_compute. reflexivity.
Defined.

(** *** The fields that received packets leave alone *)

Section Frame.
Context {X : Type} (f : tftp_request -> X) (x : X).
Hypothesis Hblksize : forall v t, f (set_blksize v t) = f t.
Hypothesis Htsize : forall v t, f (set_tsize v t) = f t.
Hypothesis Hbitmap : forall v t, f (set_bitmap v t) = f t.
Hypothesis Hfilesize : forall v t, f (set_filesize v t) = f t.
Hypothesis Hflags : forall v t, f (set_flags v t) = f t.
Hypothesis Hpeer : forall v t, f (set_peer v t) = f t.

Ltac frame_side :=
  unfold field_is; intros; cbv beta;
  rewrite ?Hblksize, ?Htsize, ?Hbitmap, ?Hfilesize, ?Hflags, ?Hpeer; assumption.

Lemma tftp_handle_frame c :
  is_timer c = false -> keeps (field_is f x) (tftp_handle c).
Proof.
  intros Hc.
  assert (Hsend : keeps (field_is f x) tftp_send_packet)
    by apply (keeps_tftp_send_packet_request (fun t => f t = x)).
  assert (Hdone : forall rc, keeps (field_is f x) (tftp_done rc)).
  { intros rc. apply keeps_tftp_done. frame_side. }
  assert (Hpresize : forall F, keeps (field_is f x) (tftp_presize F)).
  { intros F. unfold tftp_presize, bitmap_resize. keeps_with frame_side. }
  assert (Hswitch : forall iobuf opcode,
             keeps (field_is f x) (tftp_rx_switch iobuf opcode)).
  { intros. apply keeps_tftp_rx_switch;
      first [exact Hpresize | exact Hsend | frame_side]. }
  destruct c as [iobuf src|iobuf src|fail|rc|]; cbn [tftp_handle];
    try discriminate Hc.
  - apply keeps_bind; [|intros ?; apply keeps_ret].
    apply keeps_tftp_socket_deliver_iob; first [exact Hswitch | frame_side].
  - apply keeps_bind; [|intros ?; apply keeps_ret].
    apply keeps_tftp_mc_socket_deliver_iob; first [exact Hswitch | frame_side].
  - apply Hdone.
  - unfold tftp_xfer_window. keeps_with frame_side.
Qed.

Hypothesis Hport : forall v t, f (set_port v t) = f t.
Hypothesis Htimeouts : forall v t, f (set_mtftp_timeouts v t) = f t.

Lemma tftp_timer_expired_frame fail :
  keeps (field_is f x) (tftp_timer_expired fail).
Proof.
  assert (Hsend : keeps (field_is f x) tftp_send_packet)
    by apply (keeps_tftp_send_packet_request (fun t => f t = x)).
  assert (Hdone : forall rc, keeps (field_is f x) (tftp_done rc)).
  { intros rc. apply keeps_tftp_done. frame_side. }
  unfold tftp_timer_expired, tftp_reopen.
  keeps_with ltac:(first [frame_side
                         | unfold field_is; intros; cbv beta;
                           rewrite ?Hport, ?Htimeouts, ?Hflags, ?Hpeer, ?Hbitmap;
                           assumption]).
Qed.

End Frame.

(** X3: what the handlers never assign.  No sequence of calls on an open
    request changes its URI; and as long as the timer does not expire, the
    server port and the count of MTFTP timeouts stay as they are too
    (received packets and the downstream close never touch them). *)
Theorem tftp_run_frame (cs : list tftp_call) (w w' : world) :
  tftp_run cs w = Some (tt, w') ->
  tftp_uri (w_tftp w') = tftp_uri (w_tftp w)
  /\ (forallb (fun c => negb (is_timer c)) cs = true ->
      port (w_tftp w') = port (w_tftp w)
      /\ mtftp_timeouts (w_tftp w') = mtftp_timeouts (w_tftp w)).
Proof.
  intros H. split.
  - refine (keeps_run (field_is tftp_uri (tftp_uri (w_tftp w))) cs _ w tt w' _ H);
      [|reflexivity].
    intros c _. destruct (is_timer c) eqn:Hc.
    + destruct c; try discriminate Hc. cbn [tftp_handle].
      apply tftp_timer_expired_frame; reflexivity.
    + apply tftp_handle_frame; [reflexivity..|exact Hc].
  - intros Hcs. rewrite forallb_forall in Hcs. split.
    + refine (keeps_run (field_is port (port (w_tftp w))) cs _ w tt w' _ H);
        [|reflexivity].
      intros c Hin. apply tftp_handle_frame; [reflexivity..|].
      apply negb_true_iff, Hcs, Hin.
    + refine (keeps_run (field_is mtftp_timeouts (mtftp_timeouts (w_tftp w)))
                cs _ w tt w' _ H); [|reflexivity].
      intros c Hin. apply tftp_handle_frame; [reflexivity..|].
      apply negb_true_iff, Hcs, Hin.
Qed.

Lemma tftp_run_frame_witness :
  exists w' : world,
    tftp_run [ CallDeliver (oack_packet ["blksize"; "1024"; "tsize"; "4000"]%string)
                 (Some server_addr);
               CallTimer false;
               CallDeliver (data_packet 1 [x42]) (Some server_addr) ] opened
      = Some (tt, w')
    /\ tftp_uri (w_tftp w') = tftp_uri (w_tftp opened).
Proof.
  eexists. split; [vm_compute; reflexivity|].
  apply (tftp_run_frame
           [ CallDeliver (oack_packet ["blksize"; "1024"; "tsize"; "4000"]%string)
               (Some server_addr);
             CallTimer false;
             CallDeliver (data_packet 1 [x42]) (Some server_addr) ]).
  vm_compute. reflexivity.
Defined.

(** *** The client and its server *)

Lemma trace_sent_app (tr1 tr2 : list event) :
  trace_sent (tr1 ++ tr2) = trace_sent tr1 ++ trace_sent tr2.
Proof. unfold trace_sent. apply flat_map_app. Qed.

Lemma trace_sent_other (e : event) (tr : list event) :
  is_send e = false -> trace_sent (tr ++ [e]) = trace_sent tr.
Proof.
  intros He. rewrite trace_sent_app.
  destruct e; try discriminate He; apply app_nil_r.
Qed.

Lemma flag_clear_recovery (f : Z) :
  flag_set (flag_clear f TFTP_FL_SEND_ACK) TFTP_FL_MTFTP_RECOVERY
  = flag_set f TFTP_FL_MTFTP_RECOVERY.
Proof.
  unfold flag_set, flag_clear. rewrite <- Z.land_assoc.
  change (Z.land (uint (Z.lnot TFTP_FL_SEND_ACK)) TFTP_FL_MTFTP_RECOVERY)
    with TFTP_FL_MTFTP_RECOVERY.
  reflexivity.
Qed.

Lemma flag_lor_recovery (f : Z) :
  flag_set (Z.lor f TFTP_FL_SEND_ACK) TFTP_FL_MTFTP_RECOVERY
  = flag_set f TFTP_FL_MTFTP_RECOVERY.
Proof.
  unfold flag_set. rewrite Z.land_lor_distr_l.
  change (Z.land TFTP_FL_SEND_ACK TFTP_FL_MTFTP_RECOVERY) with 0.
  rewrite Z.lor_0_r. reflexivity.
Qed.

Lemma locked_emit p sent e t tr :
  is_send e = false -> locked p sent t tr -> locked p sent t (tr ++ [e]).
Proof.
  intros He (Hf & Hp & Hr & acks & Hs). repeat split; try assumption.
  exists acks. rewrite trace_sent_other; assumption.
Qed.

Lemma locked_clear p sent t tr :
  locked p sent t tr ->
  locked p sent (set_flags (flag_clear (flags t) TFTP_FL_SEND_ACK) t) tr.
Proof.
  intros (Hf & Hp & Hr & Hs). repeat split; try assumption.
  cbn [flags set_flags]. rewrite flag_clear_recovery. exact Hr.
Qed.

Lemma locked_ack p sent t tr :
  locked p sent t tr ->
  locked p sent (set_flags (Z.lor (flags t) TFTP_FL_SEND_ACK) t) tr.
Proof.
  intros (Hf & Hp & Hr & Hs). repeat split; try assumption.
  cbn [flags set_flags]. rewrite flag_lor_recovery. exact Hr.
Qed.

Ltac locked_side :=
  intros; cbv beta;
  first [ assumption
        | apply locked_emit; [first [reflexivity | assumption] | assumption]
        | apply locked_clear; assumption
        | apply locked_ack; assumption ].

Lemma tftp_send_packet_locked p sent : keeps (locked p sent) tftp_send_packet.
Proof.
  intros w rc w' (Hf & Hp & Hr & acks & Hs) H.
  unfold tftp_send_packet, tftp_send_ack in H. unfold_monad. simpl in H.
  rewrite Hp in H.
  destruct (st_family p =? 0) eqn:E; [apply Z.eqb_eq in E; contradiction|].
  assert (Hack : forall b,
             exists acks' : list Z,
               trace_sent (((w_trace w ++ [EvStopTimer]) ++ [EvStartTimer])
                           ++ [EvSend (TxACK p b)])
               = sent ++ map (TxACK p) acks').
  { intros b. exists (acks ++ [b]).
    rewrite !trace_sent_app, Hs, map_app, <- !app_assoc. reflexivity. }
  assert (Hnone : exists acks' : list Z,
             trace_sent ((w_trace w ++ [EvStopTimer]) ++ [EvStartTimer])
             = sent ++ map (TxACK p) acks').
  { exists acks. rewrite !trace_sent_app, Hs. simpl. rewrite !app_nil_r. reflexivity. }
  destruct (flag_set (flags (w_tftp w)) TFTP_FL_SEND_ACK).
  - destruct (w_env w) as [|[|e] env]; simpl in H.
    + injection H as <- <-. repeat split; try assumption.
      simpl. rewrite Hp. apply Hack.
    + destruct env as [|rc' env]; injection H as <- <-;
        (repeat split; try assumption); simpl; rewrite Hp; apply Hack.
    + injection H as <- <-. repeat split; try assumption.
  - injection H as <- <-. repeat split; try assumption.
Qed.

Lemma tftp_rx_switch_locked p sent iobuf opcode :
  keeps (locked p sent) (tftp_rx_switch iobuf opcode).
Proof.
  apply keeps_tftp_rx_switch; try locked_side.
  - intros F. unfold tftp_presize, bitmap_resize. keeps_with locked_side.
  - apply tftp_send_packet_locked.
Qed.

Lemma tftp_rx_locked p sent iobuf src : keeps (locked p sent) (tftp_rx iobuf src).
Proof.
  intros w rc w' HR H. pose proof HR as (Hf & Hp & _).
  unfold tftp_rx in H.
  destruct iobuf as [|o1 [|o2 rest]]; try (injection H as <- <-; exact HR).
  destruct src as [src|]; [|injection H as <- <-; exact HR].
  unfold bind at 1, get_tftp in H. rewrite Hp in H.
  destruct (st_family p =? 0) eqn:E; [apply Z.eqb_eq in E; contradiction|].
  destruct (negb (bool_decide (p = src))).
  - injection H as <- <-. exact HR.
  - exact (tftp_rx_switch_locked p sent _ _ w rc w' HR H).
Qed.

Lemma tftp_handle_locked p sent c : keeps (locked p sent) (tftp_handle c).
Proof.
  assert (Hdone : forall rc, keeps (locked p sent) (tftp_done rc)).
  { intros rc. apply keeps_tftp_done. locked_side. }
  pose proof (tftp_rx_locked p sent) as Hrx.
  pose proof (tftp_send_packet_locked p sent) as Hsend.
  destruct c as [iobuf src|iobuf src|fail|rc|]; cbn [tftp_handle].
  - unfold tftp_socket_deliver_iob. keeps_with locked_side.
  - unfold tftp_mc_socket_deliver_iob. keeps_with locked_side.
  - intros w [] w' HR H. pose proof HR as (_ & _ & Hr & _).
    unfold tftp_timer_expired in H. unfold bind at 1, get_tftp in H.
    rewrite Hr in H.
    assert (Hk : keeps (locked p sent)
              (rc <- (if fail then ret (ERR ETIMEDOUT) else ret OK) ;;
               match rc with
               | OK => _ <- tftp_send_packet ;; ret tt
               | ERR _ => tftp_done rc
               end)) by keeps_with locked_side.
    exact (Hk w tt w' HR H).
  - apply Hdone.
  - unfold tftp_xfer_window. keeps_with locked_side.
Qed.

(** X4: a request without MTFTP recovery (plain TFTP or TFTM) stays with
    the server it has locked on.  Once [peer] is set, no sequence of
    packets, timer expiries and closes changes it, and every packet that
    the client transmits from then on is an ACK addressed to that peer: no
    RRQ is sent again and no other host is ever answered. *)
Theorem tftp_peer_lock (cs : list tftp_call) (w w' : world) :
  st_family (peer (w_tftp w)) <> 0 ->
  flag_set (flags (w_tftp w)) TFTP_FL_MTFTP_RECOVERY = false ->
  tftp_run cs w = Some (tt, w') ->
  peer (w_tftp w') = peer (w_tftp w)
  /\ exists acks : list Z,
       trace_sent (w_trace w') =
         trace_sent (w_trace w) ++ map (TxACK (peer (w_tftp w))) acks.
Proof.
  intros Hf Hr H.
  assert (HR : locked (peer (w_tftp w)) (trace_sent (w_trace w))
                 (w_tftp w) (w_trace w)).
  { repeat split; try assumption. exists []. symmetry. apply app_nil_r. }
  destruct (keeps_run _ cs (fun c _ => tftp_handle_locked _ _ c) w tt w' HR H)
    as (_ & Hp & _ & Hs).
  split; assumption.
Qed.

Lemma tftp_peer_lock_witness :
  exists (w' : world) (acks : list Z),
    tftp_run [ CallDeliver (data_packet 1 (repeat x41 512)) (Some server_addr);
               CallDeliver (data_packet 1 [x42]) (Some stranger_addr);
               CallTimer false ] tftm_listener = Some (tt, w')
    /\ peer (w_tftp w') = peer (w_tftp tftm_listener)
    /\ trace_sent (w_trace w') =
         trace_sent (w_trace tftm_listener)
         ++ map (TxACK (peer (w_tftp tftm_listener))) acks.
Proof.
  destruct (tftp_peer_lock
              [ CallDeliver (data_packet 1 (repeat x41 512)) (Some server_addr);
                CallDeliver (data_packet 1 [x42]) (Some stranger_addr);
                CallTimer false ] tftm_listener
              (default tftm_listener
                 (exec (tftp_run
                    [ CallDeliver (data_packet 1 (repeat x41 512)) (Some server_addr);
                      CallDeliver (data_packet 1 [x42]) (Some stranger_addr);
                      CallTimer false ]) tftm_listener))
              ltac:(vm_compute; discriminate)
              ltac:(vm_compute; reflexivity)
              ltac:(vm_compute; reflexivity)) as (Hp & acks & Hs).
  eexists. exists acks. split; [vm_compute; reflexivity|].
  split; [exact Hp | exact Hs].
Defined.

Lemma silent_emit sent e t tr :
  is_send e = false -> silent sent t tr -> silent sent t (tr ++ [e]).
Proof.
  intros He (Hf & Ha & Hr & Hs). repeat split; try assumption.
  rewrite trace_sent_other; assumption.
Qed.

Lemma silent_clear sent t tr :
  silent sent t tr ->
  silent sent (set_flags (flag_clear (flags t) TFTP_FL_SEND_ACK) t) tr.
Proof.
  intros (Hf & Ha & Hr & Hs). repeat split; try assumption; cbn [flags set_flags].
  - apply flag_set_clear.
  - rewrite flag_clear_recovery. exact Hr.
Qed.

Ltac silent_side :=
  intros; cbv beta;
  first [ assumption
        | apply silent_emit; [first [reflexivity | assumption] | assumption]
        | apply silent_clear; assumption ].

Lemma tftp_send_packet_silent sent : keeps (silent sent) tftp_send_packet.
Proof.
  intros w rc w' (Hf & Ha & Hr & Hs) H.
  unfold tftp_send_packet in H. unfold_monad. simpl in H.
  destruct (st_family (peer (w_tftp w)) =? 0) eqn:E;
    [apply Z.eqb_eq in E; contradiction|].
  rewrite Ha in H. injection H as <- <-. repeat split; try assumption.
  simpl. rewrite !trace_sent_app, Hs. simpl. rewrite !app_nil_r. reflexivity.
Qed.

Lemma tftp_rx_switch_silent sent iobuf opcode :
  keeps (silent sent) (tftp_rx_switch iobuf opcode).
Proof.
  apply keeps_tftp_rx_switch; try silent_side.
  - intros F. unfold tftp_presize, bitmap_resize. keeps_with silent_side.
  - apply tftp_send_packet_silent.
Qed.

Lemma tftp_rx_silent sent iobuf src : keeps (silent sent) (tftp_rx iobuf src).
Proof.
  intros w rc w' HR H. pose proof HR as (Hf & _).
  unfold tftp_rx in H.
  destruct iobuf as [|o1 [|o2 rest]]; try (injection H as <- <-; exact HR).
  destruct src as [src|]; [|injection H as <- <-; exact HR].
  unfold bind at 1, get_tftp in H.
  destruct (st_family (peer (w_tftp w)) =? 0) eqn:E;
    [apply Z.eqb_eq in E; contradiction|].
  destruct (negb (bool_decide (peer (w_tftp w) = src))).
  - injection H as <- <-. exact HR.
  - exact (tftp_rx_switch_silent sent _ _ w rc w' HR H).
Qed.

Lemma tftp_handle_silent sent c :
  is_unicast c = false -> keeps (silent sent) (tftp_handle c).
Proof.
  intros Hc.
  assert (Hdone : forall rc, keeps (silent sent) (tftp_done rc)).
  { intros rc. apply keeps_tftp_done. silent_side. }
  pose proof (tftp_rx_silent sent) as Hrx.
  pose proof (tftp_send_packet_silent sent) as Hsend.
  destruct c as [iobuf src|iobuf src|fail|rc|]; cbn [tftp_handle];
    try discriminate Hc.
  - unfold tftp_mc_socket_deliver_iob. keeps_with silent_side.
  - intros w [] w' HR H. pose proof HR as (_ & _ & Hr & _).
    unfold tftp_timer_expired in H. unfold bind at 1, get_tftp in H.
    rewrite Hr in H.
    assert (Hk : keeps (silent sent)
              (rc <- (if fail then ret (ERR ETIMEDOUT) else ret OK) ;;
               match rc with
               | OK => _ <- tftp_send_packet ;; ret tt
               | ERR _ => tftp_done rc
               end)) by keeps_with silent_side.
    exact (Hk w tt w' HR H).
  - apply Hdone.
  - unfold tftp_xfer_window. keeps_with silent_side.
Qed.

(** X5: a TFTM client that is not the master client stays silent.  With
    the server known, the SEND_ACK flag clear and no MTFTP recovery, no
    sequence of packets delivered on the multicast socket, of timer
    expiries and of closes makes the client transmit anything; only a
    packet on the unicast socket can turn acknowledgements on again. *)
Theorem tftp_listener_silent (cs : list tftp_call) (w w' : world) :
  st_family (peer (w_tftp w)) <> 0 ->
  flag_set (flags (w_tftp w)) TFTP_FL_SEND_ACK = false ->
  flag_set (flags (w_tftp w)) TFTP_FL_MTFTP_RECOVERY = false ->
  forallb (fun c => negb (is_unicast c)) cs = true ->
  tftp_run cs w = Some (tt, w') ->
  trace_sent (w_trace w') = trace_sent (w_trace w)
  /\ flag_set (flags (w_tftp w')) TFTP_FL_SEND_ACK = false.
Proof.
  intros Hf Ha Hr Hcs H. rewrite forallb_forall in Hcs.
  assert (HR : silent (trace_sent (w_trace w)) (w_tftp w) (w_trace w))
    by (repeat split; assumption).
  assert (Hk : forall c, In c cs ->
                 keeps (silent (trace_sent (w_trace w))) (tftp_handle c)).
  { intros c Hin. apply tftp_handle_silent, negb_true_iff, Hcs, Hin. }
  destruct (keeps_run _ cs Hk w tt w' HR H) as (_ & Ha' & _ & Hs).
  split; assumption.
Qed.

Lemma tftp_listener_silent_witness :
  exists w' : world,
    tftp_run [ CallMcDeliver (data_packet 1 (repeat x41 512)) (Some server_addr);
               CallTimer false;
               CallMcDeliver (data_packet 2 [x42]) (Some server_addr) ] tftm_listener
      = Some (tt, w')
    /\ trace_sent (w_trace w') = trace_sent (w_trace tftm_listener)
    /\ flag_set (flags (w_tftp w')) TFTP_FL_SEND_ACK = false.
Proof.
  eexists. split; [vm_compute; reflexivity|].
  apply (tftp_listener_silent
           [ CallMcDeliver (data_packet 1 (repeat x41 512)) (Some server_addr);
             CallTimer false;
             CallMcDeliver (data_packet 2 [x42]) (Some server_addr) ]);
    vm_compute; solve [reflexivity | discriminate].
Defined.

(** ** DATA packets *)




Lemma length_bitmap_set (bm : bitmap) (bit : Z) :
  length (bitmap_set bm bit) = length bm.
Proof. unfold bitmap_set. apply length_insert. Qed.

Lemma length_bitmap_resized (bm : bitmap) (n : Z) :
  length (bitmap_resized bm n) = Z.to_nat n.
Proof. unfold bitmap_resized. apply length_resize. Qed.

(** X7: a DATA packet that carries more than [blksize] bytes, or block
    number 0 while the download is in its first 65536 blocks, is refused:
    nothing is delivered downstream, nothing is acknowledged, the request
    is left as it was, and the download is terminated with EINVAL. *)
Theorem tftp_rx_data_rejected (w : world) (o1 o2 hi lo : byte) (payload : list byte) :
  let t := w_tftp w in
  blksize t < Z.of_nat (length payload)
  \/ (ntohs hi lo = 0
      /\ Z.of_nat (bitmap_first_gap (tftp_bitmap t)) + 1 < 65536) ->
  tftp_rx_data (o1 :: o2 :: hi :: lo :: payload) w =
    Some (ERR EINVAL, with_events (done_events (ERR EINVAL)) w).
Proof.
  destruct w as [t gb m tr env]. cbn [w_tftp]. intros H.
  unfold tftp_rx_data. unfold_monad. simpl.
  destruct (tftp_block_number (Z.of_nat (bitmap_first_gap (tftp_bitmap t)))
              (ntohs hi lo)) as [block|] eqn:Hblk.
  - destruct H as [Hlen|[Hz Hg]].
    + destruct (Z.ltb_spec (blksize t) (Z.of_nat (length payload))); [|lia].
      simpl. rewrite ?tftp_done_run. unfold with_events, done_events. simpl.
    rewrite <- ?app_assoc. reflexivity.
    + rewrite tftp_block_number_eq, Hz, Z.div_small in Hblk by lia.
      discriminate Hblk.
  - simpl. rewrite ?tftp_done_run. unfold with_events, done_events. simpl.
    rewrite <- ?app_assoc. reflexivity.
Qed.

Lemma tftp_rx_data_rejected_witness :
  tftp_rx_data (data_packet 1 (repeat x41 513)) opened
    = Some (ERR EINVAL, with_events (done_events (ERR EINVAL)) opened).
Proof.
  apply (tftp_rx_data_rejected opened x00 x03 x00 x01 (repeat x41 513)).
  left. vm_compute. reflexivity.
Defined.

(** X8: a block is marked as received only after the downstream interface
    has taken it and the bitmap could be grown.  When the downstream
    delivery fails, the download is terminated with that error, with no
    change to the request; when growing the bitmap fails, it is terminated
    with ENOMEM after the new size has been recorded and announced.  In
    both cases the bit of the block is not set and no ACK is sent. *)
Theorem tftp_rx_data_failure (w : world) (o1 o2 hi lo : byte) (payload : list byte)
    (block : Z) (e : errno) (env : list status) :
  let t := w_tftp w in
  let off := to_signed (uint (block * blksize t)) in
  let F := uint (off + Z.of_nat (length payload)) in
  tftp_block_number (Z.of_nat (bitmap_first_gap (tftp_bitmap t))) (ntohs hi lo)
    = Some block ->
  Z.of_nat (length payload) <= blksize t ->
  (w_env w = ERR e :: env ->
   tftp_rx_data (o1 :: o2 :: hi :: lo :: payload) w =
     Some (ERR e,
           {| w_tftp := t; w_request_blksize := w_request_blksize w;
              w_mtftp_socket := w_mtftp_socket w;
              w_trace := w_trace w ++ [EvDeliver off payload] ++ done_events (ERR e);
              w_env := env |}))
  /\ (w_env w = OK :: ERR e :: env -> filesize t < F -> blksize t <> 0 ->
      tftp_rx_data (o1 :: o2 :: hi :: lo :: payload) w =
        Some (ERR ENOMEM,
              {| w_tftp := set_filesize F t; w_request_blksize := w_request_blksize w;
                 w_mtftp_socket := w_mtftp_socket w;
                 w_trace := w_trace w ++ [EvDeliver off payload; EvSeek (to_signed F);
                                          EvSeek 0] ++ done_events (ERR ENOMEM);
                 w_env := env |})).
Proof.
  destruct w as [t gb m tr env0]. cbn [w_tftp w_env w_trace w_request_blksize
                                          w_mtftp_socket].
  intros Hblk Hlen. split.
  - intros ->. unfold tftp_rx_data. unfold_monad. simpl. rewrite Hblk.
    destruct (Z.ltb_spec (blksize t) (Z.of_nat (length payload))); [lia|].
    simpl. rewrite ?tftp_done_run. unfold with_events, done_events. simpl.
    rewrite <- ?app_assoc. reflexivity.
  - intros -> HF Hb. unfold tftp_rx_data. unfold_monad. simpl. rewrite Hblk.
    destruct (Z.ltb_spec (blksize t) (Z.of_nat (length payload))); [lia|].
    simpl. rewrite tftp_presize_cases. simpl.
    destruct (Z.leb_spec (uint (to_signed (uint (block * blksize t))
                                + Z.of_nat (length payload))) (filesize t)); [lia|].
    destruct (Z.eqb_spec (blksize t) 0); [contradiction|].
    simpl. rewrite ?tftp_done_run. unfold with_events, done_events. simpl.
    rewrite <- ?app_assoc. reflexivity.
Qed.

Lemma tftp_rx_data_failure_witness :
  tftp_rx_data (data_packet 1 [x41])
    {| w_tftp := w_tftp opened; w_request_blksize := w_request_blksize opened;
       w_mtftp_socket := w_mtftp_socket opened; w_trace := [];
       w_env := [ERR (EEXTERNAL 1)] |}
  = Some (ERR (EEXTERNAL 1),
          {| w_tftp := w_tftp opened; w_request_blksize := w_request_blksize opened;
             w_mtftp_socket := w_mtftp_socket opened;
             w_trace := [EvDeliver 0 [x41]] ++ done_events (ERR (EEXTERNAL 1));
             w_env := [] |}).
Proof.
  apply (tftp_rx_data_failure
           {| w_tftp := w_tftp opened; w_request_blksize := w_request_blksize opened;
              w_mtftp_socket := w_mtftp_socket opened; w_trace := [];
              w_env := [ERR (EEXTERNAL 1)] |}
           x00 x03 x00 x01 [x41] 0 (EEXTERNAL 1) []
           ltac:(vm_compute; reflexivity) ltac:(vm_compute; discriminate)).
  reflexivity.
Defined.

Lemma bind_inv {A B} (c : M A) (k : A -> M B) (w w' : world) (b : B) :
  bind c k w = Some (b, w') ->
  exists a w1, c w = Some (a, w1) /\ k a w1 = Some (b, w').
Proof.
  unfold bind. destruct (c w) as [[a w1]|]; [|discriminate].
  intros H. exists a, w1. split; [reflexivity | exact H].
Qed.

Lemma tftp_presize_ok_request (F : Z) (w w' : world) :
  let t := w_tftp w in
  tftp_presize F w = Some (OK, w') ->
  w_tftp w' =
    if F <=? filesize t then t
    else set_bitmap (bitmap_resized (tftp_bitmap t) (uint (F / blksize t + 1)))
           (set_filesize F t).
Proof.
  intros t. rewrite tftp_presize_cases. fold t.
  destruct (F <=? filesize t).
  - intros H. injection H as <-. reflexivity.
  - destruct (blksize t =? 0); [discriminate|]. cbv zeta.
    destruct (w_env w) as [|[|e] env]; intros H; try discriminate H;
      injection H as <-; reflexivity.
Qed.

(** The request after a DATA packet that [tftp_rx_data] has accepted,
    whatever the collaborators answered. *)
Lemma tftp_rx_data_accepted (w w' : world) (o1 o2 hi lo : byte) (payload : list byte) :
  let t := w_tftp w in
  tftp_rx_data (o1 :: o2 :: hi :: lo :: payload) w = Some (OK, w') ->
  exists block : Z,
    tftp_block_number (Z.of_nat (bitmap_first_gap (tftp_bitmap t))) (ntohs hi lo)
      = Some block
    /\ Z.of_nat (length payload) <= blksize t
    /\ w_tftp w' =
         let F := uint (to_signed (uint (block * blksize t))
                        + Z.of_nat (length payload)) in
         set_bitmap
           (bitmap_set (if F <=? filesize t then tftp_bitmap t
                        else bitmap_resized (tftp_bitmap t) (uint (F / blksize t + 1)))
                       block)
           (set_filesize (Z.max (filesize t) F) t).
Proof.
  intros t H. unfold tftp_rx_data in H.
  apply bind_inv in H as (rc & w1 & H1 & H2).
  destruct rc as [|e].
  2:{ apply bind_inv in H2 as (? & ? & _ & H2). discriminate H2. }
  injection H2 as <-.
  apply bind_inv in H1 as (t0 & w0 & Hget & H1).
  injection Hget as <- <-. fold t in H1.
  destruct (tftp_block_number (Z.of_nat (bitmap_first_gap (tftp_bitmap t)))
              (ntohs hi lo)) as [block|]; [|discriminate H1].
  exists block. split; [reflexivity|].
  cbv zeta in H1.
  destruct (Z.ltb_spec (blksize t) (Z.of_nat (length payload))) as [|Hlen];
    [discriminate H1|].
  split; [exact Hlen|].
  apply bind_inv in H1 as ([] & w2 & Hemit & H1).
  injection Hemit as <-.
  apply bind_inv in H1 as (rc & w3 & Hext & H1).
  assert (Ht3 : w_tftp w3 = t).
  { unfold ext_call in Hext. cbn [w_env] in Hext.
    destruct (w_env w); injection Hext as <- <-; reflexivity. }
  destruct rc as [|e]; [|discriminate H1].
  apply bind_inv in H1 as (rc & w4 & Hpre & H1).
  destruct rc as [|e]; [|discriminate H1].
  apply tftp_presize_ok_request in Hpre. rewrite Ht3 in Hpre.
  apply bind_inv in H1 as ([] & w5 & Hmod & H1).
  injection Hmod as <-.
  apply bind_inv in H1 as (rc & w6 & Hsend & H1).
  apply (tftp_send_packet_preserves (fun t => t)) in Hsend.
  apply bind_inv in H1 as (t6 & w7 & Hget & H1).
  injection Hget as <- <-.
  apply bind_inv in H1 as ([] & w8 & Hdone & H1).
  injection H1 as <-.
  assert (Ht8 : w_tftp w8 = w_tftp w6).
  { destruct (bitmap_full (tftp_bitmap (w_tftp w6))).
    - exact (tftp_done_preserves (fun t => t) OK w6 tt w8 Hdone).
    - injection Hdone as <-. reflexivity. }
  rewrite Ht8, Hsend. cbn [w_tftp]. rewrite Hpre. cbv zeta.
  destruct (Z.leb_spec
              (uint (to_signed (uint (block * blksize t)) + Z.of_nat (length payload)))
              (filesize t)).
  - rewrite Z.max_l by lia. destruct t; reflexivity.
  - rewrite Z.max_r by lia. reflexivity.
Qed.

Lemma tftp_block_number_range (g k block : Z) :
  tftp_block_number g k = Some block -> 0 <= block < 2 ^ 32.
Proof.
  unfold tftp_block_number. cbv zeta.
  destruct (_ && _); [discriminate|].
  intros H. injection H as <-. apply uint_range.
Qed.

Lemma bitmap_set_lookup (bm : bitmap) (bit : Z) :
  (Z.to_nat bit < length bm)%nat ->
  bitmap_set bm bit !! Z.to_nat bit = Some true
  /\ forall i, bm !! i = Some true -> bitmap_set bm bit !! i = Some true.
Proof.
  intros Hlt. unfold bitmap_set. split.
  - apply list_lookup_insert_eq, Hlt.
  - intros i Hi. destruct (decide (Z.to_nat bit = i)) as [<-|Hne].
    + apply list_lookup_insert_eq, Hlt.
    + transitivity (bm !! i); [|exact Hi].
      apply list_lookup_insert_ne, Hne.
Qed.

(** X9: the bitmap follows the size of the file.  When the bitmap has one
    bit per block of [filesize] bytes (or no size is known yet), a DATA
    packet that is accepted keeps it so: [filesize] becomes the larger of
    its old value and the end of the block, the bitmap is grown to match,
    the bit of the block lies inside the bitmap and is set, and no bit
    that was set is lost. *)
Theorem tftp_rx_data_marks (w w' : world) (o1 o2 hi lo : byte) (payload : list byte) :
  let t := w_tftp w in
  let t' := w_tftp w' in
  bitmap_sized t -> 0 < blksize t -> 0 <= filesize t ->
  tftp_bitmap t <> [] \/ payload <> [] ->
  (forall block,
      tftp_block_number (Z.of_nat (bitmap_first_gap (tftp_bitmap t))) (ntohs hi lo)
        = Some block ->
      block * blksize t + Z.of_nat (length payload) < 2 ^ 31) ->
  tftp_rx_data (o1 :: o2 :: hi :: lo :: payload) w = Some (OK, w') ->
  exists block : Z,
    tftp_block_number (Z.of_nat (bitmap_first_gap (tftp_bitmap t))) (ntohs hi lo)
      = Some block
    /\ bitmap_sized t'
    /\ blksize t' = blksize t
    /\ filesize t' = Z.max (filesize t) (block * blksize t + Z.of_nat (length payload))
    /\ tftp_bitmap t' !! Z.to_nat block = Some true
    /\ (forall i, tftp_bitmap t !! i = Some true -> tftp_bitmap t' !! i = Some true).
Proof.
  intros t t' Hsized Hb Hfs Hne Hbound H.
  apply tftp_rx_data_accepted in H as (block & Hblk & Hlen & Ht').
  exists block. split; [exact Hblk|].
  specialize (Hbound block Hblk).
  pose proof (tftp_block_number_range _ _ _ Hblk) as Hblock.
  subst t'. rewrite Ht'. clear Ht'. fold t. cbv zeta.
  destruct t as [u b ts po pe fl mt bm fs].
  cbn [blksize filesize tftp_bitmap set_bitmap set_filesize] in *.
  assert (Hbb : 0 <= block * b) by nia.
  rewrite (uint_small (block * b)), to_signed_small, uint_small by lia.
  remember (block * b + Z.of_nat (length payload)) as F eqn:HeqF.
  assert (Hdiv : block <= F / b) by (apply Z.div_le_lower_bound; lia).
  assert (HFb : F / b + 1 < 2 ^ 32).
  { assert (F / b <= F) by (apply Z.div_le_upper_bound; nia). lia. }
  unfold bitmap_sized in *.
  cbn [blksize filesize tftp_bitmap set_bitmap set_filesize] in *.
  destruct (Z.leb_spec F fs) as [Hle|Hgt].
  - assert (Hlength : Z.of_nat (length bm) = fs / b + 1).
    { destruct Hsized as [[-> ->]|Hs]; [|exact Hs].
      destruct Hne as [Hne|Hne]; [contradiction|].
      destruct payload; [contradiction|]. cbn [length] in HeqF. lia. }
    assert (Hin : (Z.to_nat block < length bm)%nat).
    { assert (F / b <= fs / b) by (apply Z.div_le_mono; lia). lia. }
    destruct (bitmap_set_lookup bm block Hin) as [Hset Hkeep].
    split; [|split; [|split; [|split]]].
    + right. rewrite length_bitmap_set, Z.max_l by lia. exact Hlength.
    + reflexivity.
    + reflexivity.
    + exact Hset.
    + exact Hkeep.
  - assert (Hlength : length (bitmap_resized bm (uint (F / b + 1)))
                      = Z.to_nat (F / b + 1)).
    { rewrite length_bitmap_resized, uint_small by lia. reflexivity. }
    assert (Hin : (Z.to_nat block < length (bitmap_resized bm (uint (F / b + 1))))%nat)
      by lia.
    destruct (bitmap_set_lookup _ block Hin) as [Hset Hkeep].
    split; [|split; [|split; [|split]]].
    + right. rewrite length_bitmap_set, Hlength, Z.max_r by lia. lia.
    + reflexivity.
    + reflexivity.
    + exact Hset.
    + intros i Hi. apply Hkeep.
      assert (Hil : (i < length bm)%nat) by (apply lookup_lt_is_Some; eauto).
      unfold bitmap_resized. transitivity (bm !! i); [|exact Hi].
      apply lookup_resize; [|exact Hil].
      rewrite uint_small by lia.
      destruct Hsized as [[_ ->]|Hs]; [cbn [length] in Hil; lia|].
      assert (fs / b <= F / b) by (apply Z.div_le_mono; lia). lia.
Qed.

Lemma tftp_rx_data_marks_witness :
  exists w' : world,
    tftp_rx_data (data_packet 3 (repeat x41 100)) opened = Some (OK, w')
    /\ filesize (w_tftp w') = 1124
    /\ tftp_bitmap (w_tftp w') = [false; false; true].
Proof.
  eexists. split; [vm_compute; reflexivity|].
  destruct (tftp_rx_data_marks opened _ x00 x03 x00 x03 (repeat x41 100)
              ltac:(left; vm_compute; split; reflexivity)
              ltac:(vm_compute; reflexivity)
              ltac:(vm_compute; discriminate)
              ltac:(right; discriminate)
              ltac:(intros block Hblk; vm_compute in Hblk; injection Hblk as <-;
                    vm_compute; reflexivity)
              ltac:(vm_compute; reflexivity))
    as (block & Hblk & _).
  vm_compute. split; reflexivity.
Defined.



(** The request after the MTFTP fallback to plain TFTP. *)
Lemma mtftp_fallback_request (w : world) (fail : bool) (path : string) :
  let t := w_tftp w in
  flag_set (flags t) TFTP_FL_MTFTP_RECOVERY = true ->
  st_family (peer t) = 0 ->
  uri_path (tftp_uri t) = Some path ->
  MTFTP_MAX_TIMEOUTS < uint (mtftp_timeouts t + 1) ->
  exists w' : world,
    tftp_timer_expired fail w = Some (tt, w')
    /\ w_tftp w' =
         set_peer sockaddr_zero (set_port TFTP_PORT (set_bitmap bitmap_empty
           (set_flags TFTP_FL_RRQ_SIZES
              (set_mtftp_timeouts (uint (mtftp_timeouts t + 1)) t)))).
Proof.
  destruct w as [t gb m tr env]; simpl. intros Hfl Hpeer Hpath Hlt.
  unfold tftp_timer_expired; unfold_monad; simpl.
  rewrite Hfl, Hpeer; change (0 =? 0) with true; simpl.
  destruct (Z.ltb_spec MTFTP_MAX_TIMEOUTS (uint (mtftp_timeouts t + 1)));
    [|lia]. simpl.
  unfold tftp_reopen; unfold_monad; simpl.
  destruct env as [|[|e] env]; simpl.
  - edestruct (tftp_send_packet_rrq) as (rc & rest & env' & Hrun & _);
      [| | rewrite Hrun]; [reflexivity | exact Hpath |].
    eexists. split; reflexivity.
  - edestruct (tftp_send_packet_rrq) as (rc & rest & env' & Hrun & _);
      [| | rewrite Hrun]; [reflexivity | exact Hpath |].
    eexists. split; reflexivity.
  - rewrite ?tftp_done_run. eexists. split; reflexivity.
Qed.

(** X10: the MTFTP fallback forgets the blocks but not the size.  When an
    MTFTP request falls back to plain TFTP, the bitmap is discarded while
    [filesize] and [blksize] keep their values.  If some data had been
    received before, the bitmap no longer matches the size, and
    [tftp_presize] will not create it again for any size up to the old
    one: it returns at once. *)
Theorem mtftp_fallback_stale_size (w : world) (fail : bool) (path : string) :
  let t := w_tftp w in
  flag_set (flags t) TFTP_FL_MTFTP_RECOVERY = true ->
  st_family (peer t) = 0 ->
  uri_path (tftp_uri t) = Some path ->
  MTFTP_MAX_TIMEOUTS < uint (mtftp_timeouts t + 1) ->
  exists w' : world,
    tftp_timer_expired fail w = Some (tt, w')
    /\ tftp_bitmap (w_tftp w') = []
    /\ filesize (w_tftp w') = filesize t
    /\ blksize (w_tftp w') = blksize t
    /\ (0 < filesize t -> 0 < blksize t -> ~ bitmap_sized (w_tftp w'))
    /\ (forall F, F <= filesize t -> tftp_presize F w' = Some (OK, w')).
Proof.
  intros t Hfl Hpeer Hpath Hlt.
  destruct (mtftp_fallback_request w fail path Hfl Hpeer Hpath Hlt) as (w' & Hrun & Ht').
  exists w'. split; [exact Hrun|].
  fold t in Ht'.
  assert (Hbm : tftp_bitmap (w_tftp w') = []) by (rewrite Ht'; reflexivity).
  assert (Hfs : filesize (w_tftp w') = filesize t) by (rewrite Ht'; reflexivity).
  assert (Hb : blksize (w_tftp w') = blksize t) by (rewrite Ht'; reflexivity).
  repeat split; try assumption.
  - intros Hpos Hbpos [[Hz _]|Hlen].
    + lia.
    + rewrite Hbm, Hfs, Hb in Hlen. cbn [length] in Hlen.
      assert (0 <= filesize t / blksize t) by (apply Z.div_pos; lia). lia.
  - intros F HF. apply tftp_presize_noop. lia.
Qed.

Lemma mtftp_fallback_stale_size_witness :
  exists w1 w' : world,
    exec (tftp_socket_deliver_iob (data_packet 1 (repeat x41 512)) (Some server_addr) ;;
          tftp_timer_expired false) mtftp_waiting = Some w1
    /\ filesize (w_tftp w1) = 512
    /\ st_family (peer (w_tftp w1)) = 0
    /\ tftp_timer_expired false w1 = Some (tt, w')
    /\ tftp_bitmap (w_tftp w') = []
    /\ filesize (w_tftp w') = 512.
Proof.
  eexists.
  destruct (mtftp_fallback_stale_size
              (default boot_world
                 (exec (tftp_socket_deliver_iob (data_packet 1 (repeat x41 512))
                          (Some server_addr) ;;
                        tftp_timer_expired false) mtftp_waiting))
              false "/file"
              ltac:(vm_compute; reflexivity) ltac:(vm_compute; reflexivity)
              ltac:(vm_compute; reflexivity) ltac:(vm_compute; reflexivity))
    as (w' & Hrun & Hbm & Hfs & _).
  exists w'.
  split; [vm_compute; reflexivity|].
  split; [vm_compute; reflexivity|].
  split; [vm_compute; reflexivity|].
  split; [exact Hrun|].
  split; [exact Hbm|].
  rewrite Hfs. vm_compute. reflexivity.
Defined.

(** ** The retransmission timer *)

Lemma tftp_send_packet_run (w : world) (path : string) :
  w_env w = [] -> uri_path (tftp_uri (w_tftp w)) = Some path ->
  tftp_send_packet w =
    Some (OK, with_events ([EvStopTimer; EvStartTimer] ++ retransmission w path) w).
Proof.
  destruct w as [t gb m tr env]; simpl. intros -> Hpath.
  unfold tftp_send_packet, tftp_send_rrq, tftp_send_ack, retransmission, rrq_fields.
  unfold_monad. simpl.
  destruct (st_family (peer t) =? 0); simpl.
  - rewrite Hpath. unfold with_events, strip_slash. simpl.
    rewrite <- !app_assoc. reflexivity.
  - destruct (flag_set (flags t) TFTP_FL_SEND_ACK); simpl;
      unfold with_events; simpl; rewrite <- ?app_assoc; reflexivity.
Qed.

(** X11: the retry timer of a request without MTFTP recovery.  When the
    timer gives up, the download is terminated with ETIMEDOUT and nothing
    is transmitted.  Otherwise the timer is restarted and the last packet
    is repeated: the RRQ as long as no server has answered (for a request
    whose RRQ fits the buffer of [tftp_send_rrq]), then the ACK of the
    first missing block.  In both cases the request is left unchanged. *)
Theorem tftp_timer_plain (w : world) (path : string) :
  let t := w_tftp w in
  flag_set (flags t) TFTP_FL_MTFTP_RECOVERY = false ->
  uri_path (tftp_uri t) = Some path ->
  tftp_timer_expired true w =
    Some (tt, with_events (done_events (ERR ETIMEDOUT)) w)
  /\ (st_family (peer t) <> 0 \/ rrq_fits (flags t) (w_request_blksize w) ->
      (w_env w = [] ->
       tftp_timer_expired false w =
         Some (tt, with_events ([EvStopTimer; EvStartTimer] ++ retransmission w path) w))
      /\ (forall w', tftp_timer_expired false w = Some (tt, w') -> w_tftp w' = t)).
Proof.
  intros t Hfl Hpath. subst t. split; [|intros _; split].
  - unfold tftp_timer_expired. unfold bind at 1, get_tftp. rewrite Hfl.
    unfold bind, ret. rewrite ?tftp_done_run. reflexivity.
  - intros Henv.
    unfold tftp_timer_expired. unfold bind at 1, get_tftp. rewrite Hfl.
    unfold bind, ret. rewrite (tftp_send_packet_run w path Henv Hpath). reflexivity.
  - intros w'.
    unfold tftp_timer_expired. unfold bind at 1, get_tftp. rewrite Hfl.
    unfold bind at 1, ret at 1. intros H.
    apply bind_inv in H as (rc & w1 & Hsend & H). injection H as <-.
    exact (tftp_send_packet_preserves (fun t => t) w rc w1 Hsend).
Qed.

Lemma tftp_timer_plain_witness :
  rrq_fits (flags (w_tftp opened)) (w_request_blksize opened)
  /\ tftp_timer_expired true opened
     = Some (tt, with_events (done_events (ERR ETIMEDOUT)) opened)
  /\ tftp_timer_expired false opened
     = Some (tt, with_events
                   [ EvStopTimer; EvStartTimer;
                     EvSend (TxRRQ ["file"; "octet"; "blksize"; "1432";
                                    "tsize"; "0"]%string) ] opened).
Proof.
  assert (Hfits : rrq_fits (flags (w_tftp opened)) (w_request_blksize opened))
    by (right; left; vm_compute; reflexivity).
  destruct (tftp_timer_plain opened "/file"
              ltac:(vm_compute; reflexivity) ltac:(vm_compute; reflexivity))
    as (Hfail & Hrest).
  destruct (Hrest (or_intror Hfits)) as (Hretry & _).
  split; [exact Hfits|]. split; [exact Hfail|].
  rewrite Hretry by (vm_compute; reflexivity).
  vm_compute. reflexivity.
Defined.

(** X12: the retry timer of an MTFTP request.  The timer never gives up
    on an MTFTP request: its [fail] argument is ignored.  If a server has
    answered before, the expiry restarts the download: the socket is
    reopened on the same port, the peer is forgotten and ACK sending is
    turned off, and the RRQ is sent again; the bitmap, the size of the
    file and the count of timeouts stay as they are. *)
Theorem mtftp_timer_restart (w : world) (fail : bool) (path : string) :
  let t := w_tftp w in
  flag_set (flags t) TFTP_FL_MTFTP_RECOVERY = true ->
  uri_path (tftp_uri t) = Some path ->
  tftp_timer_expired true w = tftp_timer_expired false w
  /\ (st_family (peer t) <> 0 -> w_env w = [] ->
      let t' := set_peer sockaddr_zero
                  (set_flags (flag_clear (flags t) TFTP_FL_SEND_ACK) t) in
      tftp_timer_expired fail w =
        Some (tt, with_events
                    [ EvClose SOCKET OK;
                      EvOpenNamedSocket (uint16 (port t)) (uri_host (tftp_uri t));
                      EvStopTimer; EvStartTimer;
                      EvSend (TxRRQ (rrq_fields (flags t') path (w_request_blksize w))) ]
                    (with_tftp t' w))).
Proof.
  intros t Hfl Hpath. subst t. split.
  - unfold tftp_timer_expired, bind, get_tftp. cbv beta. rewrite Hfl. reflexivity.
  - intros Hpeer Henv. cbv zeta.
    unfold tftp_timer_expired. unfold bind at 1, get_tftp. rewrite Hfl.
    destruct (Z.eqb_spec (st_family (peer (w_tftp w))) 0) as [|_]; [contradiction|].
    cbn [negb].
    destruct w as [t gb m tr env]. cbn [w_tftp w_env w_request_blksize] in *.
    subst env.
    unfold tftp_reopen. unfold_monad. simpl.
    erewrite tftp_send_packet_run; [|reflexivity|exact Hpath].
    unfold retransmission, with_events, with_tftp. simpl.
    change (0 =? 0) with true. cbv iota.
    rewrite <- !app_assoc. reflexivity.
Qed.

Lemma mtftp_timer_restart_witness :
  exists w1 : world,
    exec (tftp_socket_deliver_iob (data_packet 1 (repeat x41 512)) (Some server_addr))
      mtftp_waiting = Some w1
    /\ tftp_timer_expired true w1 = tftp_timer_expired false w1
    /\ exists w' : world,
         tftp_timer_expired true w1 = Some (tt, w')
         /\ peer (w_tftp w') = sockaddr_zero
         /\ tftp_bitmap (w_tftp w') = tftp_bitmap (w_tftp w1)
         /\ trace_sent (w_trace w') =
              trace_sent (w_trace w1) ++ [TxRRQ ["file"; "octet"]%string].
Proof.
  eexists. split; [vm_compute; reflexivity|].
  match goal with
  | |- tftp_timer_expired true ?w1 = _ /\ _ =>
      destruct (mtftp_timer_restart w1 true "/file"
                  ltac:(vm_compute; reflexivity) ltac:(vm_compute; reflexivity))
        as (Hsame & Hrun)
  end.
  split; [exact Hsame|].
  eexists. split.
  - apply Hrun; [vm_compute; discriminate | vm_compute; reflexivity].
  - vm_compute. repeat split.
Defined.

(** ** Packets that are not processed *)

(** X13: packets that [tftp_rx] drops.  A packet shorter than its opcode,
    or without a source address, is dropped with EINVAL and changes
    nothing.  A packet with an opcode other than OACK, DATA and ERROR is
    dropped with EINVAL as well, without terminating the request; but if
    it is the first packet that the request receives, its source has
    become the peer. *)
Theorem tftp_rx_dropped (w : world) (iobuf : list byte) (src : sockaddr_tcpip) :
  let t := w_tftp w in
  ((length iobuf < 2)%nat ->
   tftp_rx iobuf (Some src) w = Some (ERR EINVAL, w))
  /\ tftp_rx iobuf None w = Some (ERR EINVAL, w)
  /\ (forall o1 o2 rest,
        iobuf = o1 :: o2 :: rest ->
        ntohs o1 o2 <> TFTP_OACK -> ntohs o1 o2 <> TFTP_DATA ->
        ntohs o1 o2 <> TFTP_ERROR ->
        (st_family (peer t) = 0 ->
         tftp_rx iobuf (Some src) w = Some (ERR EINVAL, with_tftp (set_peer src t) w))
        /\ (st_family (peer t) <> 0 ->
            tftp_rx iobuf (Some src) w = Some (ERR EINVAL, w))).
Proof.
  intros t. subst t. split; [|split].
  - intros Hlen. destruct iobuf as [|o1 [|o2 rest]]; try reflexivity.
    cbn [length] in Hlen. lia.
  - destruct iobuf as [|o1 [|o2 rest]]; reflexivity.
  - intros o1 o2 rest -> H6 H3 H5.
    assert (Hsw : forall w0, tftp_rx_switch (o1 :: o2 :: rest) (ntohs o1 o2) w0
                              = Some (ERR EINVAL, w0)).
    { intros w0. unfold tftp_rx_switch.
      destruct (Z.eqb_spec (ntohs o1 o2) TFTP_OACK); [contradiction|].
      destruct (Z.eqb_spec (ntohs o1 o2) TFTP_DATA); [contradiction|].
      destruct (Z.eqb_spec (ntohs o1 o2) TFTP_ERROR); [contradiction|].
      reflexivity. }
    split; intros Hpeer; unfold tftp_rx; unfold bind at 1, get_tftp.
    + rewrite Hpeer. change (0 =? 0) with true. cbv iota.
      unfold bind, modify_tftp. rewrite Hsw. reflexivity.
    + destruct (Z.eqb_spec (st_family (peer (w_tftp w))) 0); [contradiction|].
      destruct (negb (bool_decide (peer (w_tftp w) = src))); [reflexivity|].
      apply Hsw.
Qed.

(** ** Opening a request *)

(** The request that [tftp_core_open] creates. *)
Lemma tftp_core_open_run (u : uri) (default_port : Z)
    (multicast : option sockaddr_tcpip) (open_flags : Z) (host path : string)
    (w : world) :
  uri_host u = Some host -> uri_path u = Some path -> w_env w = [] ->
  tftp_core_open u default_port multicast open_flags w =
    Some (OK,
          with_events
            ([ EvClose SOCKET OK;
               EvOpenNamedSocket (uint16 (uint (uri_port u default_port))) (Some host) ]
             ++ match multicast with
                | Some local => [EvClose MC_SOCKET OK; EvOpenSocket local]
                | None => []
                end
             ++ [EvStartTimerNodelay; EvPlug])
            (with_tftp
               {| tftp_uri := u; blksize := TFTP_DEFAULT_BLKSIZE; tsize := 0;
                  port := uint (uri_port u default_port); peer := sockaddr_zero;
                  flags := flag_clear open_flags TFTP_FL_SEND_ACK;
                  mtftp_timeouts := 0; tftp_bitmap := bitmap_empty;
                  filesize := 0 |} w)).
Proof.
  destruct w as [t gb m tr env]; simpl. intros Hhost Hpath ->.
  unfold tftp_core_open. rewrite Hhost, Hpath.
  unfold tftp_reopen, tftp_reopen_mc. unfold_monad. simpl.
  rewrite Hhost.
  destruct multicast as [local|]; simpl;
    unfold with_events, with_tftp; simpl; rewrite <- !app_assoc; reflexivity.
Qed.

(** X14: how opening a request can fail.  Without a host or a path in the
    URI, [tftp_core_open] returns EINVAL and does nothing.  If the request
    cannot be allocated it returns ENOMEM, again without any call.  If
    the socket cannot be opened, the request is terminated with the error
    of the socket and that error is returned: neither is the timer
    started nor the request plugged into its parent. *)
Theorem tftp_core_open_failure (u : uri) (default_port : Z)
    (multicast : option sockaddr_tcpip) (open_flags : Z) (w : world) :
  (uri_host u = None \/ uri_path u = None ->
   tftp_core_open u default_port multicast open_flags w = Some (ERR EINVAL, w))
  /\ (forall (e : errno) (env : list status),
        uri_host u <> None -> uri_path u <> None ->
        (w_env w = ERR e :: env ->
         exists w' : world,
           tftp_core_open u default_port multicast open_flags w = Some (ERR ENOMEM, w')
           /\ w_tftp w' = w_tftp w /\ w_trace w' = w_trace w)
        /\ (w_env w = OK :: ERR e :: env ->
            exists w' : world,
              tftp_core_open u default_port multicast open_flags w = Some (ERR e, w')
              /\ w_trace w' = w_trace w ++
                   [ EvClose SOCKET OK;
                     EvOpenNamedSocket (uint16 (uint (uri_port u default_port)))
                       (uri_host u) ] ++ done_events (ERR e))
        /\ (forall local : sockaddr_tcpip,
              multicast = Some local -> w_env w = OK :: OK :: ERR e :: env ->
              exists w' : world,
                tftp_core_open u default_port multicast open_flags w = Some (ERR e, w')
                /\ w_trace w' = w_trace w ++
                     [ EvClose SOCKET OK;
                       EvOpenNamedSocket (uint16 (uint (uri_port u default_port)))
                         (uri_host u);
                       EvClose MC_SOCKET OK; EvOpenSocket local ]
                     ++ done_events (ERR e))).
Proof.
  destruct w as [t gb m tr env0]. cbn [w_env w_tftp w_trace]. split.
  - intros [H|H]; unfold tftp_core_open; rewrite H; [reflexivity|].
    destruct (uri_host u); reflexivity.
  - intros e env Hhost Hpath.
    destruct (uri_host u) as [host|] eqn:Eh; [|contradiction].
    destruct (uri_path u) as [path|] eqn:Ep; [|contradiction].
    split; [|split]; [intros -> | intros -> | intros local -> ->];
      unfold tftp_core_open; rewrite Eh, Ep.
    + unfold_monad. simpl. eexists. repeat split.
    + unfold tftp_reopen. unfold_monad. simpl. rewrite Eh.
      rewrite ?tftp_done_run. unfold with_events, done_events. simpl.
      eexists. split; [reflexivity|]. simpl. rewrite <- !app_assoc. reflexivity.
    + unfold tftp_reopen, tftp_reopen_mc. unfold_monad. cbn. rewrite Eh.
      rewrite ?tftp_done_run. unfold with_events, done_events. cbn.
      eexists. split; [reflexivity|]. cbn. rewrite <- !app_assoc. reflexivity.
Qed.

Lemma tftp_timer_expired_first (w : world) (path : string) :
  let t := w_tftp w in
  w_env w = [] -> uri_path (tftp_uri t) = Some path ->
  st_family (peer t) = 0 -> mtftp_timeouts t = 0 ->
  tftp_timer_expired false w =
    Some (tt, with_events
                [ EvStopTimer; EvStartTimer;
                  EvSend (TxRRQ (rrq_fields (flags t) path (w_request_blksize w))) ]
                (with_tftp (if flag_set (flags t) TFTP_FL_MTFTP_RECOVERY
                            then set_mtftp_timeouts 1 t else t) w)).
Proof.
  destruct w as [t gb m tr env]. cbn [w_tftp w_env w_request_blksize].
  intros -> Hpath Hpeer Htimeouts.
  unfold tftp_timer_expired. unfold bind at 1, get_tftp. cbn [w_tftp].
  rewrite Hpeer, Htimeouts. change (negb (0 =? 0)) with false. cbv iota.
  change (uint (0 + 1)) with 1. change (MTFTP_MAX_TIMEOUTS <? 1) with false. cbv iota.
  destruct (flag_set (flags t) TFTP_FL_MTFTP_RECOVERY); unfold_monad; simpl;
    (erewrite tftp_send_packet_run; [|reflexivity|exact Hpath]);
    unfold retransmission, with_events, with_tftp; simpl;
    rewrite Hpeer; change (0 =? 0) with true; cbv iota;
    rewrite <- ?app_assoc; reflexivity.
Qed.

(** X15: the first packet of a download.  After the request block size
    has been set to [r], opening a URI and letting the timer expire once
    transmits exactly one packet, the RRQ for the path without its initial
    '/' in octet mode: with the options blksize (the larger of [r] and
    512) and tsize for TFTP, with these and the multicast option for TFTM
    when the block size prints in at most five characters (the RRQ does
    not fit the buffer of [tftp_send_rrq] otherwise), and without any
    option for MTFTP.  It goes to the port of the URI, or else to port 69
    (1759 for MTFTP). *)
Theorem tftp_first_rrq (u : uri) (host path : string) (r : Z) (w : world) :
  let rb := Z.max r 512 in
  let sizes := ["blksize"; pretty (to_signed rb); "tsize"; "0"]%string in
  let file := [strip_slash path; "octet"%string] in
  let first (open : uri -> M status) (w' : world) :=
    exec (tftp_set_request_blksize r ;; open u ;; tftp_timer_expired false) w
      = Some w' in
  uri_host u = Some host -> uri_path u = Some path -> w_env w = [] ->
  (rrq_fits TFTP_FL_RRQ_SIZES rb
   /\ exists w' : world,
        first tftp_open w'
        /\ trace_sent (w_trace w') = trace_sent (w_trace w) ++ [TxRRQ (file ++ sizes)]
        /\ port (w_tftp w') = uint (uri_port u TFTP_PORT))
  /\ ((String.length (pretty (to_signed rb)) <= 5)%nat ->
      rrq_fits (Z.lor TFTP_FL_RRQ_SIZES TFTP_FL_RRQ_MULTICAST) rb
      /\ exists w' : world,
           first tftm_open w'
           /\ trace_sent (w_trace w') =
                trace_sent (w_trace w)
                ++ [TxRRQ (file ++ sizes ++ ["multicast"; ""]%string)]
           /\ port (w_tftp w') = uint (uri_port u TFTP_PORT))
  /\ (rrq_fits TFTP_FL_MTFTP_RECOVERY rb
      /\ exists w' : world,
           first mtftp_open w'
           /\ trace_sent (w_trace w') = trace_sent (w_trace w) ++ [TxRRQ file]
           /\ port (w_tftp w') = uint (uri_port u MTFTP_PORT)
           /\ In (EvOpenSocket (w_mtftp_socket w)) (w_trace w')).
Proof.
  intros rb sizes file first Hhost Hpath Henv. subst first. cbv beta.
  assert (Hrb : (if r <? TFTP_DEFAULT_BLKSIZE then TFTP_DEFAULT_BLKSIZE else r) = rb).
  { subst rb. unfold TFTP_DEFAULT_BLKSIZE. destruct (Z.ltb_spec r 512); lia. }
  assert (Hrun : forall default_port multicast open_flags,
             mtftp_timeouts (w_tftp w) = mtftp_timeouts (w_tftp w) ->
             exists w' : world,
               exec (tftp_set_request_blksize r ;;
                     tftp_core_open u default_port multicast open_flags ;;
                     tftp_timer_expired false) w = Some w'
               /\ trace_sent (w_trace w') =
                    trace_sent (w_trace w)
                    ++ [TxRRQ (rrq_fields (flag_clear open_flags TFTP_FL_SEND_ACK)
                                 path rb)]
               /\ port (w_tftp w') = uint (uri_port u default_port)
               /\ (forall local, multicast = Some local ->
                     In (EvOpenSocket local) (w_trace w'))).
  { intros default_port multicast open_flags _.
    unfold exec. unfold bind at 1, tftp_set_request_blksize. rewrite Hrb.
    erewrite bind_some.
    2:{ apply (tftp_core_open_run u default_port multicast open_flags host path);
          [exact Hhost | exact Hpath | exact Henv]. }
    erewrite (tftp_timer_expired_first _ path); [| exact Henv | exact Hpath | reflexivity..].
    eexists. split; [reflexivity|].
    cbn [w_tftp w_trace with_events with_tftp flags w_request_blksize].
    split; [|split].
    - rewrite !trace_sent_app. cbn [trace_sent flat_map app].
      destruct multicast; cbn [trace_sent flat_map app]; rewrite ?app_nil_r; reflexivity.
    - destruct (flag_set _ TFTP_FL_MTFTP_RECOVERY); reflexivity.
    - intros local ->. rewrite !in_app_iff. cbn [In]. intuition auto. }
  split; [|split].
  - split; [right; left; reflexivity|].
    destruct (Hrun TFTP_PORT None TFTP_FL_RRQ_SIZES eq_refl) as (w' & H1 & H2 & H3 & _).
    exists w'. split; [exact H1|]. split; [|exact H3].
    rewrite H2. reflexivity.
  - intros Hshort. split; [right; right; exact Hshort|].
    destruct (Hrun TFTP_PORT None (Z.lor TFTP_FL_RRQ_SIZES TFTP_FL_RRQ_MULTICAST) eq_refl)
      as (w' & H1 & H2 & H3 & _).
    exists w'. split; [exact H1|]. split; [|exact H3].
    rewrite H2. reflexivity.
  - split; [left; reflexivity|].
    destruct (Hrun MTFTP_PORT (Some (w_mtftp_socket w)) TFTP_FL_MTFTP_RECOVERY eq_refl)
      as (w' & H1 & H2 & H3 & H4).
    exists w'. split; [exact H1|]. split; [|split; [exact H3|]].
    + rewrite H2. reflexivity.
    + apply H4. reflexivity.
Qed.

Lemma tftp_first_rrq_witness :
  (exists w' : world,
    exec (tftp_set_request_blksize 1024 ;; tftp_open example_uri ;;
          tftp_timer_expired false) boot_world = Some w'
    /\ trace_sent (w_trace w') =
         [TxRRQ ["file"; "octet"; "blksize"; "1024"; "tsize"; "0"]%string]
    /\ port (w_tftp w') = 69)
  /\ (exists w' : world,
    exec (tftp_set_request_blksize 1024 ;; tftm_open example_uri ;;
          tftp_timer_expired false) boot_world = Some w'
    /\ trace_sent (w_trace w') =
         [TxRRQ ["file"; "octet"; "blksize"; "1024"; "tsize"; "0";
                 "multicast"; EmptyString]%string]
    /\ port (w_tftp w') = 69).
Proof.
  destruct (tftp_first_rrq example_uri "srv" "/file" 1024 boot_world
              eq_refl eq_refl eq_refl)
    as ((_ & w1 & H1 & H2 & H3) & Htftm & _).
  destruct (Htftm ltac:(vm_compute; lia)) as (_ & w2 & G1 & G2 & G3).
  split.
  - exists w1. split; [exact H1|]. rewrite H2, H3.
    vm_compute. split; reflexivity.
  - exists w2. split; [exact G1|]. rewrite G2, G3.
    vm_compute. split; reflexivity.
Defined.

(** ** Option acknowledgements *)

Lemma strnlen_no_nul (l : list byte) : count_nul l = O -> strnlen l = length l.
Proof.
  induction l as [|b l IH]; [reflexivity|].
  cbn [count_nul strnlen length]. destruct (decide (b = x00)); [discriminate|].
  intros H. rewrite IH by exact H. reflexivity.
Qed.

Lemma strnlen_app_nul (l rest : list byte) :
  count_nul l = O -> strnlen (l ++ x00 :: rest) = length l.
Proof.
  induction l as [|b l IH]; [reflexivity|].
  cbn [count_nul strnlen length app]. destruct (decide (b = x00)); [discriminate|].
  intros H. rewrite IH by exact H. reflexivity.
Qed.

(** What is left after the last complete option ends the loop. *)
Lemma tftp_rx_oack_options_garbage (turns : nat) (garbage : list byte) (w : world) :
  (count_nul garbage <= 1)%nat ->
  tftp_rx_oack_options turns garbage w = Some (OK, w).
Proof.
  intros Hnul. destruct turns as [|turns]; [destruct garbage; reflexivity|].
  destruct garbage as [|b g]; [reflexivity|].
  cbn [tftp_rx_oack_options].
  remember (b :: g) as l eqn:Hl. clear Hl b g.
  assert (H : (length l <? S (strnlen l))%nat = true
              \/ (length l =? S (strnlen l))%nat = true
              \/ (length (drop (S (strnlen l)) l)
                  <? S (strnlen (drop (S (strnlen l)) l)))%nat = true).
  { induction l as [|b l IH]; [left; reflexivity|].
    cbn [count_nul strnlen] in *. destruct (decide (b = x00)).
    - assert (Hl : count_nul l = O) by lia.
      destruct l as [|b' l']; [right; left; reflexivity|].
      right. right. cbn [drop]. rewrite strnlen_no_nul by exact Hl.
      apply Nat.ltb_lt. lia.
    - destruct (IH Hnul) as [H|[H|H]].
      + left. exact H.
      + right. left. exact H.
      + right. right. exact H. }
  destruct H as [H|[H|H]].
  - rewrite H. reflexivity.
  - destruct (length l <? S (strnlen l))%nat; [reflexivity|]. rewrite H. reflexivity.
  - destruct (length l <? S (strnlen l))%nat; [reflexivity|].
    destruct (length l =? S (strnlen l))%nat; [reflexivity|].
    rewrite H. reflexivity.
Qed.

(** One turn of the loop on a complete option. *)
Lemma tftp_rx_oack_options_step (turns : nat) (name value : string)
    (rest : list byte) (w : world) :
  count_nul (list_byte_of_string name) = O ->
  count_nul (list_byte_of_string value) = O ->
  tftp_rx_oack_options (S turns)
    (list_byte_of_string name ++ x00 :: list_byte_of_string value ++ x00 :: rest) w
  = (rc <- tftp_process_option name value ;;
     match rc with
     | OK => tftp_rx_oack_options turns rest
     | ERR _ => ret rc
     end) w.
Proof.
  intros Hn Hv.
  remember (list_byte_of_string name) as nb eqn:Hnb.
  remember (list_byte_of_string value) as vb eqn:Hvb.
  remember (nb ++ x00 :: vb ++ x00 :: rest) as data eqn:Hdata.
  destruct data as [|b d]; [destruct nb; discriminate Hdata|].
  cbn [tftp_rx_oack_options]. rewrite Hdata. clear Hdata b d.
  rewrite (strnlen_app_nul nb _ Hn).
  assert (Hdrop : drop (S (length nb)) (nb ++ x00 :: vb ++ x00 :: rest)
                  = vb ++ x00 :: rest).
  { change (S (length nb)) with (1 + length nb)%nat.
    rewrite Nat.add_comm, <- drop_drop, drop_app_length. reflexivity. }
  rewrite Hdrop, (strnlen_app_nul vb _ Hv).
  rewrite take_app_length.
  assert (Hdrop' : drop (S (length vb)) (vb ++ x00 :: rest) = rest).
  { change (S (length vb)) with (1 + length vb)%nat.
    rewrite Nat.add_comm, <- drop_drop, drop_app_length. reflexivity. }
  rewrite Hdrop', take_app_length.
  rewrite !length_app. cbn [length]. rewrite !length_app. cbn [length].
  destruct (Nat.ltb_spec (length nb + S (length vb + S (length rest))) (S (length nb)));
    [lia|].
  destruct (Nat.eqb_spec (length nb + S (length vb + S (length rest))) (S (length nb)));
    [lia|].
  destruct (Nat.ltb_spec (length vb + S (length rest)) (S (length vb))); [lia|].
  rewrite Hnb, Hvb, !string_of_list_byte_of_string. reflexivity.
Qed.

Lemma tftp_rx_oack_options_pairs (pairs : list (string * string))
    (garbage : list byte) (turns : nat) (w : world) :
  Forall (fun p => count_nul (list_byte_of_string (fst p)) = O
                   /\ count_nul (list_byte_of_string (snd p)) = O) pairs ->
  (count_nul garbage <= 1)%nat ->
  (length (nul_terminated (oack_fields pairs) ++ garbage) <= turns)%nat ->
  tftp_rx_oack_options turns (nul_terminated (oack_fields pairs) ++ garbage) w
  = tftp_process_options pairs w.
Proof.
  intros Hpairs Hg. revert turns w.
  induction Hpairs as [|[name value] pairs [Hn Hv] _ IH]; intros turns w Hturns.
  - cbn [oack_fields nul_terminated flat_map app].
    apply tftp_rx_oack_options_garbage, Hg.
  - cbn [oack_fields nul_terminated flat_map app fst snd] in *.
    fold (oack_fields pairs) in *. fold (nul_terminated (oack_fields pairs)) in *.
    rewrite <- !app_assoc in *. cbn [app] in *.
    rewrite !length_app in Hturns. cbn [length] in Hturns.
    rewrite !length_app in Hturns. cbn [length] in Hturns.
    destruct turns as [|turns]; [lia|].
    rewrite tftp_rx_oack_options_step by assumption.
    cbn [tftp_process_options]. unfold bind.
    destruct (tftp_process_option name value w) as [[[|e] w1]|]; try reflexivity.
    apply IH. lia.
Qed.

(** X16: how the options of an OACK are read.  When the bytes after the
    opcode are a sequence of NUL-terminated names and values, followed by
    anything that does not contain a further complete pair, the loop of
    [tftp_rx_oack] processes exactly these options, each name with its
    value, in the order of the packet, and stops at the first option whose
    handler fails; the trailing bytes are ignored without error. *)
Theorem tftp_rx_oack_options_decode (pairs : list (string * string))
    (garbage : list byte) (w : world) :
  let data := nul_terminated (oack_fields pairs) ++ garbage in
  Forall (fun p => count_nul (list_byte_of_string (fst p)) = O
                   /\ count_nul (list_byte_of_string (snd p)) = O) pairs ->
  (count_nul garbage <= 1)%nat ->
  tftp_rx_oack_options (length data) data w = tftp_process_options pairs w.
Proof.
  intros data Hpairs Hg. apply tftp_rx_oack_options_pairs; [assumption..|].
  apply Nat.le_refl.
Qed.

Lemma tftp_rx_oack_options_decode_witness :
  tftp_rx_oack_options 27
    (nul_terminated ["tsize"; "4000"; "blksize"; "1024"]%string ++ [x41; x00; x42]) opened
  = tftp_process_options [("tsize", "4000"); ("blksize", "1024")]%string opened.
Proof.
  apply (tftp_rx_oack_options_decode [("tsize", "4000"); ("blksize", "1024")]%string
           [x41; x00; x42] opened).
  - repeat constructor.
  - vm_compute. lia.
Defined.

Lemma strtoul_digits_no_nul (base acc v : Z) (s : string) :
  base <= 255 -> strtoul_digits base acc s = (v, EmptyString) ->
  count_nul (list_byte_of_string s) = O.
Proof.
  intros Hbase. revert acc. induction s as [|c s IH]; intros acc H; [reflexivity|].
  cbn [strtoul_digits] in H.
  destruct (Z.ltb_spec (digit_val c) base) as [Hlt|]; [|discriminate H].
  change (list_byte_of_string (String c s))
    with (byte_of_ascii c :: list_byte_of_string s).
  cbn [count_nul]. destruct (decide (byte_of_ascii c = x00)) as [Hc|_].
  - apply (f_equal ascii_of_byte) in Hc. rewrite ascii_of_byte_of_ascii in Hc.
    subst c. change (digit_val (ascii_of_byte x00)) with 255 in Hlt. lia.
  - exact (IH _ H).
Qed.

Lemma strtoul_decimal_no_nul (s : string) (v : Z) :
  strtoul s 10 = (v, EmptyString) -> count_nul (list_byte_of_string s) = O.
Proof. apply strtoul_digits_no_nul. lia. Qed.

Lemma tftp_process_blksize_run (value : string) (v : Z) (w : world) :
  strtoul value 10 = (v, EmptyString) ->
  tftp_process_option "blksize" value w
  = Some (OK, with_tftp (set_blksize (uint v) (w_tftp w)) w).
Proof.
  intros H. change (tftp_process_option "blksize" value) with (tftp_process_blksize value).
  unfold tftp_process_blksize. rewrite H. reflexivity.
Qed.

Lemma tftp_process_tsize_run (value : string) (v : Z) (w : world) :
  strtoul value 10 = (v, EmptyString) ->
  tftp_process_option "tsize" value w
  = Some (OK, with_tftp (set_tsize (uint v) (w_tftp w)) w).
Proof.
  intros H. change (tftp_process_option "tsize" value) with (tftp_process_tsize value).
  unfold tftp_process_tsize. rewrite H. reflexivity.
Qed.

(** An OACK from the server, on the unicast socket, whose options are
    well-formed: the options are processed and the rest of [tftp_rx_oack]
    follows. *)
Lemma tftp_socket_deliver_oack (w : world) (src : sockaddr_tcpip)
    (pairs : list (string * string)) :
  let t := w_tftp w in
  let w0 := with_tftp (set_peer src (set_flags (Z.lor (flags t) TFTP_FL_SEND_ACK) t)) w in
  st_family (peer t) = 0 \/ peer t = src ->
  Forall (fun p => count_nul (list_byte_of_string (fst p)) = O
                   /\ count_nul (list_byte_of_string (snd p)) = O) pairs ->
  tftp_socket_deliver_iob (oack_packet (oack_fields pairs)) (Some src) w =
    (rc <- (rc <- tftp_process_options pairs ;;
            match rc with
            | ERR _ => ret rc
            | OK =>
                t <- get_tftp ;;
                rc <- (if negb (tsize t =? 0) then tftp_presize (tsize t) else ret OK) ;;
                match rc with
                | ERR _ => ret rc
                | OK => _ <- tftp_send_packet ;; ret OK
                end
            end) ;;
     match rc with
     | OK => ret rc
     | ERR _ => tftp_done rc ;; ret rc
     end) w0.
Proof.
  intros t w0 Hpeer Hpairs. subst t w0.
  unfold tftp_socket_deliver_iob. unfold bind at 1, modify_tftp.
  unfold oack_packet. cbn [wire16 app].
  unfold tftp_rx. unfold bind at 1, get_tftp. cbn [w_tftp peer set_flags].
  assert (Hop : ntohs (byte_of_Z (TFTP_OACK / 256)) (byte_of_Z TFTP_OACK) = TFTP_OACK)
    by reflexivity.
  assert (Hrun : forall w0,
             tftp_rx_switch
               (byte_of_Z (TFTP_OACK / 256) :: byte_of_Z TFTP_OACK
                :: flat_map (fun s => list_byte_of_string s ++ [x00]) (oack_fields pairs))
               (ntohs (byte_of_Z (TFTP_OACK / 256)) (byte_of_Z TFTP_OACK)) w0
             = (rc <- (rc <- tftp_process_options pairs ;;
                       match rc with
                       | ERR _ => ret rc
                       | OK =>
                           t <- get_tftp ;;
                           rc <- (if negb (tsize t =? 0) then tftp_presize (tsize t)
                                  else ret OK) ;;
                           match rc with
                           | ERR _ => ret rc
                           | OK => _ <- tftp_send_packet ;; ret OK
                           end
                       end) ;;
                match rc with
                | OK => ret rc
                | ERR _ => tftp_done rc ;; ret rc
                end) w0).
  { intros w0. rewrite Hop. unfold tftp_rx_switch.
    change (TFTP_OACK =? TFTP_OACK) with true. cbv iota.
    unfold tftp_rx_oack. unfold bind at 1 2. unfold bind at 4 5.
    pose proof (tftp_rx_oack_options_pairs pairs [] (length (nul_terminated (oack_fields pairs))) w0
                  Hpairs (Nat.le_0_l 1)) as Hdec.
    rewrite app_nil_r in Hdec. unfold nul_terminated in Hdec.
    rewrite Hdec by apply Nat.le_refl. reflexivity. }
  destruct Hpeer as [Hz|Heq].
  - rewrite Hz. change (0 =? 0) with true. cbv iota.
    unfold bind at 1, modify_tftp. cbn [w_tftp].
    rewrite Hrun. destruct w; reflexivity.
  - destruct (st_family (peer (w_tftp w)) =? 0) eqn:E.
    + unfold bind at 1, modify_tftp. cbn [w_tftp].
      rewrite Hrun. destruct w; reflexivity.
    + rewrite bool_decide_true by exact Heq. cbn [negb].
      rewrite Hrun. f_equal. unfold with_tftp.
      destruct w as [[]]; cbn in *. subst. reflexivity.
Qed.

Lemma bitmap_resized_empty (n : Z) :
  bitmap_resized [] n = replicate (Z.to_nat n) false.
Proof. unfold bitmap_resized. apply resize_nil. Qed.

Lemma bitmap_first_gap_clear (n : nat) : bitmap_first_gap (replicate n false) = O.
Proof. destruct n; reflexivity. Qed.

Lemma bind_assoc {A B C} (c : M A) (k1 : A -> M B) (k2 : B -> M C) (w : world) :
  bind (bind c k1) k2 w = bind c (fun a => bind (k1 a) k2) w.
Proof. unfold bind. destruct (c w) as [[a w1]|]; reflexivity. Qed.

(** The rest of [tftp_rx_oack] once blksize and tsize have been stored. *)
Lemma tftp_rx_oack_sized (w : world) (b n : Z) :
  let t := w_tftp w in
  w_env w = [] -> st_family (peer t) <> 0 ->
  flag_set (flags t) TFTP_FL_SEND_ACK = true ->
  filesize t = 0 -> tftp_bitmap t = [] ->
  blksize t = b -> tsize t = n -> 0 < b < 2 ^ 32 -> 0 < n < 2 ^ 31 ->
  (rc <- (t <- get_tftp ;;
          rc <- (if negb (tsize t =? 0) then tftp_presize (tsize t) else ret OK) ;;
          match rc with
          | ERR _ => ret rc
          | OK => _ <- tftp_send_packet ;; ret OK
          end) ;;
   match rc with
   | OK => ret rc
   | ERR _ => tftp_done rc ;; ret rc
   end) w
  = Some (OK, with_events
                [ EvSeek n; EvSeek 0; EvStopTimer; EvStartTimer;
                  EvSend (TxACK (peer t) 0) ]
                (with_tftp (set_bitmap (replicate (Z.to_nat (n / b + 1)) false)
                              (set_filesize n t)) w)).
Proof.
  destruct w as [t gb m tr env]. cbn [w_tftp w_env].
  intros -> Hpeer Hack Hfs Hbm Hb Hn Hbr Hnr.
  assert (Hdiv : 0 <= n / b <= n).
  { split; [apply Z.div_pos; lia|]. apply Z.div_le_upper_bound; nia. }
  erewrite bind_some.
  2:{ unfold bind at 1, get_tftp. cbn [w_tftp]. rewrite Hn.
      destruct (Z.eqb_spec n 0); [lia|]. cbn [negb].
      erewrite bind_some.
      2:{ rewrite tftp_presize_cases. cbn [w_tftp w_env]. rewrite Hfs, Hb, Hbm.
          destruct (Z.leb_spec n 0); [lia|].
          destruct (Z.eqb_spec b 0); [lia|].
          cbv zeta. rewrite uint_small, bitmap_resized_empty by lia. reflexivity. }
      cbv iota beta.
      erewrite bind_some.
      2:{ apply tftp_send_packet_ack; [reflexivity | exact Hpeer | exact Hack]. }
      reflexivity. }
  cbn [with_tftp with_events w_tftp w_trace set_bitmap set_filesize tftp_bitmap peer].
  rewrite bitmap_first_gap_clear, to_signed_small by lia.
  unfold ret, with_events, with_tftp. cbn. rewrite <- !app_assoc. reflexivity.
Qed.

(** X17: the negotiation of the block size and of the size of the file.
    When the first answer of the server is an OACK that carries the
    options blksize and tsize with decimal values [b] and [n], the request
    takes [b] as its block size, records [n] as the size of the file,
    creates a bitmap of [n / b + 1] clear bits, announces the size
    downstream and acknowledges with block number 0; it makes no
    difference in which order the two options come. *)
Theorem tftp_oack_negotiation (w : world) (src : sockaddr_tcpip)
    (sb sn : string) (b n : Z) :
  let t := w_tftp w in
  let w' := with_events
              [ EvSeek n; EvSeek 0; EvStopTimer; EvStartTimer; EvSend (TxACK src 0) ]
              (with_tftp
                 {| tftp_uri := tftp_uri t; blksize := b; tsize := n; port := port t;
                    peer := src; flags := Z.lor (flags t) TFTP_FL_SEND_ACK;
                    mtftp_timeouts := mtftp_timeouts t;
                    tftp_bitmap := replicate (Z.to_nat (n / b + 1)) false;
                    filesize := n |} w) in
  w_env w = [] -> st_family src <> 0 ->
  st_family (peer t) = 0 \/ peer t = src ->
  filesize t = 0 -> tftp_bitmap t = [] ->
  strtoul sb 10 = (b, EmptyString) -> strtoul sn 10 = (n, EmptyString) ->
  0 < b < 2 ^ 32 -> 0 < n < 2 ^ 31 ->
  tftp_socket_deliver_iob (oack_packet ["blksize"; sb; "tsize"; sn]%string) (Some src) w
    = Some (OK, w')
  /\ tftp_socket_deliver_iob (oack_packet ["tsize"; sn; "blksize"; sb]%string) (Some src) w
     = Some (OK, w').
Proof.
  intros t w' Henv Hsrc Hpeer Hfs Hbm Hsb Hsn Hb Hn. subst t w'.
  pose proof (strtoul_decimal_no_nul _ _ Hsb) as Hnb.
  pose proof (strtoul_decimal_no_nul _ _ Hsn) as Hnn.
  split.
  - change ["blksize"; sb; "tsize"; sn]%string
      with (oack_fields [("blksize", sb); ("tsize", sn)]%string).
    rewrite (tftp_socket_deliver_oack w src [("blksize", sb); ("tsize", sn)]%string Hpeer)
      by (repeat constructor; assumption).
    rewrite bind_assoc. cbn [tftp_process_options].
    erewrite bind_some.
    2:{ erewrite bind_some; [|apply tftp_process_blksize_run; exact Hsb].
        cbv iota beta.
        erewrite bind_some; [|apply tftp_process_tsize_run; exact Hsn].
        reflexivity. }
    cbv iota beta.
    rewrite (tftp_rx_oack_sized _ b n);
      cbn [with_tftp w_tftp w_env set_tsize set_blksize set_peer set_flags peer flags
           filesize tftp_bitmap blksize tsize];
      try assumption; try (apply uint_small; lia).
    + unfold with_events, with_tftp. cbn. rewrite !uint_small by lia. reflexivity.
    + apply flag_set_lor. reflexivity.
  - change ["tsize"; sn; "blksize"; sb]%string
      with (oack_fields [("tsize", sn); ("blksize", sb)]%string).
    rewrite (tftp_socket_deliver_oack w src [("tsize", sn); ("blksize", sb)]%string Hpeer)
      by (repeat constructor; assumption).
    rewrite bind_assoc. cbn [tftp_process_options].
    erewrite bind_some.
    2:{ erewrite bind_some; [|apply tftp_process_tsize_run; exact Hsn].
        cbv iota beta.
        erewrite bind_some; [|apply tftp_process_blksize_run; exact Hsb].
        reflexivity. }
    cbv iota beta.
    rewrite (tftp_rx_oack_sized _ b n);
      cbn [with_tftp w_tftp w_env set_tsize set_blksize set_peer set_flags peer flags
           filesize tftp_bitmap blksize tsize];
      try assumption; try (apply uint_small; lia).
    + unfold with_events, with_tftp. cbn. rewrite !uint_small by lia. reflexivity.
    + apply flag_set_lor. reflexivity.
Qed.

Lemma tftp_oack_negotiation_witness :
  exists w' : world,
    tftp_socket_deliver_iob (oack_packet ["tsize"; "4000"; "blksize"; "1024"]%string)
      (Some server_addr) opened = Some (OK, w')
    /\ blksize (w_tftp w') = 1024
    /\ filesize (w_tftp w') = 4000
    /\ tftp_bitmap (w_tftp w') = [false; false; false; false]
    /\ trace_acks (w_trace w') = [0].
Proof.
  eexists. split.
  - apply (tftp_oack_negotiation opened server_addr "1024" "4000" 1024 4000);
      try (vm_compute; reflexivity); try (vm_compute; discriminate).
    + left. vm_compute. reflexivity.
    + lia.
    + lia.
  - vm_compute. repeat split.
Defined.

(** X18: a block size of zero.  [tftp_process_blksize] accepts the value
    0.  If the same OACK also carries a tsize larger than the size known
    so far, [tftp_presize] divides by the block size: the behaviour of the
    handler is not defined (no result in this model), in whichever order
    the two options come. *)
Theorem tftp_oack_blksize_zero (w : world) (src : sockaddr_tcpip)
    (sb sn : string) (n : Z) :
  let t := w_tftp w in
  st_family (peer t) = 0 \/ peer t = src ->
  strtoul sb 10 = (0, EmptyString) -> strtoul sn 10 = (n, EmptyString) ->
  0 <= filesize t < uint n ->
  tftp_socket_deliver_iob (oack_packet ["blksize"; sb; "tsize"; sn]%string) (Some src) w
    = None
  /\ tftp_socket_deliver_iob (oack_packet ["tsize"; sn; "blksize"; sb]%string) (Some src) w
     = None.
Proof.
  intros t Hpeer Hsb Hsn Hfs. subst t.
  pose proof (strtoul_decimal_no_nul _ _ Hsb) as Hnb.
  pose proof (strtoul_decimal_no_nul _ _ Hsn) as Hnn.
  assert (Hrest : forall w2 : world,
             blksize (w_tftp w2) = 0 -> tsize (w_tftp w2) = uint n ->
             filesize (w_tftp w2) = filesize (w_tftp w) ->
             (rc <- (t <- get_tftp ;;
                     rc <- (if negb (tsize t =? 0) then tftp_presize (tsize t)
                            else ret OK) ;;
                     match rc with
                     | ERR _ => ret rc
                     | OK => _ <- tftp_send_packet ;; ret OK
                     end) ;;
              match rc with
              | OK => ret rc
              | ERR _ => tftp_done rc ;; ret rc
              end) w2 = None).
  { intros w2 Hb Ht Hf. unfold bind at 1 2, get_tftp. rewrite Ht.
    destruct (Z.eqb_spec (uint n) 0); [lia|]. cbn [negb].
    unfold bind at 1. rewrite tftp_presize_cases. rewrite Hf, Hb.
    destruct (Z.leb_spec (uint n) (filesize (w_tftp w))); [lia|]. reflexivity. }
  split.
  - change ["blksize"; sb; "tsize"; sn]%string
      with (oack_fields [("blksize", sb); ("tsize", sn)]%string).
    rewrite (tftp_socket_deliver_oack w src [("blksize", sb); ("tsize", sn)]%string Hpeer)
      by (repeat constructor; assumption).
    rewrite bind_assoc. cbn [tftp_process_options].
    erewrite bind_some.
    2:{ erewrite bind_some; [|apply tftp_process_blksize_run; exact Hsb].
        cbv iota beta.
        erewrite bind_some; [|apply tftp_process_tsize_run; exact Hsn].
        reflexivity. }
    cbv iota beta. apply Hrest; reflexivity.
  - change ["tsize"; sn; "blksize"; sb]%string
      with (oack_fields [("tsize", sn); ("blksize", sb)]%string).
    rewrite (tftp_socket_deliver_oack w src [("tsize", sn); ("blksize", sb)]%string Hpeer)
      by (repeat constructor; assumption).
    rewrite bind_assoc. cbn [tftp_process_options].
    erewrite bind_some.
    2:{ erewrite bind_some; [|apply tftp_process_tsize_run; exact Hsn].
        cbv iota beta.
        erewrite bind_some; [|apply tftp_process_blksize_run; exact Hsb].
        reflexivity. }
    cbv iota beta. apply Hrest; reflexivity.
Qed.

Lemma tftp_oack_blksize_zero_witness :
  tftp_socket_deliver_iob (oack_packet ["blksize"; "0"; "tsize"; "4000"]%string)
    (Some server_addr) opened = None.
Proof.
  apply (tftp_oack_blksize_zero opened server_addr "0" "4000" 4000);
    try (vm_compute; reflexivity).
  - left. vm_compute. reflexivity.
  - vm_compute. split; [discriminate | reflexivity].
Defined.

(** X19: the address and the port of the multicast option.  With a valid
    third field, the option opens the multicast socket on the address and
    port that it carries (the port modulo 65536); a malformed address or
    port gives the matching error; and when the address or the port is
    empty, both are ignored and the multicast socket is left alone.  A
    third field of zero has turned ACK sending off in every case. *)
Theorem tftp_process_multicast_reopen (w : world) (addr port_str mc : string) (m : Z) :
  let t := w_tftp w in
  let value := (addr +:+ "," +:+ port_str +:+ "," +:+ mc)%string in
  let w0 := if m =? 0
            then with_tftp (set_flags (flag_clear (flags t) TFTP_FL_SEND_ACK) t) w
            else w in
  count_commas addr = O -> count_commas port_str = O ->
  strtoul mc 0 = (m, EmptyString) ->
  (addr = EmptyString \/ port_str = EmptyString ->
   tftp_process_multicast value w = Some (OK, w0))
  /\ (addr <> EmptyString -> port_str <> EmptyString ->
      (inet_aton addr = None ->
       tftp_process_multicast value w = Some (ERR ETFTP_MC_INVALID_IP, w0))
      /\ (forall (a : list byte) (p : Z) (rest : string),
            inet_aton addr = Some a -> strtoul port_str 0 = (p, rest) ->
            (rest <> EmptyString ->
             tftp_process_multicast value w = Some (ERR ETFTP_MC_INVALID_PORT, w0))
            /\ (rest = EmptyString -> w_env w = [] ->
                tftp_process_multicast value w =
                  Some (OK, with_events
                              [ EvClose MC_SOCKET OK;
                                EvOpenSocket {| st_family := AF_INET;
                                                st_port := uint16 p;
                                                st_pad := a |} ] w0)))).
Proof.
  intros t value w0 Ha Hp Hmc. subst t value w0.
  unfold tftp_process_multicast.
  rewrite strchr_cut_app, strchr_cut_app by assumption. rewrite Hmc.
  destruct w as [t gb ms tr env]. cbn [w_tftp w_env].
  split.
  - intros [-> | ->].
    + destruct (m =? 0); reflexivity.
    + destruct (m =? 0); destruct addr; reflexivity.
  - intros Hna Hnp.
    destruct addr as [|c1 addr']; [contradiction|].
    destruct port_str as [|c2 port']; [contradiction|].
    split.
    + intros ->. destruct (m =? 0); reflexivity.
    + intros a p rest -> ->. split.
      * intros Hrest. destruct rest; [contradiction|].
        destruct (m =? 0); reflexivity.
      * intros -> ->. unfold tftp_reopen_mc. unfold_monad.
        destruct (m =? 0); cbn; unfold with_events, with_tftp; cbn;
          rewrite <- app_assoc; reflexivity.
Qed.

Lemma tftp_process_multicast_reopen_witness :
  tftp_process_multicast "239.1.1.1,3001,1" boot_world
  = Some (OK, with_events
                [ EvClose MC_SOCKET OK;
                  EvOpenSocket {| st_family := AF_INET; st_port := 3001;
                                  st_pad := [xef; x01; x01; x01] |} ] boot_world).
Proof.
  destruct (tftp_process_multicast_reopen boot_world "239.1.1.1" "3001" "1" 1
              eq_refl eq_refl ltac:(vm_compute; reflexivity)) as (_ & H).
  destruct (H ltac:(discriminate) ltac:(discriminate)) as (_ & H').
  destruct (H' [xef; x01; x01; x01] 3001 EmptyString
              ltac:(vm_compute; reflexivity) ltac:(vm_compute; reflexivity))
    as (_ & H'').
  apply H''; reflexivity.
Defined.

(** *** The names of the options *)

Lemma char_code_tolower_zero (c : ascii) :
  char_code (tolower c) = 0 -> byte_of_ascii c = x00.
Proof.
  destruct c as [[] [] [] [] [] [] [] []]; vm_compute; intros H;
    first [reflexivity | discriminate H].
Qed.

Lemma char_code_inj (c d : ascii) : char_code c - char_code d = 0 -> c = d.
Proof.
  unfold char_code. intros H.
  rewrite <- (ascii_nat_embedding c), <- (ascii_nat_embedding d).
  f_equal. lia.
Qed.

Lemma strcasecmp_zero (a b : string) :
  count_nul (list_byte_of_string a) = O -> count_nul (list_byte_of_string b) = O ->
  strcasecmp a b = 0 <-> lowercase a = lowercase b.
Proof.
  revert b. induction a as [|c a IH]; intros [|d b] Ha Hb.
  - split; reflexivity.
  - change (list_byte_of_string (String d b))
      with (byte_of_ascii d :: list_byte_of_string b) in Hb.
    cbn [count_nul] in Hb. destruct (decide (byte_of_ascii d = x00)) as [|Hd];
      [discriminate Hb|].
    cbn [strcasecmp lowercase]. split; [|discriminate].
    intros H. exfalso. apply Hd, char_code_tolower_zero. lia.
  - change (list_byte_of_string (String c a))
      with (byte_of_ascii c :: list_byte_of_string a) in Ha.
    cbn [count_nul] in Ha. destruct (decide (byte_of_ascii c = x00)) as [|Hc];
      [discriminate Ha|].
    cbn [strcasecmp lowercase]. split; [|discriminate].
    intros H. exfalso. apply Hc, char_code_tolower_zero. exact H.
  - change (list_byte_of_string (String c a))
      with (byte_of_ascii c :: list_byte_of_string a) in Ha.
    change (list_byte_of_string (String d b))
      with (byte_of_ascii d :: list_byte_of_string b) in Hb.
    cbn [count_nul] in Ha, Hb.
    destruct (decide (byte_of_ascii c = x00)); [discriminate Ha|].
    destruct (decide (byte_of_ascii d = x00)); [discriminate Hb|].
    cbn [strcasecmp lowercase]. cbv zeta.
    destruct (Z.eqb_spec (char_code (tolower c) - char_code (tolower d)) 0) as [E|E].
    + apply char_code_inj in E. rewrite E, (IH b Ha Hb).
      split; [intros ->; reflexivity | intros H; injection H as ->; reflexivity].
    + split; [intros H; contradiction|].
      intros H. injection H as H _. rewrite H in E. lia.
Qed.

(** X20: the names of the options.  [tftp_process_option] compares the
    name with the table of options without regard to case: blksize, tsize
    and multicast in any mixture of cases select their handlers, and every
    other name is ignored with success. *)
Theorem tftp_process_option_names (name value : string) :
  count_nul (list_byte_of_string name) = O ->
  tftp_process_option name value =
    if decide (lowercase name = "blksize"%string) then tftp_process_blksize value
    else if decide (lowercase name = "tsize"%string) then tftp_process_tsize value
    else if decide (lowercase name = "multicast"%string)
         then tftp_process_multicast value
         else ret OK.
Proof.
  intros Hname.
  assert (Hcmp : forall option_name : string,
             count_nul (list_byte_of_string option_name) = O ->
             lowercase option_name = option_name ->
             (strcasecmp name option_name =? 0)
             = bool_decide (lowercase name = option_name)).
  { intros o Ho Hlow. destruct (Z.eqb_spec (strcasecmp name o) 0) as [E|E].
    - apply strcasecmp_zero in E; [|assumption..].
      rewrite bool_decide_true; [reflexivity|]. rewrite E. exact Hlow.
    - rewrite bool_decide_false; [reflexivity|].
      intros H. apply E, strcasecmp_zero; [assumption..|].
      rewrite H. symmetry. exact Hlow. }
  unfold tftp_process_option, tftp_options, tftp_process_option_in.
  rewrite !Hcmp by reflexivity.
  repeat (destruct (decide _) as [?|?];
          [rewrite bool_decide_true by assumption; reflexivity
          |rewrite bool_decide_false by assumption]).
  reflexivity.
Qed.

Lemma tftp_process_option_names_witness :
  tftp_process_option "BlkSize" "1024" = tftp_process_blksize "1024"
  /\ tftp_process_option "timeout" "5" = ret OK.
Proof.
  split.
  - rewrite (tftp_process_option_names "BlkSize" "1024" eq_refl). reflexivity.
  - rewrite (tftp_process_option_names "timeout" "5" eq_refl). reflexivity.
Defined.

(** ** Blocks in any order *)

Lemma bitmap_first_gap_le_false (bm : bitmap) (i : nat) :
  bm !! i = Some false -> (bitmap_first_gap bm <= i)%nat.
Proof.
  revert i. induction bm as [|[] bm IH]; intros i H.
  - discriminate H.
  - destruct i as [|i]; [discriminate H|].
    change (bitmap_first_gap (true :: bm)) with (S (bitmap_first_gap bm)).
    apply le_n_S, IH. exact H.
  - apply Nat.le_0_l.
Qed.











Section Download.
Variables (src : sockaddr_tcpip) (b blocks r : Z).
Hypothesis Hsrc : st_family src <> 0.
Hypothesis Hb : 0 < b.
Hypothesis Hblocks : 1 <= blocks < 65535.
Hypothesis Hr : 0 <= r < b.
Hypothesis Hsize : 0 < (blocks - 1) * b + r < 2 ^ 31.






End Download.




(** ** The multicast address of MTFTP *)

(** X22: where an MTFTP request listens.  [mtftp_open] opens the
    multicast socket on the address and port that
    [tftp_set_mtftp_address] and [tftp_set_mtftp_port] have stored last
    (the port modulo 65536), in whichever order they were called; the
    request itself is sent to the port of the URI, or to port 1759, and
    does MTFTP recovery without any option. *)
Theorem mtftp_open_listens (u : uri) (host path : string) (address : list byte)
    (mtftp_port : Z) (w : world) :
  uri_host u = Some host -> uri_path u = Some path -> w_env w = [] ->
  exists w' : world,
    exec (tftp_set_mtftp_address address ;; tftp_set_mtftp_port mtftp_port ;;
          mtftp_open u) w = Some w'
    /\ exec (tftp_set_mtftp_port mtftp_port ;; tftp_set_mtftp_address address ;;
             mtftp_open u) w = Some w'
    /\ w_trace w' = w_trace w ++
         [ EvClose SOCKET OK;
           EvOpenNamedSocket (uint16 (uint (uri_port u MTFTP_PORT))) (Some host);
           EvClose MC_SOCKET OK;
           EvOpenSocket {| st_family := st_family (w_mtftp_socket w);
                           st_port := uint16 mtftp_port;
                           st_pad := address |};
           EvStartTimerNodelay; EvPlug ]
    /\ flags (w_tftp w') = TFTP_FL_MTFTP_RECOVERY
    /\ port (w_tftp w') = uint (uri_port u MTFTP_PORT).
Proof.
  intros Hhost Hpath Henv.
  destruct w as [t gb m tr env]. cbn [w_env] in Henv. subst env.
  eexists. split; [|split; [|split; [|split]]].
  - unfold exec. unfold bind at 1, tftp_set_mtftp_address.
    unfold bind at 1, tftp_set_mtftp_port.
    unfold mtftp_open.
    erewrite (tftp_core_open_run u MTFTP_PORT _ TFTP_FL_MTFTP_RECOVERY host path);
      [reflexivity | exact Hhost | exact Hpath | reflexivity].
  - unfold exec. unfold bind at 1, tftp_set_mtftp_port.
    unfold bind at 1, tftp_set_mtftp_address.
    unfold mtftp_open.
    erewrite (tftp_core_open_run u MTFTP_PORT _ TFTP_FL_MTFTP_RECOVERY host path);
      [reflexivity | exact Hhost | exact Hpath | reflexivity].
  - reflexivity.
  - reflexivity.
  - reflexivity.
Qed.

Lemma mtftp_open_listens_witness :
  exists w' : world,
    exec (tftp_set_mtftp_address [xef; x01; x02; x03] ;; tftp_set_mtftp_port 70000 ;;
          mtftp_open example_uri) boot_world = Some w'
    /\ In (EvOpenSocket {| st_family := AF_INET; st_port := 4464;
                           st_pad := [xef; x01; x02; x03] |}) (w_trace w').
Proof.
  destruct (mtftp_open_listens example_uri "srv" "/file" [xef; x01; x02; x03] 70000
              boot_world eq_refl eq_refl eq_refl) as (w' & Hrun & _ & Htr & _).
  exists w'. split; [exact Hrun|].
  rewrite Htr. cbn. right. right. right. left. reflexivity.
Defined.

(** *** The block size and the options that were processed *)

Lemma tftp_rx_oack_options_process (turns : nat) (data : list byte) (w : world) :
  tftp_rx_oack_options turns data w
  = tftp_process_options (oack_options turns data) w.
Proof.
  revert data w. induction turns as [|turns IH]; intros data w.
  - destruct data; reflexivity.
  - destruct data as [|b data]; [reflexivity|].
    cbn [tftp_rx_oack_options oack_options].
    repeat match goal with
           | |- context [if ?c then _ else _] => destruct c; [reflexivity|]
           end.
    cbn [tftp_process_options]. unfold bind.
    destruct (tftp_process_option _ _ w) as [[[|e] w1]|]; [apply IH | reflexivity..].
Qed.

Lemma tftp_process_option_blksize (name value : string) (w w' : world) (rc : status) :
  tftp_process_option name value w = Some (rc, w') ->
  (strcasecmp name "blksize" = 0
   /\ blksize_of value (blksize (w_tftp w')))
  \/ blksize (w_tftp w') = blksize (w_tftp w).
Proof.
  unfold tftp_process_option, tftp_options; cbn [tftp_process_option_in].
  destruct (Z.eqb_spec (strcasecmp name "blksize") 0) as [Hname|_].
  - intros H. left. split; [exact Hname|]. revert H.
    unfold tftp_process_blksize, blksize_of.
    destruct (strtoul value 10) as [val endp]. unfold_monad.
    destruct endp; intros [= _ <-]; reflexivity.
  - intros H. right. revert H.
    assert (Hp : preserves blksize
                   (if strcasecmp name "tsize" =? 0 then tftp_process_tsize value
                    else if strcasecmp name "multicast" =? 0
                         then tftp_process_multicast value else ret OK)).
    { destruct (strcasecmp name "tsize" =? 0);
        [apply tftp_process_tsize_preserves_blksize|].
      destruct (strcasecmp name "multicast" =? 0);
        [apply tftp_process_multicast_preserves_blksize | apply preserves_ret]. }
    apply Hp.
Qed.

Lemma tftp_process_options_blksize (pairs : list (string * string)) :
  forall (w w' : world) (rc : status),
    tftp_process_options pairs w = Some (rc, w') ->
    blksize (w_tftp w') = blksize (w_tftp w)
    \/ exists (pre post : list (string * string)) (name value : string) (w1 : world),
         pairs = pre ++ (name, value) :: post
         /\ strcasecmp name "blksize" = 0
         /\ tftp_process_options pre w = Some (OK, w1)
         /\ blksize_of value (blksize (w_tftp w')).
Proof.
  induction pairs as [|[name value] pairs IH]; intros w w' rc H.
  - injection H as _ <-. left. reflexivity.
  - cbn [tftp_process_options] in H.
    apply bind_inv in H as (rc1 & w1 & Hopt & H).
    assert (Hhere : blksize (w_tftp w') = blksize (w_tftp w1) ->
              blksize (w_tftp w') = blksize (w_tftp w)
              \/ exists (pre post : list (string * string)) (name0 value0 : string)
                        (w0 : world),
                   (name, value) :: pairs = pre ++ (name0, value0) :: post
                   /\ strcasecmp name0 "blksize" = 0
                   /\ tftp_process_options pre w = Some (OK, w0)
                   /\ blksize_of value0 (blksize (w_tftp w'))).
    { intros Hsame.
      destruct (tftp_process_option_blksize _ _ _ _ _ Hopt) as [[Hname Hval]|Hkeep].
      - right. exists [], pairs, name, value, w.
        split; [reflexivity|]. split; [exact Hname|]. split; [reflexivity|].
        rewrite Hsame. exact Hval.
      - left. rewrite Hsame. exact Hkeep. }
    destruct rc1 as [|e].
    + destruct (IH _ _ _ H) as [Hsame|(pre & post & n & v & w0 & Heq & Hn & Hpre & Hv)].
      * exact (Hhere Hsame).
      * right. exists ((name, value) :: pre), post, n, v, w0.
        split; [rewrite Heq; reflexivity|]. split; [exact Hn|]. split; [|exact Hv].
        cbn [tftp_process_options]. erewrite bind_some; [|exact Hopt]. exact Hpre.
    + injection H as _ <-. apply Hhere. reflexivity.
Qed.

Lemma tftp_rx_oack_blksize (buf : list byte) (w w' : world) (rc : status) :
  tftp_rx_oack buf w = Some (rc, w') ->
  blksize (w_tftp w') = blksize (w_tftp w)
  \/ exists value : string,
       blksize_processed buf w value /\ blksize_of value (blksize (w_tftp w')).
Proof.
  unfold tftp_rx_oack. intros H.
  apply bind_inv in H as (rc1 & w2 & Hbody & Hend).
  assert (Hend' : blksize (w_tftp w') = blksize (w_tftp w2)).
  { revert Hend.
    assert (Hp : preserves blksize
                   (match rc1 with
                    | OK => ret rc1
                    | ERR _ => tftp_done rc1 ;; ret rc1
                    end)) by preserves_auto.
    apply Hp. }
  destruct buf as [|o1 [|o2 data]];
    try (injection Hbody as _ <-; left; exact Hend').
  apply bind_inv in Hbody as (rc0 & w1 & Hloop & Hrest).
  assert (Hrest' : blksize (w_tftp w2) = blksize (w_tftp w1)).
  { revert Hrest.
    assert (Hp : preserves blksize
                   (match rc0 with
                    | OK =>
                        t <- get_tftp ;;
                        rc <- (if negb (tsize t =? 0) then tftp_presize (tsize t)
                               else ret OK) ;;
                        match rc with
                        | OK => _ <- tftp_send_packet ;; ret OK
                        | ERR _ => ret rc
                        end
                    | ERR _ => ret rc0
                    end)) by preserves_auto.
    apply Hp. }
  rewrite tftp_rx_oack_options_process in Hloop.
  destruct (tftp_process_options_blksize _ _ _ _ Hloop)
    as [Hsame|(pre & post & n & v & w0 & Heq & Hn & Hpre & Hv)].
  - left. rewrite Hend', Hrest'. exact Hsame.
  - right. exists v. split.
    + exists pre, post, n, w0. split; [exact Heq|]. split; [exact Hn | exact Hpre].
    + unfold blksize_of in *. rewrite Hend', Hrest'. exact Hv.
Qed.

Lemma tftp_rx_blksize (unicast : bool) (iobuf : list byte)
    (meta_src : option sockaddr_tcpip) (w w' : world) (rc : status) :
  (if unicast then tftp_socket_deliver_iob else tftp_mc_socket_deliver_iob)
    iobuf meta_src w = Some (rc, w') ->
  blksize (w_tftp w') = blksize (w_tftp w)
  \/ exists value : string,
       call_processes_blksize
         ((if unicast then CallDeliver else CallMcDeliver) iobuf meta_src) w value
       /\ blksize_of value (blksize (w_tftp w')).
Proof.
  intros H.
  destruct iobuf as [|o1 [|o2 data]].
  1,2: left; revert H; destruct unicast;
       unfold tftp_socket_deliver_iob, tftp_mc_socket_deliver_iob, tftp_rx;
       unfold_monad; intros [= _ <-]; reflexivity.
  destruct (Z.eq_dec (ntohs o1 o2) TFTP_OACK) as [Hop|Hop].
  2:{ left. revert H.
      assert (Hp : preserves blksize
                     ((if unicast then tftp_socket_deliver_iob
                       else tftp_mc_socket_deliver_iob) (o1 :: o2 :: data) meta_src)).
      { assert (Hrx : preserves blksize (tftp_rx (o1 :: o2 :: data) meta_src)).
        { apply tftp_rx_preserves_blksize. intros ? ? ? [= <- <- _]. exact Hop. }
        destruct unicast; [|exact Hrx].
        unfold tftp_socket_deliver_iob.
        apply preserves_bind; [apply preserves_modify_tftp; reflexivity|].
        intros _. exact Hrx. }
      apply Hp. }
  destruct meta_src as [src|].
  2:{ left. revert H. destruct unicast;
        unfold tftp_socket_deliver_iob, tftp_mc_socket_deliver_iob, tftp_rx;
        unfold_monad; intros [= _ <-]; reflexivity. }
  assert (Hrx : exists rc0,
             (if negb (bool_decide (peer (w_tftp (rx_world unicast src w)) = src))
              then ret (ERR EINVAL)
              else tftp_rx_oack (o1 :: o2 :: data)) (rx_world unicast src w)
             = Some (rc0, w')).
  { exists rc. rewrite <- H. destruct w as [t gb m tr env].
    destruct unicast;
      unfold rx_world, tftp_socket_deliver_iob, tftp_mc_socket_deliver_iob, tftp_rx,
        tftp_rx_switch, bind, modify_tftp, get_tftp, with_tftp;
      cbn [w_tftp w_request_blksize w_mtftp_socket w_trace w_env set_flags set_peer
           peer flags];
      rewrite Hop; change (TFTP_OACK =? TFTP_OACK) with true; cbv iota;
      destruct (st_family (peer t) =? 0) eqn:Ep;
      cbn [peer set_peer]; rewrite ?bool_decide_eq_true_2 by reflexivity;
      reflexivity. }
  destruct Hrx as (rc0 & Hrx).
  assert (Hw : blksize (w_tftp (rx_world unicast src w)) = blksize (w_tftp w)).
  { unfold rx_world. cbn [w_tftp with_tftp].
    destruct unicast, (st_family _ =? 0); reflexivity. }
  destruct (bool_decide (peer (w_tftp (rx_world unicast src w)) = src)) eqn:Epeer.
  - cbn [negb] in Hrx. apply bool_decide_eq_true_1 in Epeer.
    destruct (tftp_rx_oack_blksize _ _ _ _ Hrx) as [Hsame|(value & Hproc & Hval)].
    + left. rewrite Hsame. exact Hw.
    + right. exists value. split; [|exact Hval].
      exists unicast, (o1 :: o2 :: data), src, o1, o2, data.
      split; [reflexivity|]. split; [reflexivity|]. split; [exact Hop|].
      split; [exact Epeer | exact Hproc].
  - cbn [negb] in Hrx. injection Hrx as _ <-. left. exact Hw.
Qed.

Lemma tftp_handle_blksize (c : tftp_call) (w w' : world) :
  tftp_handle c w = Some (tt, w') ->
  blksize (w_tftp w') = blksize (w_tftp w)
  \/ exists value : string,
       call_processes_blksize c w value /\ blksize_of value (blksize (w_tftp w')).
Proof.
  destruct c as [iobuf src|iobuf src|fail|rc|]; cbn [tftp_handle]; intros H.
  - apply bind_inv in H as (rc & w1 & H & Hret). injection Hret as <-.
    exact (tftp_rx_blksize true iobuf src w w1 rc H).
  - apply bind_inv in H as (rc & w1 & H & Hret). injection Hret as <-.
    exact (tftp_rx_blksize false iobuf src w w1 rc H).
  - left. exact (tftp_timer_expired_preserves_blksize fail _ _ _ H).
  - left. exact (tftp_done_preserves blksize rc _ _ _ H).
  - left. revert H. unfold tftp_xfer_window. unfold_monad. intros [= <-]. reflexivity.
Qed.

Lemma tftp_run_blksize (cs : list tftp_call) :
  forall w w' : world,
    tftp_run cs w = Some (tt, w') ->
    blksize (w_tftp w') = blksize (w_tftp w)
    \/ exists (before after : list tftp_call) (c : tftp_call) (w1 : world)
              (value : string),
         cs = before ++ c :: after
         /\ tftp_run before w = Some (tt, w1)
         /\ call_processes_blksize c w1 value
         /\ blksize_of value (blksize (w_tftp w')).
Proof.
  induction cs as [|c cs IH]; intros w w' H.
  - injection H as <-. left. reflexivity.
  - cbn [tftp_run] in H. apply bind_inv in H as ([] & w1 & Hc & Hrest).
    destruct (IH _ _ Hrest)
      as [Hsame|(before & after & c' & w2 & value & Heq & Hrun & Hproc & Hval)].
    + destruct (tftp_handle_blksize c w w1 Hc) as [Hkeep|(value & Hproc & Hval)].
      * left. rewrite Hsame. exact Hkeep.
      * right. exists [], cs, c, w, value.
        split; [reflexivity|]. split; [reflexivity|]. split; [exact Hproc|].
        unfold blksize_of in *. rewrite Hsame. exact Hval.
    + right. exists (c :: before), after, c', w2, value.
      split; [rewrite Heq; reflexivity|]. split; [|split; [exact Hproc | exact Hval]].
      cbn [tftp_run]. erewrite bind_some; [|exact Hc]. exact Hrun.
Qed.

(** An OACK from the server that carries the blksize option alone, with
    a decimal value, while no size of the file has been announced: the
    value becomes the block size, whatever it is, and the OACK is
    acknowledged. *)
Lemma tftp_socket_deliver_oack_blksize (w : world) (src : sockaddr_tcpip)
    (value : string) (b : Z) :
  let t := w_tftp w in
  w_env w = [] -> st_family src <> 0 ->
  st_family (peer t) = 0 \/ peer t = src ->
  tsize t = 0 ->
  strtoul value 10 = (b, EmptyString) ->
  exists w' : world,
    tftp_socket_deliver_iob (oack_packet ["blksize"; value]%string) (Some src) w
      = Some (OK, w')
    /\ blksize (w_tftp w') = uint b.
Proof.
  intros t Henv Hsrc Hpeer Htsize Hvalue. subst t.
  pose proof (strtoul_decimal_no_nul _ _ Hvalue) as Hnul.
  change ["blksize"; value]%string with (oack_fields [("blksize", value)]%string).
  rewrite (tftp_socket_deliver_oack w src [("blksize", value)]%string Hpeer)
    by (repeat constructor; assumption).
  rewrite bind_assoc. cbn [tftp_process_options].
  erewrite bind_some.
  2:{ erewrite bind_some; [|apply tftp_process_blksize_run; exact Hvalue].
      reflexivity. }
  cbv iota beta.
  match goal with |- exists w', bind _ _ ?W = _ /\ _ => set (w0 := W) end.
  assert (Hts : tsize (w_tftp w0) = 0) by exact Htsize.
  assert (Hsend : tftp_send_packet w0 =
            Some (OK, with_events
                        [EvStopTimer; EvStartTimer;
                         EvSend (TxACK src
                           (uint16 (uint (Z.of_nat
                              (bitmap_first_gap (tftp_bitmap (w_tftp w)))))))] w0)).
  { apply (tftp_send_packet_ack w0); cbn [w0 w_env w_tftp with_tftp peer flags
                                          set_blksize set_peer set_flags];
      [exact Henv | exact Hsrc | apply flag_set_lor; reflexivity]. }
  erewrite bind_some.
  2:{ unfold bind at 1, get_tftp. rewrite Hts. change (negb (0 =? 0)) with false. cbv iota.
      erewrite bind_some; [|reflexivity]. cbv iota beta.
      erewrite bind_some; [|exact Hsend]. reflexivity. }
  eexists. split; reflexivity.
Qed.

(** For instance, the OACK "tsize=1000, blksize=8" delivered by the
    server to a freshly opened request: the loop processes the tsize
    option and gets to the blksize option. *)
Example call_processes_blksize_example :
  call_processes_blksize
    (CallDeliver (oack_packet ["tsize"; "1000"; "blksize"; "8"]%string)
       (Some server_addr))
    opened "8".
Proof.
  exists true, (oack_packet ["tsize"; "1000"; "blksize"; "8"]%string), server_addr.
  do 3 eexists.
  split; [reflexivity|]. split; [vm_compute; reflexivity|].
  split; [reflexivity|]. split; [vm_compute; reflexivity|].
  exists [("tsize", "1000")]%string, [], "blksize"%string. eexists.
  split; [vm_compute; reflexivity|]. split; [reflexivity|].
  vm_compute. reflexivity.
Qed.

(** C4 (as amended): [blksize] is initialised to 512 by a successful open,
    and the global requested block size is clamped to at least 512; the
    processing of a blksize option stores the number that the server sent
    (modulo 2^32), whatever it is; the timer, the close of the downstream
    interface, presizing, the tsize and multicast options and every
    received packet that is not an OACK leave [blksize] as it is.  An
    OACK of the server that carries the blksize option alone, with a
    decimal value, is accepted by a request that knows no tsize, and
    leaves that number as the block size.  An OACK as a whole leaves
    [blksize] as it is or sets it to the number of a blksize option of
    the packet that its loop has processed, every option before it
    having been processed without error; and so does every call into the
    request, where only the delivery of an OACK from the peer changes
    it.  So at all times after a successful open
    [blksize] is 512 or the number of a blksize option that was
    processed, in an OACK delivered since. *)
Theorem tftp_blksize_sources :
  (forall (u : uri) (default_port : Z) (multicast : option sockaddr_tcpip)
          (open_flags : Z) (w w' : world),
      tftp_core_open u default_port multicast open_flags w = Some (OK, w') ->
      blksize (w_tftp w') = 512)
  /\ (forall (requested : Z) (w : world),
         exists w' : world,
           tftp_set_request_blksize requested w = Some (tt, w')
           /\ w_request_blksize w' = Z.max requested 512
           /\ 512 <= w_request_blksize w'
           /\ w_tftp w' = w_tftp w)
  /\ (forall (value : string) (w : world),
         exists (rc : status) (w' : world),
           tftp_process_blksize value w = Some (rc, w')
           /\ blksize (w_tftp w') = uint (fst (strtoul value 10)))
  /\ (forall fail : bool, preserves blksize (tftp_timer_expired fail))
  /\ (forall rc : status, preserves blksize (tftp_xfer_close rc))
  /\ (forall F : Z, preserves blksize (tftp_presize F))
  /\ (forall value : string, preserves blksize (tftp_process_tsize value))
  /\ (forall value : string, preserves blksize (tftp_process_multicast value))
  /\ (forall (iobuf : list byte) (src : option sockaddr_tcpip),
         (forall o1 o2 rest, iobuf = o1 :: o2 :: rest -> ntohs o1 o2 <> TFTP_OACK) ->
         preserves blksize (tftp_socket_deliver_iob iobuf src)
         /\ preserves blksize (tftp_mc_socket_deliver_iob iobuf src))
  /\ (forall (w : world) (src : sockaddr_tcpip) (value : string) (b : Z),
         w_env w = [] -> st_family src <> 0 ->
         st_family (peer (w_tftp w)) = 0 \/ peer (w_tftp w) = src ->
         tsize (w_tftp w) = 0 ->
         strtoul value 10 = (b, EmptyString) ->
         exists w' : world,
           tftp_socket_deliver_iob (oack_packet ["blksize"; value]%string) (Some src) w
             = Some (OK, w')
           /\ blksize (w_tftp w') = uint b)
  /\ (forall (buf : list byte) (w w' : world) (rc : status),
         tftp_rx_oack buf w = Some (rc, w') ->
         blksize (w_tftp w') = blksize (w_tftp w)
         \/ exists value : string,
              blksize_processed buf w value
              /\ blksize (w_tftp w') = uint (fst (strtoul value 10)))
  /\ (forall (c : tftp_call) (w w' : world),
         tftp_handle c w = Some (tt, w') ->
         blksize (w_tftp w') = blksize (w_tftp w)
         \/ exists value : string,
              call_processes_blksize c w value
              /\ blksize (w_tftp w') = uint (fst (strtoul value 10)))
  /\ (forall (u : uri) (default_port : Z) (multicast : option sockaddr_tcpip)
             (open_flags : Z) (cs : list tftp_call) (w w0 w' : world),
         tftp_core_open u default_port multicast open_flags w = Some (OK, w0) ->
         tftp_run cs w0 = Some (tt, w') ->
         blksize (w_tftp w') = 512
         \/ exists (before after : list tftp_call) (c : tftp_call) (w1 : world)
                   (value : string),
              cs = before ++ c :: after
              /\ tftp_run before w0 = Some (tt, w1)
              /\ call_processes_blksize c w1 value
              /\ blksize (w_tftp w') = uint (fst (strtoul value 10))).
Proof.
  assert (Hopen : forall (u : uri) (default_port : Z)
                         (multicast : option sockaddr_tcpip)
                         (open_flags : Z) (w w' : world),
             tftp_core_open u default_port multicast open_flags w = Some (OK, w') ->
             blksize (w_tftp w') = 512).
  { intros u dp mc fl w w'. unfold tftp_core_open, tftp_reopen, tftp_reopen_mc.
    destruct (uri_host u); [|discriminate].
    destruct (uri_path u); [|discriminate].
    destruct w as [t gb m tr env]. unfold_monad; simpl.
    destruct env as [|[|e1] [|[|e2] [|[|e3] env]]]; destruct mc as [local|];
      simpl; rewrite ?tftp_done_run; simpl; try discriminate;
      intros [= <-]; reflexivity. }
  split; [exact Hopen|].
  split.
  { intros requested w. eexists. split; [reflexivity|]. simpl.
    unfold TFTP_DEFAULT_BLKSIZE.
    destruct (Z.ltb_spec requested 512); repeat split; lia. }
  split.
  { intros value w. unfold tftp_process_blksize.
    destruct (strtoul value 10) as [val endp]; unfold_monad; simpl.
    destruct endp; do 2 eexists; split; reflexivity. }
  split; [intros fail; apply tftp_timer_expired_preserves_blksize|].
  split; [intros rc; apply tftp_done_preserves|].
  split; [intros F; apply tftp_presize_preserves_blksize|].
  split; [intros v; apply tftp_process_tsize_preserves_blksize|].
  split; [intros v; apply tftp_process_multicast_preserves_blksize|].
  split.
  { intros iobuf src Hop.
    pose proof (tftp_rx_preserves_blksize iobuf src Hop) as H.
    split; [|exact H].
    unfold tftp_socket_deliver_iob.
    apply preserves_bind; [apply preserves_modify_tftp; reflexivity | intros _; exact H]. }
  split; [exact tftp_socket_deliver_oack_blksize|].
  split; [exact tftp_rx_oack_blksize|].
  split; [exact tftp_handle_blksize|].
  intros u dp mc fl cs w w0 w' Hcore Hrun.
  rewrite <- (Hopen u dp mc fl w w0 Hcore).
  exact (tftp_run_blksize cs w0 w' Hrun).
Qed.
